(* ===================================================================== *)
(*  SmelterOS / Chicken Hawk: the governance core                         *)
(*                                                                       *)
(*  A shallow embedding of                                                *)
(*    chickenhawk/core/token_counter.py   (TokenCounter)                  *)
(*    chickenhawk/core/state_manager.py   (TaskState, PRDState,           *)
(*                                         StateManager)                  *)
(*    chickenhawk/core/oracle_gates.py    (OracleGatekeeper)              *)
(*    chickenhawk/core/hitl_controller.py (HITLController)                *)
(*    chickenhawk/chicken_hawk.py         (ChickenHawk.run, step 0)       *)
(*  and the properties of the specification that concern them.            *)
(*                                                                       *)
(*  Conventions.  Python `int` is Z.  Python `str` is Rocq `string`,      *)
(*  one character per code point.  A float that only carries an exact     *)
(*  ratio or a score is a rational Qc.  `None` is `None`.  A dict that    *)
(*  is iterated or counted is an association list in insertion order;     *)
(*  a dict used as a lookup table is a gmap.  Mutable objects shared      *)
(*  between a local variable and a container live in an explicit heap.    *)
(*  Calls that can raise return `result`.                                 *)
(* ===================================================================== *)

From Stdlib Require Import ZArith QArith Qcanon Ascii String Btauto.
From stdpp Require Import base numbers option list strings gmap pretty.

Local Open Scope Z_scope.
Set Warnings "-register-all".

(* --------------------------------------------------------------------- *)
(*  Python exceptions and the error monad                                 *)
(* --------------------------------------------------------------------- *)

Inductive exn : Type :=
  | ZeroDivisionError
  | AttributeError (obj attr : string)
  | TypeError (msg : string)
  | FileNotFoundError (path : string).

Inductive result (A : Type) : Type :=
  | Ok (a : A)
  | Raise (e : exn).
Arguments Ok {A} a.
Arguments Raise {A} e.

Definition rbind {A B} (r : result A) (k : A -> result B) : result B :=
  match r with
  | Ok a => k a
  | Raise e => Raise e
  end.

Notation "x <- r ;; k" := (rbind r (fun x => k))
  (at level 100, r at next level, right associativity, only parsing).

(* Python `a / b` on ints: true division, ZeroDivisionError on b = 0.
   The quotient is kept exact. *)
Definition py_truediv (a b : Z) : result Qc :=
  if decide (b = 0) then Raise ZeroDivisionError
  else Ok (Qc_of_Z a / Qc_of_Z b)%Qc.

(* Python `x or y` on Optional[str]: None and the empty string are falsy. *)
Definition truthy (x : option string) : bool :=
  match x with
  | Some s => negb (String.eqb s "")
  | None => false
  end.

Definition py_or (x y : option string) : option string :=
  if truthy x then x else y.

(* `needle in hay` read as a proposition *)
Definition mentions (needle hay : string) : Prop :=
  exists pre post, hay = pre +:+ needle +:+ post.

(* ===================================================================== *)
(*  token_counter.py                                                      *)
(* ===================================================================== *)

Module TokenCounter.

Record t : Type := mk {
  max_tokens : Z;
  current_tokens : Z;
  context_buffer : string
}.

(* __init__ *)
Definition init (max_tokens : Z) : t :=
  {| max_tokens := max_tokens; current_tokens := 0; context_buffer := "" |}.

(* _estimate_tokens: len(text) // 4 *)
Definition _estimate_tokens (text : string) : Z :=
  Z.of_nat (String.length text) `div` 4.

(* add: returns the new count and the updated counter *)
Definition add (text : string) (self : t) : Z * t :=
  let tokens := _estimate_tokens text in
  let self' :=
    {| max_tokens := max_tokens self;
       current_tokens := current_tokens self + tokens;
       context_buffer := context_buffer self +:+ text |} in
  (current_tokens self', self').

(* get_usage_ratio:
     self.current_tokens / self.max_tokens if self.max_tokens > 0 else 0 *)
Definition get_usage_ratio (self : t) : result Qc :=
  if decide (max_tokens self > 0)
  then py_truediv (current_tokens self) (max_tokens self)
  else Ok 0%Qc.

Definition get_usage (self : t) : Z := current_tokens self.

Definition get_context (self : t) : string := context_buffer self.

Definition reset (self : t) : t :=
  {| max_tokens := max_tokens self; current_tokens := 0; context_buffer := "" |}.

Definition reset_with_summary (summary : string) (self : t) : t :=
  snd (add summary (reset self)).

(* should_distill: self.get_usage_ratio() > threshold *)
Definition should_distill (threshold : Qc) (self : t) : result bool :=
  r <- get_usage_ratio self ;;
  Ok (bool_decide (threshold < r)%Qc).

(* a counter after a sequence of add calls *)
Definition add_all (texts : list string) (self : t) : t :=
  foldl (fun tc text => snd (add text tc)) self texts.

(* The count the specification words: ceil(len(text) / 4). *)
Definition ceil_quarter (text : string) : Z :=
  (Z.of_nat (String.length text) + 3) `div` 4.


(* The calls that change a counter, and a counter after a sequence of
   them. *)
Inductive op : Type :=
  | Add (text : string)
  | Reset
  | ResetWithSummary (summary : string).

Definition step (self : t) (o : op) : t :=
  match o with
  | Add text => snd (add text self)
  | Reset => reset self
  | ResetWithSummary summary => reset_with_summary summary self
  end.

Definition run (ops : list op) (self : t) : t := foldl step self ops.

End TokenCounter.

(* ===================================================================== *)
(*  JSON documents: what json.dump writes and json.load reads back        *)
(* ===================================================================== *)

(* The task-state file holds one JSON document.  The store is modelled at
   the level of the document: what json.dump receives is what json.load
   returns (strings, integers, null, lists and string-keyed objects in
   insertion order). *)
Inductive json : Type :=
  | JNull
  | JBool (b : bool)
  | JInt (n : Z)
  | JStr (s : string)
  | JList (l : list json)
  | JDict (kv : list (string * json)).

(* dict.get(key): the value of the first binding of key *)
Fixpoint dict_get {V} (key : string) (kv : list (string * V)) : option V :=
  match kv with
  | [] => None
  | (k, v) :: rest => if String.eqb k key then Some v else dict_get key rest
  end.

(* d[key] = v: replaces the value in place, or appends a new binding *)
Fixpoint dict_set {V} (key : string) (v : V) (kv : list (string * V))
  : list (string * V) :=
  match kv with
  | [] => [(key, v)]
  | (k, w) :: rest =>
      if String.eqb k key then (k, v) :: rest else (k, w) :: dict_set key v rest
  end.

Fixpoint chars (s : string) : list string :=
  match s with
  | EmptyString => []
  | String c rest => String c EmptyString :: chars rest
  end.

(* `for t in x`: lists give their items, str its characters, dict its
   keys; None, bool and int are not iterable *)
Definition py_iter (x : json) : result (list json) :=
  match x with
  | JList l => Ok l
  | JStr s => Ok (JStr <$> chars s)
  | JDict kv => Ok ((fun p => JStr (fst p)) <$> kv)
  | _ => Raise (TypeError "object is not iterable")
  end.

(* Typed fields.  The dataclasses annotate every field; the records below
   hold values of the annotated type, and a JSON value of another type
   has no counterpart in them: decoding it is a TypeError of the model
   (Python itself would store the value unchecked). *)
Definition as_str (field : string) (x : json) : result string :=
  match x with
  | JStr s => Ok s
  | _ => Raise (TypeError field)
  end.

Definition as_int (field : string) (x : json) : result Z :=
  match x with
  | JInt n => Ok n
  | _ => Raise (TypeError field)
  end.

Definition as_opt_str (field : string) (x : json) : result (option string) :=
  match x with
  | JNull => Ok None
  | JStr s => Ok (Some s)
  | _ => Raise (TypeError field)
  end.

Definition of_opt_str (x : option string) : json :=
  match x with
  | None => JNull
  | Some s => JStr s
  end.

Fixpoint mapM {A B} (f : A -> result B) (l : list A) : result (list B) :=
  match l with
  | [] => Ok []
  | a :: rest =>
      b <- f a ;;
      bs <- mapM f rest ;;
      Ok (b :: bs)
  end.

(* ===================================================================== *)
(*  state_manager.py                                                      *)
(* ===================================================================== *)

Module TaskState.

(* TaskStatus = Literal["pending", "in_progress", "complete", "failed",
   "blocked"]: a str at run time, compared with == *)
Record t : Type := mk {
  id : string;
  title : string;
  status : string;
  retry_count : Z;
  last_failure : option string;
  started_at : option string;
  completed_at : option string;
  output_path : option string;
  spec_path : option string;
  tokens_used : Z
}.

(* cls.__dataclass_fields__ *)
Definition __dataclass_fields__ : list string :=
  ["id"; "title"; "status"; "retry_count"; "last_failure"; "started_at";
   "completed_at"; "output_path"; "spec_path"; "tokens_used"].

(* to_dict: asdict(self) *)
Definition to_dict (self : t) : json :=
  JDict [("id", JStr (id self));
         ("title", JStr (title self));
         ("status", JStr (status self));
         ("retry_count", JInt (retry_count self));
         ("last_failure", of_opt_str (last_failure self));
         ("started_at", of_opt_str (started_at self));
         ("completed_at", of_opt_str (completed_at self));
         ("output_path", of_opt_str (output_path self));
         ("spec_path", of_opt_str (spec_path self));
         ("tokens_used", JInt (tokens_used self))].

(* a keyword argument with a default *)
Definition kwarg {A} (decode : string -> json -> result A)
    (key : string) (default : A) (kwargs : list (string * json)) : result A :=
  match dict_get key kwargs with
  | Some v => decode key v
  | None => Ok default
  end.

(* a keyword argument without a default *)
Definition required {A} (decode : string -> json -> result A)
    (key : string) (kwargs : list (string * json)) : result A :=
  match dict_get key kwargs with
  | Some v => decode key v
  | None => Raise (TypeError ("__init__() missing required argument: " +:+ key))
  end.

(* from_dict: the constructor is called with the keyword arguments
     {k: v for k, v in data.items() if k in cls.__dataclass_fields__} *)
Definition from_dict (data : json) : result t :=
  match data with
  | JDict items =>
      let kwargs :=
        filter (fun kv => fst kv ∈ __dataclass_fields__) items in
      id_ <- required as_str "id" kwargs ;;
      title_ <- required as_str "title" kwargs ;;
      status_ <- kwarg as_str "status" "pending" kwargs ;;
      retry_count_ <- kwarg as_int "retry_count" 0 kwargs ;;
      last_failure_ <- kwarg as_opt_str "last_failure" None kwargs ;;
      started_at_ <- kwarg as_opt_str "started_at" None kwargs ;;
      completed_at_ <- kwarg as_opt_str "completed_at" None kwargs ;;
      output_path_ <- kwarg as_opt_str "output_path" None kwargs ;;
      spec_path_ <- kwarg as_opt_str "spec_path" None kwargs ;;
      tokens_used_ <- kwarg as_int "tokens_used" 0 kwargs ;;
      Ok (mk id_ title_ status_ retry_count_ last_failure_ started_at_
             completed_at_ output_path_ spec_path_ tokens_used_)
  | _ => Raise (AttributeError "object" "items")
  end.

Definition set_status (s : string) (self : t) : t :=
  mk (id self) (title self) s (retry_count self) (last_failure self)
     (started_at self) (completed_at self) (output_path self)
     (spec_path self) (tokens_used self).

Definition set_started_at (ts : option string) (self : t) : t :=
  mk (id self) (title self) (status self) (retry_count self)
     (last_failure self) ts (completed_at self) (output_path self)
     (spec_path self) (tokens_used self).

Definition set_completed_at (ts : option string) (self : t) : t :=
  mk (id self) (title self) (status self) (retry_count self)
     (last_failure self) (started_at self) ts (output_path self)
     (spec_path self) (tokens_used self).

Definition set_retry_count (n : Z) (self : t) : t :=
  mk (id self) (title self) (status self) n (last_failure self)
     (started_at self) (completed_at self) (output_path self)
     (spec_path self) (tokens_used self).

Definition set_last_failure (r : option string) (self : t) : t :=
  mk (id self) (title self) (status self) (retry_count self) r
     (started_at self) (completed_at self) (output_path self)
     (spec_path self) (tokens_used self).

End TaskState.

(* An entry of PRDState.tasks (an untyped list): the code asks
   isinstance(t, TaskState) wherever it walks the list. *)
Inductive TaskItem : Type :=
  | IsTaskState (t : TaskState.t)
  | Other (raw : json).

Module PRDState.

Record t : Type := mk {
  prd_file : string;
  version : string;
  tasks : list TaskItem;
  created_at : string;
  updated_at : string
}.

(* to_dict *)
Definition to_dict (self : t) : json :=
  JDict [("prd_file", JStr (prd_file self));
         ("version", JStr (version self));
         ("tasks",
          JList ((fun t => match t with
                           | IsTaskState ts => TaskState.to_dict ts
                           | Other raw => raw
                           end) <$> tasks self));
         ("created_at", JStr (created_at self));
         ("updated_at", JStr (updated_at self))].

Definition set_tasks (ts : list TaskItem) (self : t) : t :=
  mk (prd_file self) (version self) ts (created_at self) (updated_at self).

Definition set_updated_at (now : string) (self : t) : t :=
  mk (prd_file self) (version self) (tasks self) (created_at self) now.

End PRDState.

(* The file system, as far as the state file is concerned: a path holds
   one JSON document. *)
Abbreviation FS := (gmap string json).

Module StateManager.

Record t : Type := mk {
  state_path : string;
  state : PRDState.t
}.

Definition set_state (s : PRDState.t) (self : t) : t :=
  mk (state_path self) s.

(* `now` is the reading of datetime.now(timezone.utc).isoformat() taken
   by the call. *)

(* _save *)
Definition _save (now : string) (self : t) (fs : FS) : t * FS :=
  let self' := set_state (PRDState.set_updated_at now (state self)) self in
  (self', <[state_path self := PRDState.to_dict (state self')]> fs).

(* data.get(key, default) for a str-typed field of PRDState *)
Definition get_str (key default : string) (data : list (string * json))
  : result string :=
  match dict_get key data with
  | Some v => as_str key v
  | None => Ok default
  end.

(* _load *)
Definition _load (self : t) (fs : FS) : result t :=
  match fs !! state_path self with
  | None => Raise (FileNotFoundError (state_path self))
  | Some (JDict data) =>
      items <- py_iter (default (JList []) (dict_get "tasks" data)) ;;
      tasks <- mapM TaskState.from_dict items ;;
      prd_file <- get_str "prd_file" "specs/prd.md" data ;;
      version <- get_str "version" "1.0" data ;;
      created_at <- get_str "created_at" "" data ;;
      updated_at <- get_str "updated_at" "" data ;;
      Ok (set_state
            (PRDState.mk prd_file version (IsTaskState <$> tasks)
                         created_at updated_at)
            self)
  | Some _ => Raise (AttributeError "object" "get")
  end.

(* _load_or_create *)
Definition _load_or_create (now : string) (self : t) (fs : FS)
  : result (t * FS) :=
  if decide (is_Some (fs !! state_path self))
  then self' <- _load self fs ;; Ok (self', fs)
  else Ok (_save now
             (set_state (PRDState.mk "specs/prd.md" "1.0" [] now now) self)
             fs).

(* __init__: self.state is None until _load_or_create assigns it *)
Definition __init__ (state_path : string) (now : string) (fs : FS)
  : result (t * FS) :=
  _load_or_create now (mk state_path (PRDState.mk "" "" [] "" "")) fs.

(* The first TaskState of the list that satisfies p, with its position:
   the position stands for the reference to the object found. *)
Fixpoint find_task (p : TaskState.t -> bool) (l : list TaskItem)
  : option (nat * TaskState.t) :=
  match l with
  | [] => None
  | IsTaskState ts :: rest =>
      if p ts then Some (0%nat, ts)
      else (fun r => (S (fst r), snd r)) <$> find_task p rest
  | Other _ :: rest =>
      (fun r => (S (fst r), snd r)) <$> find_task p rest
  end.

(* assignment to attributes of the object at position i *)
Definition update_task (i : nat) (ts : TaskState.t) (self : t) : t :=
  set_state
    (PRDState.set_tasks (<[i := IsTaskState ts]> (PRDState.tasks (state self)))
                        (state self))
    self.

(* get_task *)
Definition get_task (task_id : string) (self : t)
  : option (nat * TaskState.t) :=
  find_task (fun ts => String.eqb (TaskState.id ts) task_id)
            (PRDState.tasks (state self)).

(* get_next_task *)
Definition get_next_task (now : string) (self : t) (fs : FS)
  : option TaskState.t * (t * FS) :=
  match find_task (fun ts => String.eqb (TaskState.status ts) "pending")
                  (PRDState.tasks (state self)) with
  | Some (i, task) =>
      let task' :=
        TaskState.set_started_at (Some now)
          (TaskState.set_status "in_progress" task) in
      (Some task', _save now (update_task i task' self) fs)
  | None => (None, (self, fs))
  end.

(* mark_complete *)
Definition mark_complete (task_id : string) (now : string) (self : t) (fs : FS)
  : t * FS :=
  match get_task task_id self with
  | Some (i, task) =>
      let task' :=
        TaskState.set_completed_at (Some now)
          (TaskState.set_status "complete" task) in
      _save now (update_task i task' self) fs
  | None => (self, fs)
  end.

(* mark_failed *)
Definition mark_failed (task_id : string) (now : string) (self : t) (fs : FS)
  : t * FS :=
  match get_task task_id self with
  | Some (i, task) =>
      _save now (update_task i (TaskState.set_status "failed" task) self) fs
  | None => (self, fs)
  end.

(* log_retry *)
Definition log_retry (task_id : string) (reason : string) (now : string)
    (self : t) (fs : FS) : t * FS :=
  match get_task task_id self with
  | Some (i, task) =>
      let task' :=
        TaskState.set_status "pending"
          (TaskState.set_last_failure (Some reason)
             (TaskState.set_retry_count (TaskState.retry_count task + 1) task)) in
      _save now (update_task i task' self) fs
  | None => (self, fs)
  end.

Definition terminal (status : string) : bool :=
  String.eqb status "complete" || String.eqb status "failed".

(* is_complete *)
Definition is_complete (self : t) : bool :=
  forallb (fun item => match item with
                       | IsTaskState ts => terminal (TaskState.status ts)
                       | Other _ => true
                       end)
          (PRDState.tasks (state self)).

(* get_progress_percentage *)
Definition get_progress_percentage (self : t) : Qc :=
  match PRDState.tasks (state self) with
  | [] => Qc_of_Z 100
  | tasks =>
      let completed :=
        length (List.filter
                  (fun item => match item with
                               | IsTaskState ts =>
                                   String.eqb (TaskState.status ts) "complete"
                               | Other _ => false
                               end) tasks) in
      (Qc_of_Z (Z.of_nat completed) / Qc_of_Z (Z.of_nat (length tasks))
       * Qc_of_Z 100)%Qc
  end.

(* get_current_task_path *)
Definition get_current_task_path (self : t) : option string :=
  match find_task (fun ts => String.eqb (TaskState.status ts) "in_progress")
                  (PRDState.tasks (state self)) with
  | Some (_, task) => TaskState.spec_path task
  | None => None
  end.

(* The attributes of a StateManager object: the two instance attributes
   and the methods of the class body. *)
Definition attributes : list string :=
  ["state_path"; "state"; "__init__"; "_load_or_create"; "_load"; "_save";
   "initialize_from_prd"; "get_next_task"; "get_task"; "mark_complete";
   "mark_failed"; "log_retry"; "is_complete"; "get_progress_percentage";
   "get_current_task_path"; "get_summary"].

(* The methods that can be called with a task id alone.  get_task only
   returns the task it finds. *)
Definition task_id_method (name : string)
  : option (string -> string -> t -> FS -> t * FS) :=
  if String.eqb name "mark_complete" then Some mark_complete
  else if String.eqb name "mark_failed" then Some mark_failed
  else if String.eqb name "get_task" then Some (fun _ _ self fs => (self, fs))
  else None.

(* `self.<name>(task_id)` as a statement: the attribute lookup raises
   AttributeError for a name the object does not have; an attribute that
   does not take a task id alone is a TypeError. *)
Definition call_with_task_id (name : string) (task_id now : string)
    (self : t) (fs : FS) : result (t * FS) :=
  if bool_decide (name ∈ attributes) then
    match task_id_method name with
    | Some method => Ok (method task_id now self fs)
    | None => Raise (TypeError name)
    end
  else Raise (AttributeError "StateManager" name).

(* the status of a task as the state file records it *)
Definition persisted_status (task_id : string) (self : t) (fs : FS)
  : option string :=
  match _load self fs with
  | Ok loaded => (fun r => TaskState.status (snd r)) <$> get_task task_id loaded
  | Raise _ => None
  end.

(* the ordered task list as the claims read it: id, status, retry count *)
Definition task_summary (item : TaskItem) : option (string * string * Z) :=
  match item with
  | IsTaskState ts =>
      Some (TaskState.id ts, TaskState.status ts, TaskState.retry_count ts)
  | Other _ => None
  end.

Definition is_task_state (item : TaskItem) : bool :=
  match item with IsTaskState _ => true | Other _ => false end.

(* every entry of the task list is a TaskState object *)
Definition only_task_states (self : t) : Prop :=
  Forall (fun item => is_task_state item = true) (PRDState.tasks (state self)).


(* the number of TaskState entries with the given status *)
Definition count_status (status : string) (tasks : list TaskItem) : Z :=
  Z.of_nat
    (length (List.filter
               (fun item => match item with
                            | IsTaskState ts => String.eqb (TaskState.status ts) status
                            | Other _ => false
                            end) tasks)).

(* the dict get_summary returns *)
Record summary : Type := mk_summary {
  total : Z;
  completed : Z;
  failed : Z;
  pending : Z;
  in_progress : Z;
  progress_pct : Qc
}.

(* get_summary *)
Definition get_summary (self : t) : summary :=
  let tasks := PRDState.tasks (state self) in
  mk_summary (Z.of_nat (length tasks))
             (count_status "complete" tasks)
             (count_status "failed" tasks)
             (count_status "pending" tasks)
             (count_status "in_progress" tasks)
             (get_progress_percentage self).

End StateManager.

(* ===================================================================== *)
(*  oracle_gates.py                                                       *)
(* ===================================================================== *)

(* Formatting of floats inside the failure reasons; the reasons only
   embed the digits, no property below depends on them. *)
Class FloatFormat : Type := {
  fmt_percent0 : Qc -> string;   (* f"{x:.0%}" *)
  fmt_fixed3 : Qc -> string;     (* f"{x:.3f}" *)
  fmt_float : Qc -> string       (* f"{x}" *)
}.

Module GateConfig.

Record t : Type := mk {
  enabled : bool;
  threshold : Qc;
  auto_fix : bool;
  max_attempts : Z
}.

(* the dataclass defaults *)
Definition default : t := mk true 0%Qc false 3.

Definition with_threshold (x : Qc) : t := mk true x false 3.

Definition disabled : t := mk false 0%Qc false 3.

End GateConfig.

(* The dict one gate returns.  `tokens` is None when the dict has no
   "tokens" key; `reason` is what .get("reason") gives. *)
Module Gate.

Inductive diagnostics : Type :=
  | Technical (pytest lint : bool) (coverage coverage_threshold : Qc)
  | Virtue (alignment_score : Qc) (threshold : option Qc)
  | Ethics (charter_safe : bool) (violations : option (list string))
  | Judge (match_score : Qc)
  | Strategy (tech_debt_score : Qc)
  | Perception (visual_match : Qc)
  | Effort (tokens_used max_tokens : Z) (budget_ratio : Qc).

Record t : Type := mk {
  passed : bool;
  tokens : option Z;
  reason : option string;
  diag : diagnostics
}.

End Gate.

Module GateResult.

Record t : Type := mk {
  passed : bool;
  gate_status : list (string * bool);
  failure_reason : option string;
  tokens_used : Z;
  details : list (string * Gate.t)
}.

End GateResult.

Inductive GateName : Type :=
  | technical | virtue | ethics | judge | strategy | perception | effort.

(* the fixed gate order *)
Definition gate_order : list GateName :=
  [technical; virtue; ethics; judge; strategy; perception; effort].

Definition gate_key (g : GateName) : string :=
  match g with
  | technical => "technical"
  | virtue => "virtue"
  | ethics => "ethics"
  | judge => "judge"
  | strategy => "strategy"
  | perception => "perception"
  | effort => "effort"
  end.

(* What yaml.safe_load returns for a configuration file. *)
Inductive yaml : Type :=
  | YNull
  | YBool (b : bool)
  | YInt (n : Z)
  | YFloat (x : Qc)
  | YStr (s : string)
  | YList (l : list yaml)
  | YDict (kv : list (string * yaml)).

(* the truth value of a configuration value in an `if` *)
Definition yaml_truthy (v : yaml) : bool :=
  match v with
  | YNull => false
  | YBool b => b
  | YInt n => negb (n =? 0)
  | YFloat x => negb (bool_decide (x = 0%Qc))
  | YStr s => negb (String.eqb s "")
  | YList l => match l with [] => false | _ => true end
  | YDict kv => match kv with [] => false | _ => true end
  end.

(* A threshold is a number (bool counts as 0 or 1, as in Python
   arithmetic); other values have no counterpart in the typed
   GateConfig and are a TypeError, which is also what dividing them by
   100 raises. *)
Definition yaml_number (field : string) (v : yaml) : result Qc :=
  match v with
  | YBool b => Ok (if b then 1%Qc else 0%Qc)
  | YInt n => Ok (Qc_of_Z n)
  | YFloat x => Ok x
  | _ => Raise (TypeError field)
  end.

#[global] Instance GateName_eq_dec : EqDecision GateName.
Proof. solve_decision. Defined.

(* the gate a key of self.gates names *)
Definition gate_of_key (key : string) : option GateName :=
  List.find (fun g => String.eqb (gate_key g) key) gate_order.

Module OracleGatekeeper.

(* self.gates: a dict with exactly the seven keys above *)
Record t : Type := mk {
  gates : GateName -> GateConfig.t
}.

(* __init__ without a config file *)
Definition __init__ : t :=
  mk (fun g =>
        match g with
        | technical => GateConfig.with_threshold (Q2Qc (4 # 5))
        | virtue => GateConfig.with_threshold (Q2Qc (199 # 200))
        | perception => GateConfig.disabled
        | _ => GateConfig.default
        end).

(* How a subprocess.run call ends. *)
Inductive process : Type :=
  | Exited (returncode : Z)
  | TimeoutExpired
  | FileNotFound.

(* What services.avva_noon.vibe_validator.validate_artifact returns:
   a dict read with .get("alignment_score", 0.0) and
   .get("tokens_used", 0). *)
Record vibe_result : Type := {
  alignment_score : option Qc;
  vibe_tokens_used : option Z
}.

(* What services.avva_noon.charter_ledger.check_charter_safe returns. *)
Record charter_result : Type := {
  charter_safe : option bool;
  violations : option (list string)
}.

(* The collaborators of the gates.  A checker that cannot be imported
   (ImportError) is None. *)
Record world : Type := {
  pytest : process;
  (* the value the scan of the TOTAL line leaves in `coverage` when
     pytest ran to its end (0.0 if no line matches) *)
  pytest_coverage : Qc;
  ruff : process;
  validate_artifact : option (option string -> vibe_result);
  check_charter_safe : option (option string -> charter_result)
}.

Section Gates.

Context `{FloatFormat}.

(* _gate_technical *)
Definition _gate_technical (self : t) (w : world) (task : TaskState.t)
  : Gate.t :=
  let '(pytest_passed, coverage) :=
    match pytest w with
    | Exited rc => (bool_decide (rc = 0), pytest_coverage w)
    | _ => (false, 0%Qc)
    end in
  let lint_passed :=
    match ruff w with
    | Exited rc => bool_decide (rc = 0)
    | _ => true
    end in
  let threshold := GateConfig.threshold (gates self technical) in
  let coverage_passed := bool_decide (threshold <= coverage)%Qc in
  let passed := pytest_passed && lint_passed && coverage_passed in
  Gate.mk passed None
    (if passed then None
     else Some ("Technical checks failed (coverage: "
                +:+ fmt_percent0 coverage +:+ ")"))
    (Gate.Technical pytest_passed lint_passed coverage threshold).

(* _gate_virtue *)
Definition _gate_virtue (self : t) (w : world) (task : TaskState.t)
  : Gate.t :=
  match validate_artifact w with
  | Some validate =>
      let result := validate (TaskState.output_path task) in
      let score := default 0%Qc (alignment_score result) in
      let threshold := GateConfig.threshold (gates self virtue) in
      let passed := bool_decide (threshold <= score)%Qc in
      Gate.mk passed (Some (default 0 (vibe_tokens_used result)))
        (if passed then None
         else Some ("Alignment score " +:+ fmt_fixed3 score
                    +:+ " < " +:+ fmt_float threshold))
        (Gate.Virtue score (Some threshold))
  | None => Gate.mk true (Some 0) None (Gate.Virtue 1%Qc None)
  end.

(* _gate_ethics *)
Definition _gate_ethics (self : t) (w : world) (task : TaskState.t)
  : Gate.t :=
  match check_charter_safe w with
  | Some check =>
      let result := check (TaskState.output_path task) in
      let passed := default false (charter_safe result) in
      Gate.mk passed None
        (if passed then None else Some "Charter violations detected")
        (Gate.Ethics passed (Some (default [] (violations result))))
  | None => Gate.mk true None None (Gate.Ethics true None)
  end.

(* _gate_judge *)
Definition _gate_judge (self : t) (task : TaskState.t) : Gate.t :=
  Gate.mk true (Some 0) None (Gate.Judge 1%Qc).

(* _gate_strategy *)
Definition _gate_strategy (self : t) (task : TaskState.t) : Gate.t :=
  Gate.mk true None None (Gate.Strategy 0%Qc).

(* _gate_perception *)
Definition _gate_perception (self : t) (task : TaskState.t) : Gate.t :=
  Gate.mk true (Some 0) None (Gate.Perception 1%Qc).

(* _gate_effort *)
Definition _gate_effort (self : t) (task : TaskState.t) (tokens_used : Z)
  : Gate.t :=
  let max_tokens := 50000 in
  let passed := bool_decide (tokens_used <= max_tokens) in
  Gate.mk passed None
    (if passed then None
     else Some ("Token budget exceeded: " +:+ pretty tokens_used
                +:+ "/" +:+ pretty max_tokens))
    (Gate.Effort tokens_used max_tokens
       (if decide (max_tokens > 0)
        then (Qc_of_Z tokens_used / Qc_of_Z max_tokens)%Qc
        else 0%Qc)).

(* The local variables of verify_all. *)
Record locals : Type := mk_locals {
  results : list (string * bool);
  details : list (string * Gate.t);
  all_passed : bool;
  failure_reason : option string;
  total_tokens : Z
}.

Definition start : locals := mk_locals [] [] true None 0.

(* The block run for an enabled gate:
     results[key] = gate["passed"]; details[key] = gate
     total_tokens += gate.get("tokens", 0)     (gates 2, 4 and 6 only)
     if not gate["passed"]:
         all_passed = False
         failure_reason = failure_reason or gate.get("reason") *)
Definition record_gate (key : string) (count_tokens : bool) (gate : Gate.t)
    (l : locals) : locals :=
  mk_locals
    (dict_set key (Gate.passed gate) (results l))
    (dict_set key gate (details l))
    (if Gate.passed gate then all_passed l else false)
    (if Gate.passed gate then failure_reason l
     else py_or (failure_reason l) (Gate.reason gate))
    (if count_tokens then total_tokens l + default 0 (Gate.tokens gate)
     else total_tokens l).

(* results["perception"] = True, the else branch of gate 6 *)
Definition skip_gate (key : string) (l : locals) : locals :=
  mk_locals (dict_set key true (results l)) (details l) (all_passed l)
            (failure_reason l) (total_tokens l).

Definition is_enabled (self : t) (g : GateName) : bool :=
  GateConfig.enabled (gates self g).

(* verify_all *)
Definition verify_all (self : t) (w : world) (task : TaskState.t)
  : GateResult.t :=
  let l := start in
  let l := if is_enabled self technical
           then record_gate "technical" false (_gate_technical self w task) l
           else l in
  let l := if is_enabled self virtue
           then record_gate "virtue" true (_gate_virtue self w task) l
           else l in
  let l := if is_enabled self ethics
           then record_gate "ethics" false (_gate_ethics self w task) l
           else l in
  let l := if is_enabled self judge
           then record_gate "judge" true (_gate_judge self task) l
           else l in
  let l := if is_enabled self strategy
           then record_gate "strategy" false (_gate_strategy self task) l
           else l in
  let l := if is_enabled self perception
           then record_gate "perception" true (_gate_perception self task) l
           else skip_gate "perception" l in
  let l := if is_enabled self effort
           then record_gate "effort" false
                  (_gate_effort self task (total_tokens l)) l
           else l in
  GateResult.mk (all_passed l) (results l) (failure_reason l)
                (total_tokens l) (details l).

(* What gate g returns when verify_all runs it; the Effort gate is
   handed the token total of the gates before it. *)
Definition run_gate (self : t) (w : world) (task : TaskState.t)
    (tokens_so_far : Z) (g : GateName) : Gate.t :=
  match g with
  | technical => _gate_technical self w task
  | virtue => _gate_virtue self w task
  | ethics => _gate_ethics self w task
  | judge => _gate_judge self task
  | strategy => _gate_strategy self task
  | perception => _gate_perception self task
  | effort => _gate_effort self task tokens_so_far
  end.

(* the token-reporting gates *)
Definition reports_tokens (g : GateName) : bool :=
  match g with
  | virtue | judge | perception => true
  | _ => false
  end.

(* the cumulative token cost of the enabled token-reporting gates *)
Definition cumulative_tokens (self : t) (w : world) (task : TaskState.t) : Z :=
  foldl (fun acc g =>
           if reports_tokens g && is_enabled self g
           then acc + default 0 (Gate.tokens (run_gate self w task 0 g))
           else acc)
        0 gate_order.

(* gate g is enabled and does not pass *)
Definition gate_fails (self : t) (w : world) (task : TaskState.t)
    (g : GateName) : bool :=
  is_enabled self g
  && negb (Gate.passed
             (run_gate self w task (cumulative_tokens self w task) g)).

(* the enabled gates that fail, in the fixed order *)
Definition failing_gates (self : t) (w : world) (task : TaskState.t)
  : list GateName :=
  List.filter (gate_fails self w task) gate_order.

End Gates.


(* ------------------------------------------------------------------- *)
(* _load_config                                                         *)
(* ------------------------------------------------------------------- *)

Definition set_gate (g : GateName) (c : GateConfig.t) (self : t) : t :=
  mk (fun g' => if bool_decide (g' = g) then c else gates self g').

(* an assignment to .threshold when the key is present *)
Definition assign_threshold (key : string) (convert : Qc -> Qc)
    (settings : list (string * yaml)) (c : GateConfig.t) : result GateConfig.t :=
  match dict_get key settings with
  | Some v =>
      x <- yaml_number key v ;;
      Ok (GateConfig.mk (GateConfig.enabled c) (convert x)
                        (GateConfig.auto_fix c) (GateConfig.max_attempts c))
  | None => Ok c
  end.

(* the body of the loop over gates_config.items() *)
Definition configure_gate (gate_name : string) (gate_settings : yaml)
    (self : t) : result t :=
  match gate_of_key gate_name with
  | Some g =>
      match gate_settings with
      | YDict settings =>
          let c := gates self g in
          let c :=
            GateConfig.mk
              (yaml_truthy (default (YBool true) (dict_get "enabled" settings)))
              (GateConfig.threshold c) (GateConfig.auto_fix c)
              (GateConfig.max_attempts c) in
          c <- assign_threshold "threshold" (fun x => x) settings c ;;
          c <- assign_threshold "coverage_threshold"
                 (fun x => (x / Qc_of_Z 100)%Qc) settings c ;;
          c <- assign_threshold "alignment_threshold" (fun x => x) settings c ;;
          Ok (set_gate g c self)
      | _ => Ok self
      end
  | None => Ok self
  end.

Fixpoint configure_gates (items : list (string * yaml)) (self : t) : result t :=
  match items with
  | [] => Ok self
  | (gate_name, gate_settings) :: rest =>
      self <- configure_gate gate_name gate_settings self ;;
      configure_gates rest self
  end.

(* _load_config, from the value yaml.safe_load read from the file *)
Definition _load_config (config : yaml) (self : t) : result t :=
  match config with
  | YDict c =>
      match default (YDict []) (dict_get "oracle_gates" c) with
      | YDict items => configure_gates items self
      | _ => Raise (AttributeError "object" "items")
      end
  | _ => Raise (AttributeError "object" "get")
  end.

(* __init__ with a config file that exists *)
Definition __init__with (config : yaml) : result t := _load_config config __init__.

(* What the settings dict of one gate does to its GateConfig: `enabled`
   follows the "enabled" key and is True without it; the threshold is
   taken from alignment_threshold, else coverage_threshold / 100, else
   threshold, else left alone; auto_fix and max_attempts are left
   alone. *)
Definition settings_applied (settings : list (string * yaml))
    (old new : GateConfig.t) : Prop :=
  GateConfig.enabled new
  = yaml_truthy (default (YBool true) (dict_get "enabled" settings))
  /\ GateConfig.auto_fix new = GateConfig.auto_fix old
  /\ GateConfig.max_attempts new = GateConfig.max_attempts old
  /\ match dict_get "alignment_threshold" settings,
           dict_get "coverage_threshold" settings,
           dict_get "threshold" settings with
     | Some v, _, _ =>
         yaml_number "alignment_threshold" v = Ok (GateConfig.threshold new)
     | None, Some v, _ =>
         exists x, yaml_number "coverage_threshold" v = Ok x
                   /\ GateConfig.threshold new = (x / Qc_of_Z 100)%Qc
     | None, None, Some v =>
         yaml_number "threshold" v = Ok (GateConfig.threshold new)
     | None, None, None => GateConfig.threshold new = GateConfig.threshold old
     end.

End OracleGatekeeper.

(* ===================================================================== *)
(*  str helpers                                                           *)
(* ===================================================================== *)

Definition lower_ascii (c : ascii) : ascii :=
  let n := Ascii.N_of_ascii c in
  if ((65 <=? n) && (n <=? 90))%N then Ascii.ascii_of_N (n + 32) else c.

(* str.lower() *)
Fixpoint lower (s : string) : string :=
  match s with
  | EmptyString => EmptyString
  | String c rest => String (lower_ascii c) (lower rest)
  end.

(* needle in hay *)
Fixpoint contains (needle hay : string) : bool :=
  String.prefix needle hay
  || match hay with
     | EmptyString => false
     | String _ rest => contains needle rest
     end.

(* ===================================================================== *)
(*  hitl_controller.py                                                    *)
(* ===================================================================== *)

Module HITL.

Inductive HITLReason : Type :=
  | HIGH_RISK | MAJOR_CHANGE | COST_THRESHOLD | GATE_FAILURE | SCHEDULED
  | EXPLICIT_REQUEST.

Inductive HITLStatus : Type :=
  | PENDING | APPROVED | REJECTED | TIMEOUT | AUTO_APPROVED.

#[export] Instance HITLReason_eq_dec : EqDecision HITLReason.
Proof. solve_decision. Defined.

#[export] Instance HITLStatus_eq_dec : EqDecision HITLStatus.
Proof. solve_decision. Defined.

Definition is_terminal (s : HITLStatus) : bool :=
  match s with
  | PENDING => false
  | _ => true
  end.

Record HITLCheckpoint : Type := mk_checkpoint {
  checkpoint_id : string;
  task_id : string;
  reason : HITLReason;
  description : string;
  context : json;
  status : HITLStatus;
  created_at : string;
  resolved_at : option string;
  resolved_by : option string;
  notes : option string
}.

(* The module-level settings read from the process environment. *)
Record settings : Type := {
  HITL_TIMEOUT_MINUTES : Z;
  HITL_AUTO_APPROVE_LOW_RISK : bool
}.

(* A call on one of the notification collaborators; the checkpoint is
   passed by reference. *)
Inductive notifier_call : Type :=
  | send_hitl_notification (checkpoint : nat) (approve_url reject_url : string)
  | send_notification (checkpoint : nat).

(* The controller.  Checkpoint objects registered with the controller
   live in `heap`; `pending_checkpoints` maps a checkpoint id to the
   object it holds, and a local variable naming the same object is the
   same heap index.  `calls` is the log of the calls made on
   self.resend and self.webhook. *)
Record t : Type := mk {
  base_url : string;
  stationary : bool;
  heap : list HITLCheckpoint;
  pending_checkpoints : gmap string nat;
  task_counter : Z;
  check_interval : Z;
  calls : list notifier_call
}.

(* __init__ *)
Definition __init__ (base_url : string) (stationary : bool) : t :=
  mk base_url stationary [] ∅ 0 5 [].

Definition set_heap (h : list HITLCheckpoint) (self : t) : t :=
  mk (base_url self) (stationary self) h (pending_checkpoints self)
     (task_counter self) (check_interval self) (calls self).

Definition set_pending (p : gmap string nat) (self : t) : t :=
  mk (base_url self) (stationary self) (heap self) p
     (task_counter self) (check_interval self) (calls self).

Definition add_call (c : notifier_call) (self : t) : t :=
  mk (base_url self) (stationary self) (heap self) (pending_checkpoints self)
     (task_counter self) (check_interval self) (calls self ++ [c]).

(* attribute reads and writes through a reference *)
Definition deref (r : nat) (self : t) : option HITLCheckpoint :=
  heap self !! r.

Definition status_of (r : nat) (self : t) : HITLStatus :=
  from_option status PENDING (deref r self).

(* the four assignments of resolve *)
Definition mark_resolved (st : HITLStatus) (now : string) (by_ : string)
    (notes_ : option string) (c : HITLCheckpoint) : HITLCheckpoint :=
  mk_checkpoint (checkpoint_id c) (task_id c) (reason c) (description c)
                (context c) st (created_at c) (Some now) (Some by_) notes_.

(* the three assignments of the timeout branch *)
Definition mark_timeout (now : string) (notes_ : string) (c : HITLCheckpoint)
  : HITLCheckpoint :=
  mk_checkpoint (checkpoint_id c) (task_id c) (reason c) (description c)
                (context c) TIMEOUT (created_at c) (Some now) (resolved_by c)
                (Some notes_).

Definition modify (r : nat) (f : HITLCheckpoint -> HITLCheckpoint) (self : t)
  : t :=
  set_heap (alter f r (heap self)) self.

(* the checkpoints of the active-pending set *)
Definition in_pending (checkpoint_id : string) (self : t) : bool :=
  bool_decide (is_Some (pending_checkpoints self !! checkpoint_id)).

(* resolve *)
Definition resolve (checkpoint_id : string) (approved : bool)
    (notes : option string) (resolved_by : string) (now : string) (self : t)
  : option HITLCheckpoint * t :=
  match pending_checkpoints self !! checkpoint_id with
  | None => (None, self)
  | Some r =>
      let self :=
        modify r (mark_resolved (if approved then APPROVED else REJECTED)
                                now resolved_by notes) self in
      let self := set_pending (delete checkpoint_id (pending_checkpoints self))
                              self in
      (deref r self, self)
  end.

(* A resolve call made by another party while the waiter sleeps. *)
Record resolve_call : Type := {
  rc_checkpoint_id : string;
  rc_approved : bool;
  rc_notes : option string;
  rc_resolved_by : string;
  rc_now : string
}.

Definition apply_call (self : t) (c : resolve_call) : t :=
  snd (resolve (rc_checkpoint_id c) (rc_approved c) (rc_notes c)
               (rc_resolved_by c) (rc_now c) self).

(* The while loop of _wait_for_resolution.  `schedule` lists, sleep by
   sleep, the resolve calls that arrive during asyncio.sleep.  The
   answer is Some status when the loop returns from inside and None
   when it runs to its end; the outer option is None when `fuel` runs
   out first. *)
Fixpoint poll (fuel : nat) (elapsed timeout_seconds : Z) (r : nat)
    (checkpoint_id : string) (schedule : list (list resolve_call)) (self : t)
  : option (option HITLStatus * t) :=
  if decide (elapsed < timeout_seconds) then
    match fuel with
    | O => None
    | S fuel =>
        match pending_checkpoints self !! checkpoint_id with
        | None => Some (Some (status_of r self), self)
        | Some current =>
            if decide (status_of current self ≠ PENDING)
            then Some (Some (status_of current self), self)
            else
              let self := foldl apply_call self (hd [] schedule) in
              poll fuel (elapsed + 5) timeout_seconds r checkpoint_id
                   (tl schedule) self
        end
    end
  else Some (None, self).

(* _wait_for_resolution; `now` is the clock reading of the timeout
   branch *)
Definition _wait_for_resolution (r : nat) (timeout_minutes : Z) (now : string)
    (schedule : list (list resolve_call)) (self : t)
  : option (HITLStatus * t) :=
  let timeout_seconds := timeout_minutes * 60 in
  let checkpoint_id := from_option checkpoint_id "" (deref r self) in
  match poll (Z.to_nat timeout_seconds) 0 timeout_seconds r checkpoint_id
             schedule self with
  | None => None
  | Some (Some st, self) => Some (st, self)
  | Some (None, self) =>
      Some (TIMEOUT,
            modify r (mark_timeout now
                        ("Timed out after " +:+ pretty timeout_minutes
                         +:+ " minutes"))
                   self)
  end.

(* _notify *)
Definition _notify (r : nat) (self : t) : t :=
  let id := from_option checkpoint_id "" (deref r self) in
  let approve_url := base_url self +:+ "/hitl/" +:+ id +:+ "/approve" in
  let reject_url := base_url self +:+ "/hitl/" +:+ id +:+ "/reject" in
  let self :=
    if negb (stationary self)
    then add_call (send_hitl_notification r approve_url reject_url) self
    else self in
  add_call (send_notification r) self.

(* What one checkpoint call draws from its surroundings:
   uuid.uuid4().hex[:8].upper(), the clock at creation and at timeout,
   and the resolve calls that arrive while it waits. *)
Record surroundings : Type := {
  uuid8 : string;
  now_created : string;
  now_resolved : string;
  schedule : list (list resolve_call)
}.

Section Checkpoint.

Variable env : settings.

(* checkpoint *)
Definition checkpoint (task_id : string) (reason : HITLReason)
    (description : string) (context : option json) (blocking : bool)
    (io : surroundings) (self : t) : option (HITLStatus * t) :=
  let checkpoint :=
    mk_checkpoint ("HITL-" +:+ uuid8 io) task_id reason description
                  (default (JDict []) context) PENDING (now_created io)
                  None None None in
  if bool_decide (reason = SCHEDULED) && HITL_AUTO_APPROVE_LOW_RISK env
  then
    (* the object is marked AUTO_APPROVED and dropped on return *)
    Some (AUTO_APPROVED, self)
  else
    let r := length (heap self) in
    let self := set_heap (heap self ++ [checkpoint]) self in
    let self :=
      set_pending (<[checkpoint_id checkpoint := r]> (pending_checkpoints self))
                  self in
    let self := _notify r self in
    if negb blocking then Some (PENDING, self)
    else _wait_for_resolution r (HITL_TIMEOUT_MINUTES env) (now_resolved io)
                              (schedule io) self.

End Checkpoint.

(* should_checkpoint_scheduled *)
Definition should_checkpoint_scheduled (self : t) : result (bool * t) :=
  let self :=
    mk (base_url self) (stationary self) (heap self) (pending_checkpoints self)
       (task_counter self + 1) (check_interval self) (calls self) in
  if decide (check_interval self = 0) then Raise ZeroDivisionError
  else Ok (bool_decide (task_counter self `mod` check_interval self = 0), self).

Definition high_risk_keywords : list string :=
  ["delete"; "drop"; "truncate"; "rm -rf"; "production";
   "deploy"; "migrate"; "rollback"; "credentials"; "secret";
   "payment"; "billing"; "financial"; "admin"; "sudo"].

(* detect_high_risk *)
Definition detect_high_risk (task_description : string) : bool :=
  let task_lower := lower task_description in
  existsb (fun kw => contains kw task_lower) high_risk_keywords.

Definition major_keywords : list string :=
  ["architecture"; "schema"; "database"; "api breaking";
   "refactor"; "redesign"; "migration"; "infrastructure"].

(* detect_major_change *)
Definition detect_major_change (task_description : string) : bool :=
  let task_lower := lower task_description in
  existsb (fun kw => contains kw task_lower) major_keywords.

(* The checkpoints of the active-pending set whose status is terminal. *)
Definition terminal_in_pending (self : t) : list (string * nat) :=
  List.filter (fun kv => is_terminal (status_of (snd kv) self))
              (map_to_list (pending_checkpoints self)).

(* n successive calls of should_checkpoint_scheduled, with their answers *)
Fixpoint scheduled_calls (n : nat) (self : t) : result (list bool * t) :=
  match n with
  | O => Ok ([], self)
  | S n =>
      r <- should_checkpoint_scheduled self ;;
      rest <- scheduled_calls n (snd r) ;;
      Ok (fst r :: fst rest, snd rest)
  end.

(* the controller with its task counter at c *)
Definition with_counter (c : Z) (self : t) : t :=
  mk (base_url self) (stationary self) (heap self) (pending_checkpoints self)
     c (check_interval self) (calls self).

(* the status a resolve call assigns *)
Definition verdict (call : resolve_call) : HITLStatus :=
  if rc_approved call then APPROVED else REJECTED.

End HITL.

(* ===================================================================== *)
(*  chicken_hawk.py: the loop of ChickenHawk.run                          *)
(* ===================================================================== *)

Module ChickenHawk.

Section Engine.

(* the settings of hitl_controller.py *)
Variable env : HITL.settings.

(* The parts of the engine the loop head does not touch (metrics,
   ledger, distiller, visuals, the execution client). *)
Variable Aux : Type.

Record t : Type := mk {
  state : StateManager.t;
  gatekeeper : OracleGatekeeper.t;
  tokens : TokenCounter.t;
  hitl : HITL.t;
  aux : Aux
}.

Definition set_state (s : StateManager.t) (self : t) : t :=
  mk s (gatekeeper self) (tokens self) (hitl self) (aux self).

Definition set_hitl (h : HITL.t) (self : t) : t :=
  mk (state self) (gatekeeper self) (tokens self) h (aux self).

(* Steps 1 to 4 of the loop body (context check, effort, gates,
   scheduled check-in, visuals), for the task in hand. *)
Variable steps_1_to_4 : TaskState.t -> t -> FS -> result (t * FS).

(* What one pass of the loop draws from its surroundings. *)
Record pass : Type := {
  now : string;
  hitl_io : HITL.surroundings
}.

(* How a pass of the loop body ends. *)
Inductive ending : Type :=
  | next_pass (self : t) (fs : FS)      (* `continue`, or the body's end *)
  | leave_loop (self : t) (fs : FS)     (* `break` *)
  | raised (e : exn) (self : t) (fs : FS).

(* Step 0 of the loop body, then steps 1 to 4.  A TaskState has no
   `description` attribute, so the text handed to detect_high_risk is
   task.title. *)
Definition body (io : pass) (task : TaskState.t) (self : t) (fs : FS)
  : option ending :=
  if HITL.detect_high_risk (TaskState.title task) then
    match HITL.checkpoint env (TaskState.id task) HITL.HIGH_RISK
            ("High-risk task: " +:+ TaskState.title task)
            (Some (JDict [("task", TaskState.to_dict task)]))
            true (hitl_io io) (hitl self) with
    | None => None
    | Some (status, hitl') =>
        let self := set_hitl hitl' self in
        match status with
        | HITL.REJECTED =>
            (* self.state.mark_skipped(task.id); continue *)
            match StateManager.call_with_task_id "mark_skipped"
                    (TaskState.id task) (now io) (state self) fs with
            | Ok (st, fs) => Some (next_pass (set_state st self) fs)
            | Raise e => Some (raised e self fs)
            end
        | HITL.TIMEOUT => Some (leave_loop self fs)
        | _ =>
            match steps_1_to_4 task self fs with
            | Ok (self, fs) => Some (next_pass self fs)
            | Raise e => Some (raised e self fs)
            end
        end
    end
  else
    match steps_1_to_4 task self fs with
    | Ok (self, fs) => Some (next_pass self fs)
    | Raise e => Some (raised e self fs)
    end.

(* One pass of the while body: pick the next task, then the steps. *)
Definition one_pass (io : pass) (self : t) (fs : FS) : option ending :=
  match StateManager.get_next_task (now io) (state self) fs with
  | (None, _) => Some (leave_loop self fs)
  | (Some task, (st, fs)) => body io task (set_state st self) fs
  end.

(* The while loop, driven by the surroundings of its passes.  The
   answer is the state in which the loop is left, or the exception
   that leaves run(); None when the passes listed do not reach
   either. *)
Fixpoint loop (passes : list pass) (self : t) (fs : FS)
  : option (result (t * FS)) :=
  if StateManager.is_complete (state self) then Some (Ok (self, fs))
  else
    match passes with
    | [] => None
    | io :: passes =>
        match one_pass io self fs with
        | None => None
        | Some (next_pass self fs) => loop passes self fs
        | Some (leave_loop self fs) => Some (Ok (self, fs))
        | Some (raised e _ _) => Some (Raise e)
        end
    end.

End Engine.


(* ------------------------------------------------------------------- *)
(* show_status                                                          *)
(* ------------------------------------------------------------------- *)

(* len(x) *)
Definition py_len (x : json) : result Z :=
  match x with
  | JList l => Ok (Z.of_nat (length l))
  | JStr s => Ok (Z.of_nat (String.length s))
  | JDict kv => Ok (Z.of_nat (length kv))
  | _ => Raise (TypeError "object has no len()")
  end.

(* sum(1 for t in tasks if t.get("status") == status) *)
Fixpoint count_status_json (status : string) (tasks : list json) : result Z :=
  match tasks with
  | [] => Ok 0
  | JDict t :: rest =>
      n <- count_status_json status rest ;;
      Ok (match dict_get "status" t with
          | Some (JStr s) => if String.eqb s status then 1 + n else n
          | _ => n
          end)
  | _ :: _ => Raise (AttributeError "object" "get")
  end.

(* the figures show_status prints *)
Record status_report : Type := mk_report {
  report_total : Z;
  report_completed : Z;
  report_failed : Z;
  report_pending : Z;
  report_progress : Qc
}.

(* show_status: None stands for the message that no task-state.json was
   found *)
Definition show_status (fs : FS) : result (option status_report) :=
  match fs !! "specs/task-state.json" with
  | None => Ok None
  | Some (JDict state) =>
      let tasks := default (JList []) (dict_get "tasks" state) in
      total <- py_len tasks ;;
      items <- py_iter tasks ;;
      completed <- count_status_json "complete" items ;;
      failed <- count_status_json "failed" items ;;
      Ok (Some (mk_report total completed failed (total - completed - failed)
                  (if decide (total > 0)
                   then (Qc_of_Z completed / Qc_of_Z total * Qc_of_Z 100)%Qc
                   else 0%Qc)))
  | Some _ => Raise (AttributeError "object" "get")
  end.


(* ------------------------------------------------------------------- *)
(* _deep_merge                                                          *)
(* ------------------------------------------------------------------- *)

(* The loop of _deep_merge over override.items(), writing into `result`
   (the copy of base); the dict to merge in is the YDict given. *)
Fixpoint merge_into (override : yaml) : list (string * yaml) -> list (string * yaml) :=
  match override with
  | YDict items =>
      (fix over (items : list (string * yaml)) (result : list (string * yaml))
         : list (string * yaml) :=
         match items with
         | [] => result
         | (key, value) :: rest =>
             over rest
               (match dict_get key result, value with
                | Some (YDict sub), YDict _ =>
                    dict_set key (YDict (merge_into value sub)) result
                | _, _ => dict_set key value result
                end)
         end) items
  | _ => fun result => result
  end.

(* _deep_merge *)
Definition _deep_merge (base override : list (string * yaml))
  : list (string * yaml) :=
  merge_into (YDict override) base.

(* DEFAULT_CONFIG *)
Definition DEFAULT_CONFIG : list (string * yaml) :=
  [("context",
    YDict [("distill_threshold", YFloat (Q2Qc (7 # 10)));
           ("max_window_tokens", YInt 128000)]);
   ("execution",
    YDict [("max_retries_per_task", YInt 5);
           ("git_auto_commit", YBool true)])].

(* one turn of the loop of _deep_merge over override.items() *)
Definition merge_item (result : list (string * yaml)) (item : string * yaml)
  : list (string * yaml) :=
  match dict_get (fst item) result, snd item with
  | Some (YDict sub), YDict o =>
      dict_set (fst item) (YDict (_deep_merge sub o)) result
  | _, _ => dict_set (fst item) (snd item) result
  end.

(* ------------------------------------------------------------------- *)
(* the loop body: context check, effort, gates, check-in                *)
(* ------------------------------------------------------------------- *)

(* HarnessConfig *)
Record HarnessConfig : Type := mk_config {
  mode : string;
  distill_threshold : Qc;
  max_window_tokens : Z;
  max_retries : Z;
  git_auto_commit : bool;
  prd_path : string;
  task_state_path : string;
  ledger_path : string
}.

(* LoopMetrics *)
Record LoopMetrics : Type := mk_metrics {
  tasks_completed : Z;
  tasks_failed : Z;
  total_tokens : Z;
  distillations : Z;
  retries : Z;
  gates_passed : Z;
  gates_failed : Z
}.

(* LoopMetrics() *)
Definition no_metrics : LoopMetrics := mk_metrics 0 0 0 0 0 0 0.

(* A line of the effort ledger:
     [timestamp] | task_id | action | tokens | gate_status | notes *)
Record ledger_line : Type := mk_line {
  line_timestamp : string;
  line_task_id : string;
  line_action : string;
  line_tokens : Z;
  line_gate_status : string;
  line_notes : string
}.

(* What OpenCodeClient.execute_task returns, as far as the engine reads
   it. *)
Record ExecResult : Type := {
  success : bool;
  output : string;
  exec_tokens_used : Z
}.

(* The rest of the engine object.  `ledger` holds the lines appended to
   config.ledger_path, `rendered` the calls of visuals.render_stage
   (stage and progress). *)
Record parts (Client Distiller : Type) : Type := mk_parts {
  config : HarnessConfig;
  metrics : LoopMetrics;
  ledger : list ledger_line;
  opencode : Client;
  distiller : Distiller;
  rendered : list (string * Qc)
}.
Arguments mk_parts {Client Distiller}.
Arguments config {Client Distiller}.
Arguments metrics {Client Distiller}.
Arguments ledger {Client Distiller}.
Arguments opencode {Client Distiller}.
Arguments distiller {Client Distiller}.
Arguments rendered {Client Distiller}.

Definition nl : string := String (Ascii.ascii_of_nat 10) "".

(* f"{task.<name>}": the text of a field of the dataclass; a TaskState
   has no other data attribute, and reading one raises AttributeError *)
Definition opt_text (x : option string) : string := default "None" x.

Definition field_texts (task : TaskState.t) : list (string * string) :=
  [("id", TaskState.id task);
   ("title", TaskState.title task);
   ("status", TaskState.status task);
   ("retry_count", pretty (TaskState.retry_count task));
   ("last_failure", opt_text (TaskState.last_failure task));
   ("started_at", opt_text (TaskState.started_at task));
   ("completed_at", opt_text (TaskState.completed_at task));
   ("output_path", opt_text (TaskState.output_path task));
   ("spec_path", opt_text (TaskState.spec_path task));
   ("tokens_used", pretty (TaskState.tokens_used task))].

Definition format_attr (name : string) (task : TaskState.t) : result string :=
  match dict_get name (field_texts task) with
  | Some text => Ok text
  | None => Raise (AttributeError "TaskState" name)
  end.

(* str.split() cuts at runs of white space *)
Definition is_space (c : ascii) : bool :=
  let n := Ascii.N_of_ascii c in
  (((9 <=? n) && (n <=? 13)) || ((28 <=? n) && (n <=? 32)))%N.

(* len(text.split()); in_word tells whether the character before was
   part of a word *)
Fixpoint count_words (in_word : bool) (text : string) : Z :=
  match text with
  | EmptyString => 0
  | String c rest =>
      if is_space c then count_words false rest
      else (if in_word then 0 else 1) + count_words true rest
  end.

(* ", ".join(items) *)
Fixpoint join (sep : string) (items : list string) : string :=
  match items with
  | [] => ""
  | [x] => x
  | x :: rest => x +:+ sep +:+ join sep rest
  end.

(* What the steps of one pass draw from their surroundings. *)
Record pass_io : Type := {
  head : pass;                       (* the clock, the high-risk checkpoint *)
  world : OracleGatekeeper.world;    (* what the gates find *)
  git : result unit;                 (* how `git add` and `git commit` end:
                                        CalledProcessError is caught, any
                                        other exception is not *)
  checkin : HITL.surroundings        (* the scheduled checkpoint *)
}.

Section Harness.

Context `{FloatFormat}.

Variable env : HITL.settings.

(* f"{x:.0f}" *)
Variable fmt_fixed0 : Qc -> string.

(* The OpenCode client: execute_task returns a result or raises, and
   may change the client either way. *)
Variable Client : Type.
Variable execute_task : string -> Client -> result ExecResult * Client.

(* RLMDistiller.distill(current_context, standards_path, current_task) *)
Variable Distiller : Type.
Variable distill :
  string -> string -> option string -> Distiller -> string * Distiller.

Definition engine : Type := t (parts Client Distiller).

Definition set_aux (a : parts Client Distiller) (self : engine) : engine :=
  mk _ (state _ self) (gatekeeper _ self) (tokens _ self) (hitl _ self) a.

Definition set_tokens (tc : TokenCounter.t) (self : engine) : engine :=
  mk _ (state _ self) (gatekeeper _ self) tc (hitl _ self) (aux _ self).

Definition set_metrics (m : LoopMetrics) (self : engine) : engine :=
  set_aux (mk_parts (config (aux _ self)) m (ledger (aux _ self))
                    (opencode (aux _ self)) (distiller (aux _ self))
                    (rendered (aux _ self))) self.

Definition set_opencode (c : Client) (self : engine) : engine :=
  set_aux (mk_parts (config (aux _ self)) (metrics (aux _ self))
                    (ledger (aux _ self)) c (distiller (aux _ self))
                    (rendered (aux _ self))) self.

Definition set_distiller (d : Distiller) (self : engine) : engine :=
  set_aux (mk_parts (config (aux _ self)) (metrics (aux _ self))
                    (ledger (aux _ self)) (opencode (aux _ self)) d
                    (rendered (aux _ self))) self.

(* visuals.render_stage(stage, progress) *)
Definition render_stage (stage : string) (progress : Qc) (self : engine)
  : engine :=
  set_aux (mk_parts (config (aux _ self)) (metrics (aux _ self))
                    (ledger (aux _ self)) (opencode (aux _ self))
                    (distiller (aux _ self))
                    (rendered (aux _ self) ++ [(stage, progress)])) self.

(* _append_ledger *)
Definition _append_ledger (now task_id action : string) (tokens : Z)
    (gate_status notes : string) (self : engine) : engine :=
  set_aux (mk_parts (config (aux _ self)) (metrics (aux _ self))
                    (ledger (aux _ self)
                     ++ [mk_line now task_id action tokens gate_status notes])
                    (opencode (aux _ self)) (distiller (aux _ self))
                    (rendered (aux _ self))) self.

Definition add_total_tokens (n : Z) (self : engine) : engine :=
  let m := metrics (aux _ self) in
  set_metrics (mk_metrics (tasks_completed m) (tasks_failed m)
                          (total_tokens m + n) (distillations m) (retries m)
                          (gates_passed m) (gates_failed m)) self.

(* _should_distill *)
Definition _should_distill (self : engine) : result bool :=
  usage <- TokenCounter.get_usage_ratio (tokens _ self) ;;
  Ok (bool_decide (distill_threshold (config (aux _ self)) < usage)%Qc).

(* _perform_distillation *)
Definition _perform_distillation (now : string) (self : engine) : engine :=
  let r := distill (TokenCounter.get_context (tokens _ self)) "standards.md"
                   (StateManager.get_current_task_path (state _ self))
                   (distiller (aux _ self)) in
  let summary := fst r in
  let self := set_distiller (snd r) self in
  let self :=
    set_tokens (TokenCounter.reset_with_summary summary (tokens _ self)) self in
  let m := metrics (aux _ self) in
  let self :=
    set_metrics (mk_metrics (tasks_completed m) (tasks_failed m)
                            (total_tokens m) (distillations m + 1) (retries m)
                            (gates_passed m) (gates_failed m)) self in
  _append_ledger now "RLM" "DISTILLATION" (count_words false summary) "N/A"
    ("Context compressed. Distillation #"
     +:+ pretty (distillations (metrics (aux _ self))))
    self.

(* _apply_effort.  The try block ends at the first exception, whose
   handler returns False; what was assigned before stays assigned. *)
Definition _apply_effort (task : TaskState.t) (self : engine)
  : bool * engine :=
  match (title <- format_attr "title" task ;;
         description <- format_attr "description" task ;;
         Ok (title, description)) with
  | Raise _ => (false, self)
  | Ok (title, description) =>
      let foster_prompt :=
        "Analyze this task and outline the approach: " +:+ title +:+ nl
        +:+ description in
      match execute_task foster_prompt (opencode (aux _ self)) with
      | (Raise _, c) => (false, set_opencode c self)
      | (Ok foster_result, c) =>
          let self := set_opencode c self in
          if negb (success foster_result) then (false, self)
          else
            let develop_prompt :=
              "Implement this task: " +:+ title +:+ nl +:+ description
              +:+ nl +:+ nl +:+ "Approach: "
              +:+ String.substring 0 500 (output foster_result) in
            match execute_task develop_prompt (opencode (aux _ self)) with
            | (Raise _, c) => (false, set_opencode c self)
            | (Ok develop_result, c) =>
                let self := set_opencode c self in
                if negb (success develop_result) then (false, self)
                else
                  let self :=
                    add_total_tokens (exec_tokens_used foster_result
                                      + exec_tokens_used develop_result)
                                     self in
                  let hone_prompt :=
                    "Review and refine the implementation for: " +:+ title
                    +:+ ". Fix any issues and optimize." in
                  match execute_task hone_prompt (opencode (aux _ self)) with
                  | (Raise _, c) => (false, set_opencode c self)
                  | (Ok hone_result, c) =>
                      let self := set_opencode c self in
                      (true,
                       if success hone_result
                       then add_total_tokens (exec_tokens_used hone_result)
                                             self
                       else self)
                  end
            end
      end
  end.

(* The task object in hand is the entry at position i of the task list;
   its attributes are read through the list, so that an assignment made
   through another name of the object is seen. *)
Definition task_at (i : nat) (task : TaskState.t) (self : engine)
  : TaskState.t :=
  match PRDState.tasks (StateManager.state (state _ self)) !! i with
  | Some (IsTaskState ts) => ts
  | _ => task
  end.

(* _handle_success *)
Definition _handle_success (io : pass_io) (i : nat) (task : TaskState.t)
    (gate_result : GateResult.t) (self : engine) (fs : FS)
  : result (engine * FS) :=
  let r := StateManager.mark_complete (TaskState.id task) (now (head io))
                                      (state _ self) fs in
  let self := set_state _ (fst r) self in
  let fs := snd r in
  let m := metrics (aux _ self) in
  let self :=
    set_metrics (mk_metrics (tasks_completed m + 1) (tasks_failed m)
                            (total_tokens m) (distillations m) (retries m)
                            (gates_passed m + 7) (gates_failed m)) self in
  let self :=
    _append_ledger (now (head io)) (TaskState.id task) "TASK_COMPLETE"
      (GateResult.tokens_used gate_result) "7/7 PASSED"
      ("All gates verified. Total retries: "
       +:+ pretty (TaskState.retry_count (task_at i task self)))
      self in
  if git_auto_commit (config (aux _ self))
  then _ <- git io ;; Ok (self, fs)
  else Ok (self, fs).

(* state.log_retry(task_id, reason) for a reason that may be None *)
Definition log_retry (task_id : string) (reason : option string)
    (now : string) (st : StateManager.t) (fs : FS) : StateManager.t * FS :=
  match StateManager.get_task task_id st with
  | Some (i, task) =>
      let task' :=
        TaskState.set_status "pending"
          (TaskState.set_last_failure reason
             (TaskState.set_retry_count (TaskState.retry_count task + 1) task))
      in
      StateManager._save now (StateManager.update_task i task' st) fs
  | None => (st, fs)
  end.

(* _handle_gate_failure *)
Definition _handle_gate_failure (io : pass_io) (i : nat) (task : TaskState.t)
    (gate_result : GateResult.t) (self : engine) (fs : FS) : engine * FS :=
  let failed_gates :=
    fst <$> List.filter (fun kv => negb (snd kv))
                        (GateResult.gate_status gate_result) in
  let m := metrics (aux _ self) in
  let self :=
    set_metrics (mk_metrics (tasks_completed m) (tasks_failed m)
                            (total_tokens m) (distillations m) (retries m)
                            (gates_passed m)
                            (gates_failed m + Z.of_nat (length failed_gates)))
                self in
  if decide (TaskState.retry_count (task_at i task self)
             < max_retries (config (aux _ self)))
  then
    let r := log_retry (TaskState.id task)
                       (GateResult.failure_reason gate_result)
                       (now (head io)) (state _ self) fs in
    let self := set_state _ (fst r) self in
    let fs := snd r in
    let m := metrics (aux _ self) in
    let self :=
      set_metrics (mk_metrics (tasks_completed m) (tasks_failed m)
                              (total_tokens m) (distillations m) (retries m + 1)
                              (gates_passed m) (gates_failed m)) self in
    (_append_ledger (now (head io)) (TaskState.id task) "GATE_FAILURE"
       (GateResult.tokens_used gate_result)
       (pretty (7 - Z.of_nat (length failed_gates)) +:+ "/7")
       ("Failed: " +:+ join ", " failed_gates +:+ ". Retry #"
        +:+ pretty (TaskState.retry_count (task_at i task self) + 1))
       self,
     fs)
  else
    let r := StateManager.mark_failed (TaskState.id task) (now (head io))
                                      (state _ self) fs in
    let self := set_state _ (fst r) self in
    let m := metrics (aux _ self) in
    (set_metrics (mk_metrics (tasks_completed m) (tasks_failed m + 1)
                             (total_tokens m) (distillations m) (retries m)
                             (gates_passed m) (gates_failed m)) self,
     snd r).

(* _handle_execution_failure *)
Definition _handle_execution_failure (io : pass_io) (i : nat)
    (task : TaskState.t) (self : engine) (fs : FS) : engine * FS :=
  if decide (TaskState.retry_count (task_at i task self)
             < max_retries (config (aux _ self)))
  then
    let r := StateManager.log_retry (TaskState.id task) "Execution exception"
                                    (now (head io)) (state _ self) fs in
    let self := set_state _ (fst r) self in
    let m := metrics (aux _ self) in
    (set_metrics (mk_metrics (tasks_completed m) (tasks_failed m)
                             (total_tokens m) (distillations m) (retries m + 1)
                             (gates_passed m) (gates_failed m)) self,
     snd r)
  else
    let r := StateManager.mark_failed (TaskState.id task) (now (head io))
                                      (state _ self) fs in
    let self := set_state _ (fst r) self in
    let m := metrics (aux _ self) in
    (set_metrics (mk_metrics (tasks_completed m) (tasks_failed m + 1)
                             (total_tokens m) (distillations m) (retries m)
                             (gates_passed m) (gates_failed m)) self,
     snd r).

(* _update_visuals *)
Definition _update_visuals (self : engine) : engine :=
  let progress := StateManager.get_progress_percentage (state _ self) in
  if decide (progress < Qc_of_Z 10)%Qc then render_stage "hatchling" 0%Qc self
  else if decide (progress < Qc_of_Z 80)%Qc
       then render_stage "hunter" progress self
       else render_stage "powerhouse" progress self.

(* step 4 of the loop body: the scheduled check-in, which does not
   block *)
Definition scheduled_checkin (io : pass_io) (task : TaskState.t)
    (self : engine) : result engine :=
  r <- HITL.should_checkpoint_scheduled (hitl _ self) ;;
  let self := set_hitl _ (snd r) self in
  if fst r then
    let progress := StateManager.get_progress_percentage (state _ self) in
    match HITL.checkpoint env (TaskState.id task) HITL.SCHEDULED
            ("Scheduled check-in: " +:+ fmt_fixed0 progress +:+ "% complete")
            None false (checkin io) (hitl _ self) with
    | Some (_, hitl') => Ok (set_hitl _ hitl' self)
    | None => Ok self
    end
  else Ok self.

(* Steps 1 to 4 of the loop body and the update of the visuals, for the
   task object at position i. *)
Definition steps (io : pass_io) (i : nat) (task : TaskState.t)
    (self : engine) (fs : FS) : result (engine * FS) :=
  due <- _should_distill self ;;
  let self :=
    if due : bool then _perform_distillation (now (head io)) self else self in
  let r := _apply_effort task self in
  let self := snd r in
  r <- (if fst r then
          let gate_result :=
            OracleGatekeeper.verify_all (gatekeeper _ self) (world io) task in
          if GateResult.passed gate_result
          then _handle_success io i task gate_result self fs
          else Ok (_handle_gate_failure io i task gate_result self fs)
        else Ok (_handle_execution_failure io i task self fs)) ;;
  self <- scheduled_checkin io task (fst r) ;;
  Ok (_update_visuals self, snd r).

(* The position of the object get_next_task returns. *)
Definition next_position (self : engine) : nat :=
  from_option fst 0%nat
    (StateManager.find_task
       (fun ts => String.eqb (TaskState.status ts) "pending")
       (PRDState.tasks (StateManager.state (state _ self)))).

(* The while loop of run, one pass_io for each pass.  None when the
   passes listed do not reach the end of the loop. *)
Fixpoint run_loop (passes : list pass_io) (self : engine) (fs : FS)
  : option (result (engine * FS)) :=
  if StateManager.is_complete (state _ self) then Some (Ok (self, fs))
  else
    match passes with
    | [] => None
    | io :: passes =>
        match one_pass env _ (steps io (next_position self)) (head io)
                       self fs with
        | None => None
        | Some (next_pass _ self fs) => run_loop passes self fs
        | Some (leave_loop _ self fs) => Some (Ok (self, fs))
        | Some (raised _ e _ _) => Some (Raise e)
        end
    end.

(* _finalize *)
Definition _finalize (now : string) (self : engine) : engine :=
  let self :=
    if StateManager.is_complete (state _ self)
    then render_stage "powerhouse" (Qc_of_Z 100) self
    else self in
  let m := metrics (aux _ self) in
  _append_ledger now "FINAL" "LOOP_COMPLETE" (total_tokens m)
    (pretty (gates_passed m) +:+ " total")
    ("Completed: " +:+ pretty (tasks_completed m) +:+ ", Failed: "
     +:+ pretty (tasks_failed m))
    self.

(* run: the value returned is self.state.is_complete() *)
Definition run (passes : list pass_io) (now_final : string) (self : engine)
    (fs : FS) : option (result (bool * (engine * FS))) :=
  let self := render_stage "hatchling" 0%Qc self in
  match run_loop passes self fs with
  | None => None
  | Some (Raise e) => Some (Raise e)
  | Some (Ok (self, fs)) =>
      let self := _finalize now_final self in
      Some (Ok (StateManager.is_complete (state _ self), (self, fs)))
  end.

End Harness.

Arguments set_aux {Client Distiller} a self.
Arguments set_tokens {Client Distiller} tc self.
Arguments set_metrics {Client Distiller} m self.
Arguments set_opencode {Client Distiller} c self.
Arguments set_distiller {Client Distiller} d self.
Arguments render_stage {Client Distiller} stage progress self.
Arguments _append_ledger {Client Distiller} now task_id action tokens
  gate_status notes self.
Arguments add_total_tokens {Client Distiller} n self.
Arguments _should_distill {Client Distiller} self.
Arguments _perform_distillation {Client Distiller} distill now self.
Arguments _apply_effort {Client} execute_task {Distiller} task self.
Arguments task_at {Client Distiller} i task self.
Arguments _handle_success {Client Distiller} io i task gate_result self fs.
Arguments _handle_gate_failure {Client Distiller} io i task gate_result self fs.
Arguments _handle_execution_failure {Client Distiller} io i task self fs.
Arguments _update_visuals {Client Distiller} self.
Arguments scheduled_checkin env fmt_fixed0 {Client Distiller} io task self.
Arguments steps {H} env fmt_fixed0 {Client} execute_task {Distiller} distill
  io i task self fs.
Arguments next_position {Client Distiller} self.
Arguments run_loop {H} env fmt_fixed0 {Client} execute_task {Distiller} distill
  passes self fs.
Arguments _finalize {Client Distiller} now self.
Arguments run {H} env fmt_fixed0 {Client} execute_task {Distiller} distill
  passes now_final self fs.

(* ------------------------------------------------------------------- *)
(* what the loop does to a plan                                         *)
(* ------------------------------------------------------------------- *)

Definition is_pending (ts : TaskState.t) : bool :=
  String.eqb (TaskState.status ts) "pending".

(* the ids of the TaskState entries of a task list *)
Definition task_ids (tasks : list TaskItem) : list string :=
  omap (fun item => match item with
                    | IsTaskState ts => Some (TaskState.id ts)
                    | Other _ => None
                    end) tasks.

(* no pending task of the list is high-risk by its title *)
Definition no_high_risk_pending (tasks : list TaskItem) : Prop :=
  Forall (fun item => match item with
                      | IsTaskState ts =>
                          is_pending ts = true ->
                          HITL.detect_high_risk (TaskState.title ts) = false
                      | Other _ => True
                      end) tasks.

(* the task object after _handle_execution_failure *)
Definition handled (max_retries : Z) (task : TaskState.t) : TaskState.t :=
  if decide (TaskState.retry_count task < max_retries)
  then TaskState.set_status "pending"
         (TaskState.set_last_failure (Some "Execution exception")
            (TaskState.set_retry_count (TaskState.retry_count task + 1) task))
  else TaskState.set_status "failed" task.

(* The task object after a pass of the loop that picked it at time `now`
   and went through _handle_execution_failure. *)
Definition after_failed_pass (max_retries : Z) (now : string)
    (ts : TaskState.t) : TaskState.t :=
  handled max_retries
    (TaskState.set_started_at (Some now)
       (TaskState.set_status "in_progress" ts)).

(* The passes a task takes until it is marked failed when every
   execution fails: one for each retry left, and one more. *)
Definition passes_for (max_retries : Z) (item : TaskItem) : nat :=
  match item with
  | IsTaskState ts =>
      if is_pending ts
      then S (Z.to_nat (max_retries - TaskState.retry_count ts))
      else 0%nat
  | Other _ => 0%nat
  end.

Definition passes_needed (max_retries : Z) (tasks : list TaskItem) : nat :=
  sum_list_with (passes_for max_retries) tasks.

(* An entry of the plan whose retries are used up: a task that was
   pending is failed, with retry_count raised to max_retries if it was
   below; any other entry is as it was. *)
Definition exhausted (max_retries : Z) (item item' : TaskItem) : Prop :=
  match item with
  | IsTaskState ts =>
      if is_pending ts then
        exists ts',
          item' = IsTaskState ts'
          /\ TaskState.id ts' = TaskState.id ts
          /\ TaskState.title ts' = TaskState.title ts
          /\ TaskState.status ts' = "failed"
          /\ TaskState.retry_count ts'
             = Z.max (TaskState.retry_count ts) max_retries
      else item' = item
  | Other _ => item' = item
  end.

(* what two engines share when they differ in their HITL controller and
   their visuals only *)
Definition same_core {Client Distiller} (a b : engine Client Distiller)
  : Prop :=
  state _ a = state _ b
  /\ gatekeeper _ a = gatekeeper _ b
  /\ tokens _ a = tokens _ b
  /\ config (aux _ a) = config (aux _ b)
  /\ metrics (aux _ a) = metrics (aux _ b)
  /\ ledger (aux _ a) = ledger (aux _ b)
  /\ opencode (aux _ a) = opencode (aux _ b)
  /\ distiller (aux _ a) = distiller (aux _ b).

(* The conditions under which a pass goes straight to the effort step:
   distinct task ids, no pending task that is high-risk, a check
   interval other than 0 and a context within its budget. *)
Definition ready {Client Distiller} (self : engine Client Distiller) : Prop :=
  NoDup (task_ids (PRDState.tasks (StateManager.state (state _ self))))
  /\ no_high_risk_pending (PRDState.tasks (StateManager.state (state _ self)))
  /\ HITL.check_interval (hitl _ self) <> 0
  /\ _should_distill self = Ok false.

End ChickenHawk.

(* ===================================================================== *)
(*  Sample inputs                                                         *)
(* ===================================================================== *)

Module Samples.

Definition task_001 : TaskState.t :=
  TaskState.mk "task-001" "Parse the plan" "complete" 2
    (Some "Charter violations detected")
    (Some "2026-01-01T00:00:00+00:00") (Some "2026-01-01T01:00:00+00:00")
    None (Some "specs/task-001.yaml") 0.

Definition task_002 : TaskState.t :=
  TaskState.mk "task-002" "Write the ledger" "pending" 0
    None None None None (Some "specs/task-002.yaml") 0.

Definition two_task_plan : StateManager.t :=
  StateManager.mk "specs/task-state.json"
    (PRDState.mk "specs/prd.md" "1.0"
       [IsTaskState task_001; IsTaskState task_002]
       "2026-01-01T00:00:00+00:00" "2026-01-01T00:00:00+00:00").

(* floats rendered by a placeholder *)
Definition plain_format : FloatFormat :=
  {| fmt_percent0 := fun _ => "#%";
     fmt_fixed3 := fun _ => "#.###";
     fmt_float := fun _ => "#" |}.

(* all seven gates enabled, the default thresholds *)
Definition all_enabled : OracleGatekeeper.t :=
  OracleGatekeeper.mk
    (fun g =>
       match g with
       | technical => GateConfig.with_threshold (Q2Qc (4 # 5))
       | virtue => GateConfig.with_threshold (Q2Qc (199 # 200))
       | _ => GateConfig.default
       end).

(* all seven gates enabled, every numeric setting of the Effort gate 0 *)
Definition effort_settings_zero : OracleGatekeeper.t :=
  OracleGatekeeper.mk
    (fun g =>
       match g with
       | technical => GateConfig.with_threshold (Q2Qc (4 # 5))
       | virtue => GateConfig.with_threshold (Q2Qc (199 # 200))
       | effort => GateConfig.mk true 0%Qc false 0
       | _ => GateConfig.default
       end).

(* tests and lint pass with 90% coverage; no checker can be imported *)
Definition passing_world : OracleGatekeeper.world :=
  {| OracleGatekeeper.pytest := OracleGatekeeper.Exited 0;
     OracleGatekeeper.pytest_coverage := Q2Qc (9 # 10);
     OracleGatekeeper.ruff := OracleGatekeeper.Exited 0;
     OracleGatekeeper.validate_artifact := None;
     OracleGatekeeper.check_charter_safe := None |}.

(* as passing_world, with a validator that scores 1.0 and reports
   `tokens` tokens *)
Definition scoring_world (tokens : Z) : OracleGatekeeper.world :=
  {| OracleGatekeeper.pytest := OracleGatekeeper.Exited 0;
     OracleGatekeeper.pytest_coverage := Q2Qc (9 # 10);
     OracleGatekeeper.ruff := OracleGatekeeper.Exited 0;
     OracleGatekeeper.validate_artifact :=
       Some (fun _ => {| OracleGatekeeper.alignment_score := Some 1%Qc;
                         OracleGatekeeper.vibe_tokens_used := Some tokens |});
     OracleGatekeeper.check_charter_safe := None |}.

(* pytest fails and the charter checker reports violations *)
Definition failing_world : OracleGatekeeper.world :=
  {| OracleGatekeeper.pytest := OracleGatekeeper.Exited 1;
     OracleGatekeeper.pytest_coverage := Q2Qc (1 # 2);
     OracleGatekeeper.ruff := OracleGatekeeper.Exited 0;
     OracleGatekeeper.validate_artifact := None;
     OracleGatekeeper.check_charter_safe :=
       Some (fun _ => {| OracleGatekeeper.charter_safe := Some false;
                         OracleGatekeeper.violations := Some ["cost leak"] |}) |}.

(* the HITL settings of the reference deployment: 30 minutes, low-risk
   checkpoints approved automatically *)
Definition default_settings : HITL.settings :=
  {| HITL.HITL_TIMEOUT_MINUTES := 30;
     HITL.HITL_AUTO_APPROVE_LOW_RISK := true |}.

Definition fresh_controller : HITL.t :=
  HITL.__init__ "http://localhost:8095" true.

(* a checkpoint call that nobody answers *)
Definition unanswered : HITL.surroundings :=
  {| HITL.uuid8 := "1A2B3C4D";
     HITL.now_created := "2026-01-01T00:00:00+00:00";
     HITL.now_resolved := "2026-01-01T00:30:00+00:00";
     HITL.schedule := [] |}.

(* a checkpoint call rejected by a human during the second sleep *)
Definition rejected_by_human : HITL.surroundings :=
  {| HITL.uuid8 := "1A2B3C4D";
     HITL.now_created := "2026-01-01T00:00:00+00:00";
     HITL.now_resolved := "2026-01-01T00:30:00+00:00";
     HITL.schedule :=
       [[];
        [{| HITL.rc_checkpoint_id := "HITL-1A2B3C4D";
            HITL.rc_approved := false;
            HITL.rc_notes := Some "not now";
            HITL.rc_resolved_by := "human";
            HITL.rc_now := "2026-01-01T00:00:07+00:00" |}]] |}.

(* a plan whose only task is high-risk by its title *)
Definition deploy_task : TaskState.t :=
  TaskState.mk "task-001" "Deploy to production" "pending" 0
    None None None None (Some "specs/task-001.yaml") 0.

Definition deploy_plan : StateManager.t :=
  StateManager.mk "specs/task-state.json"
    (PRDState.mk "specs/prd.md" "1.0" [IsTaskState deploy_task; IsTaskState task_002]
       "2026-01-01T00:00:00+00:00" "2026-01-01T00:00:00+00:00").

(* the engine at the start of run() on deploy_plan *)
Definition engine_on_deploy_plan {Aux : Type} (aux : Aux) : ChickenHawk.t Aux :=
  ChickenHawk.mk Aux deploy_plan OracleGatekeeper.__init__
    (TokenCounter.init 128000) fresh_controller aux.

(* the first pass of the loop, in which a human rejects the checkpoint *)
Definition rejected_pass : ChickenHawk.pass :=
  {| ChickenHawk.now := "2026-01-01T00:00:00+00:00";
     ChickenHawk.hitl_io := rejected_by_human |}.

End Samples.

Module MoreSamples.

Import Samples.

(* a plan left behind by an interrupted run: the first task is still
   in_progress, the second is blocked, nothing is pending *)
Definition wedged_plan : StateManager.t :=
  StateManager.mk "specs/task-state.json"
    (PRDState.mk "specs/prd.md" "1.0"
       [IsTaskState (TaskState.set_status "in_progress" deploy_task);
        IsTaskState (TaskState.set_status "blocked" task_002)]
       "2026-01-01T00:00:00+00:00" "2026-01-01T00:00:00+00:00").

(* two tasks that share an id *)
Definition duplicate_id_plan : StateManager.t :=
  StateManager.mk "specs/task-state.json"
    (PRDState.mk "specs/prd.md" "1.0"
       [IsTaskState task_002; IsTaskState task_001;
        IsTaskState (TaskState.set_status "pending" task_001)]
       "2026-01-01T00:00:00+00:00" "2026-01-01T00:00:00+00:00").

(* the plan of a fresh StateManager *)
Definition empty_plan : StateManager.t :=
  StateManager.mk "specs/task-state.json"
    (PRDState.mk "specs/prd.md" "1.0" []
       "2026-01-01T00:00:00+00:00" "2026-01-01T00:00:00+00:00").


(* an oracle_gates section: Perception with an empty dict, Technical
   with two threshold keys, a gate that does not exist, and a setting
   that is not a dict *)
Definition sample_gate_settings : list (string * yaml) :=
  [("perception", YDict []);
   ("technical", YDict [("threshold", YFloat (Q2Qc (1 # 2)));
                        ("coverage_threshold", YInt 90)]);
   ("speed", YDict [("enabled", YBool false)]);
   ("judge", YBool false)].

Definition sample_config : list (string * yaml) :=
  [("oracle_gates", YDict sample_gate_settings)].

Definition configured_gatekeeper : OracleGatekeeper.t :=
  match OracleGatekeeper._load_config (YDict sample_config)
          OracleGatekeeper.__init__ with
  | Ok gk => gk
  | Raise _ => OracleGatekeeper.__init__
  end.

(* the controller after a non-blocking HIGH_RISK checkpoint was
   registered while the human is away *)
Definition controller_with_pending : HITL.t :=
  match HITL.checkpoint default_settings "task-001" HITL.HIGH_RISK
          "High-risk task: deploy to production" None false unanswered
          (HITL.__init__ "http://localhost:8095" false) with
  | Some (_, c) => c
  | None => fresh_controller
  end.

(* an approval given 1797 seconds into the 30 minutes, during the last
   five-second sleep of the wait *)
Definition late_approval : HITL.resolve_call :=
  {| HITL.rc_checkpoint_id := "HITL-1A2B3C4D";
     HITL.rc_approved := true;
     HITL.rc_notes := Some "go ahead";
     HITL.rc_resolved_by := "human";
     HITL.rc_now := "2026-01-01T00:29:57+00:00" |}.

Definition approved_too_late : HITL.surroundings :=
  {| HITL.uuid8 := "1A2B3C4D";
     HITL.now_created := "2026-01-01T00:00:00+00:00";
     HITL.now_resolved := "2026-01-01T00:30:00+00:00";
     HITL.schedule := replicate 359 [] ++ [[late_approval]] |}.

(* an OpenCode client that answers every prompt with success *)
Definition willing_client (prompt : string) (c : unit)
  : result ChickenHawk.ExecResult * unit :=
  (Ok {| ChickenHawk.success := true;
         ChickenHawk.output := "done";
         ChickenHawk.exec_tokens_used := 10 |},
   c).

(* a distiller that returns an empty summary *)
Definition silent_distiller (context standards : string)
    (task : option string) (d : unit) : string * unit :=
  ("", d).

(* whole numbers rendered by a placeholder *)
Definition whole_number (x : Qc) : string := "#".

Definition harness_config : ChickenHawk.HarnessConfig :=
  ChickenHawk.mk_config "autonomous" (Q2Qc (7 # 10)) 128000 5 true
    "specs/prd.md" "specs/task-state.json" ".chicken-hawk/ledger.log".

(* the engine as constructed on two_task_plan: task-001 is complete,
   task-002 is pending with no retry used *)
Definition fresh_engine : ChickenHawk.engine unit unit :=
  ChickenHawk.mk _ two_task_plan OracleGatekeeper.__init__
    (TokenCounter.init 128000) fresh_controller
    (ChickenHawk.mk_parts harness_config ChickenHawk.no_metrics [] tt tt []).

(* a pass in which the gates would pass and git would commit *)
Definition quiet_pass : ChickenHawk.pass_io :=
  {| ChickenHawk.head :=
       {| ChickenHawk.now := "2026-01-02T00:00:00+00:00";
          ChickenHawk.hitl_io := unanswered |};
     ChickenHawk.world := passing_world;
     ChickenHawk.git := Ok tt;
     ChickenHawk.checkin := unanswered |}.

(* a gate result in which two gates of three did not pass *)
Definition two_gates_failed : GateResult.t :=
  GateResult.mk false
    [("technical", false); ("virtue", true); ("ethics", false)]
    (Some "Tests failed") 120 [].

End MoreSamples.

(* ===================================================================== *)
(*  Properties                                                            *)
(* ===================================================================== *)

Module TokenCounterFacts.

Import TokenCounter.

(* len(text) // 4 is the number of whole groups of four characters *)
Lemma estimate_tokens_floor (text : string) :
  4 * _estimate_tokens text <= Z.of_nat (String.length text)
    < 4 * _estimate_tokens text + 4.
Proof.
  unfold _estimate_tokens.
  pose proof (Z.div_mod (Z.of_nat (String.length text)) 4 ltac:(lia)) as Hdm.
  pose proof (Z.mod_pos_bound (Z.of_nat (String.length text)) 4 ltac:(lia)).
  lia.
Qed.

Lemma estimate_tokens_le_ceil (text : string) :
  _estimate_tokens text <= ceil_quarter text.
Proof.
  unfold _estimate_tokens, ceil_quarter.
  apply Z.div_le_mono; lia.
Qed.

Lemma add_all_max_tokens (texts : list string) (self : t) :
  max_tokens (add_all texts self) = max_tokens self.
Proof.
  revert self. induction texts as [|text texts IH]; intros self; [done|].
  unfold add_all in *. simpl. now rewrite IH.
Qed.

(** C3, as the specification states it, fails: on the three-character
    text "abc" a fresh counter stays at 0, while ceil(3/4) is 1. *)
Lemma add_is_not_ceil :
  fst (add "abc" (init 128000))
  <> current_tokens (init 128000) + ceil_quarter "abc".
Proof. vm_compute. discriminate. Qed.

(** C3 (amended): for every text, add appends the text to the context
    buffer, increments the current token count by exactly
    floor(len(text)/4), that is len(text) // 4, leaves max_tokens alone
    and returns the updated count. *)
Theorem add_appends_and_counts_floor (text : string) (self : t) :
  let k := Z.of_nat (String.length text) `div` 4 in
  4 * k <= Z.of_nat (String.length text) < 4 * k + 4
  /\ context_buffer (snd (add text self)) = context_buffer self +:+ text
  /\ current_tokens (snd (add text self)) = current_tokens self + k
  /\ max_tokens (snd (add text self)) = max_tokens self
  /\ fst (add text self) = current_tokens (snd (add text self)).
Proof.
  intros k. split; [apply estimate_tokens_floor|].
  unfold add; simpl. repeat split; reflexivity.
Qed.

(** C9, as the specification states it, fails for a negative ceiling:
    with max_tokens = -4 and eight characters added the ratio returned
    is 0, not current / max = 2 / -4. *)
Lemma usage_ratio_negative_max :
  let tc := add_all ["abcdefgh"] (init (-4)) in
  max_tokens tc <> 0
  /\ get_usage_ratio tc = Ok 0%Qc
  /\ py_truediv (current_tokens tc) (max_tokens tc)
     = Ok (Qc_of_Z 2 / Qc_of_Z (-4))%Qc
  /\ get_usage_ratio tc <> py_truediv (current_tokens tc) (max_tokens tc).
Proof.
  cbv zeta. split; [vm_compute; discriminate|].
  split; [reflexivity|]. split; [reflexivity|].
  intros Heq. vm_compute in Heq. discriminate Heq.
Qed.

(** C9 (amended): whatever text has been added, get_usage_ratio raises
    nothing; with max_tokens <= 0 (in particular 0) it returns 0, and
    with max_tokens > 0 it returns the current token count divided by
    max_tokens. *)
Theorem get_usage_ratio_guarded (max : Z) (texts : list string) :
  let tc := add_all texts (init max) in
  (max <= 0 -> get_usage_ratio tc = Ok 0%Qc)
  /\ (0 < max ->
      get_usage_ratio tc = Ok (Qc_of_Z (current_tokens tc) / Qc_of_Z max)%Qc).
Proof.
  intros tc. unfold get_usage_ratio, py_truediv.
  assert (Hmax : max_tokens tc = max) by apply add_all_max_tokens.
  rewrite Hmax. split; intros Hle.
  - destruct (decide (max > 0)); [lia | reflexivity].
  - destruct (decide (max > 0)); [|lia].
    destruct (decide (max = 0)); [lia | reflexivity].
Qed.

Lemma get_usage_ratio_guarded_witness :
  get_usage_ratio (add_all ["abcdefgh"; "abc"] (init 0)) = Ok 0%Qc
  /\ get_usage_ratio (add_all ["abcdefgh"; "abc"] (init 8))
     = Ok (Qc_of_Z (current_tokens (add_all ["abcdefgh"; "abc"] (init 8)))
           / Qc_of_Z 8)%Qc.
Proof.
  split.
  - apply (proj1 (get_usage_ratio_guarded 0 ["abcdefgh"; "abc"])). lia.
  - apply (proj2 (get_usage_ratio_guarded 8 ["abcdefgh"; "abc"])). lia.
Defined.

End TokenCounterFacts.

Module StateManagerFacts.

Import StateManager Samples.

Lemma from_dict_to_dict (ts : TaskState.t) :
  TaskState.from_dict (TaskState.to_dict ts) = Ok ts.
Proof.
  destruct ts as [i ti st rc [lf|] [sa|] [ca|] [op|] [sp|] tu]; reflexivity.
Qed.

Lemma mapM_from_dict_to_dict (l : list TaskState.t) :
  mapM TaskState.from_dict (TaskState.to_dict <$> l) = Ok l.
Proof.
  induction l as [|ts l IH]; [reflexivity|].
  cbn [fmap list_fmap mapM]. change (list_fmap _ _ TaskState.to_dict l)
    with (TaskState.to_dict <$> l).
  rewrite from_dict_to_dict. cbn [rbind]. rewrite IH. reflexivity.
Qed.

(* a list whose entries are all TaskState objects *)
Lemma all_task_states (items : list TaskItem) :
  Forall (fun item => is_task_state item = true) items ->
  exists l, items = IsTaskState <$> l.
Proof.
  induction 1 as [|item items Hitem _ [l ->]].
  - now exists [].
  - destruct item as [ts|raw]; [|discriminate]. now exists (ts :: l).
Qed.

Lemma to_dict_tasks (l : list TaskState.t) :
  (fun t => match t with
            | IsTaskState ts => TaskState.to_dict ts
            | Other raw => raw
            end) <$> (IsTaskState <$> l)
  = TaskState.to_dict <$> l.
Proof. rewrite <- list_fmap_compose. reflexivity. Qed.

(* Loading what _save wrote gives back the state _save left in memory. *)
Lemma load_after_save (now : string) (self : t) (fs : FS) :
  only_task_states self ->
  _load (fst (_save now self fs)) (snd (_save now self fs))
  = Ok (fst (_save now self fs)).
Proof.
  intros Hall. destruct (all_task_states _ Hall) as [l Hl].
  destruct self as [path [prd ver tasks created updated]]. simpl in Hl. subst tasks.
  unfold _save, _load. cbn [fst snd state_path set_state state].
  rewrite lookup_insert_eq.
  cbn [PRDState.to_dict PRDState.set_updated_at PRDState.tasks
       PRDState.prd_file PRDState.version PRDState.created_at
       PRDState.updated_at].
  rewrite to_dict_tasks.
  change (dict_get "tasks" _) with (Some (JList (TaskState.to_dict <$> l))).
  cbn [from_option id py_iter rbind].
  rewrite mapM_from_dict_to_dict. reflexivity.
Qed.

(* ------------------------------------------------------------------- *)
(* the states a StateManager holds contain TaskState objects only       *)
(* ------------------------------------------------------------------- *)

Lemma load_only_task_states (self loaded : t) (fs : FS) :
  _load self fs = Ok loaded -> only_task_states loaded.
Proof.
  unfold _load, only_task_states.
  destruct (fs !! state_path self) as [[| | | | |data]|]; try discriminate.
  destruct (py_iter _) as [items|]; [|discriminate]. cbn [rbind].
  destruct (mapM _ items) as [tasks|]; [|discriminate]. cbn [rbind].
  destruct (get_str "prd_file" _ _); [|discriminate]. cbn [rbind].
  destruct (get_str "version" _ _); [|discriminate]. cbn [rbind].
  destruct (get_str "created_at" _ _); [|discriminate]. cbn [rbind].
  destruct (get_str "updated_at" _ _); [|discriminate]. cbn [rbind].
  intros Heq. inversion Heq; subst. cbn [state set_state PRDState.tasks].
  apply Forall_fmap, Forall_true. reflexivity.
Qed.

Lemma init_only_task_states (path now : string) (fs fs' : FS) (self : t) :
  __init__ path now fs = Ok (self, fs') -> only_task_states self.
Proof.
  unfold __init__, _load_or_create.
  destruct (decide _) as [_|_].
  - destruct (_load _ fs) as [loaded|] eqn:Hload; [|discriminate].
    cbn [rbind]. intros Heq. inversion Heq; subst.
    now apply (load_only_task_states _ _ _ Hload).
  - intros Heq. inversion Heq; subst. constructor.
Qed.

Lemma update_task_only_task_states (i : nat) (ts : TaskState.t) (self : t) :
  only_task_states self -> only_task_states (update_task i ts self).
Proof.
  unfold only_task_states, update_task.
  cbn [state set_state PRDState.tasks PRDState.set_tasks]. intros Hall.
  apply Forall_insert; [exact Hall | reflexivity].
Qed.

Lemma save_only_task_states (now : string) (self : t) (fs : FS) :
  only_task_states self -> only_task_states (fst (_save now self fs)).
Proof. intros Hall. exact Hall. Qed.

Lemma log_retry_only_task_states (task_id reason now : string) (self : t)
    (fs : FS) :
  only_task_states self ->
  only_task_states (fst (log_retry task_id reason now self fs)).
Proof.
  intros Hall. unfold log_retry. destruct (get_task task_id self) as [[i ts]|];
    [|exact Hall].
  apply save_only_task_states. now apply update_task_only_task_states.
Qed.

Lemma get_next_task_only_task_states (now : string) (self : t) (fs : FS) :
  only_task_states self ->
  only_task_states (fst (snd (get_next_task now self fs))).
Proof.
  intros Hall. unfold get_next_task. destruct (find_task _ _) as [[i ts]|];
    [|exact Hall].
  apply save_only_task_states. now apply update_task_only_task_states.
Qed.

(* _load reads the path of the manager and nothing else of it *)
Lemma load_path_only (a b : t) (fs : FS) :
  state_path a = state_path b -> _load a fs = _load b fs.
Proof.
  destruct a as [pa sa], b as [pb sb]. cbn [state_path]. intros ->.
  reflexivity.
Qed.

Lemma find_task_Some (p : TaskState.t -> bool) (l : list TaskItem)
    (i : nat) (ts : TaskState.t) :
  find_task p l = Some (i, ts) ->
  l !! i = Some (IsTaskState ts) /\ p ts = true.
Proof.
  revert i. induction l as [|item l IH]; intros i Hfind; [discriminate|].
  destruct item as [ts'|raw]; simpl in Hfind.
  - destruct (p ts') eqn:Hp.
    + inversion Hfind; subst. now split.
    + destruct (find_task p l) as [[j tj]|]; [|discriminate].
      inversion Hfind; subst. now apply IH.
  - destruct (find_task p l) as [[j tj]|]; [|discriminate].
    inversion Hfind; subst. now apply IH.
Qed.

(* Writing attributes of the object found keeps it the one found, as
   long as it still satisfies the test. *)
Lemma find_task_insert (p : TaskState.t -> bool) (l : list TaskItem)
    (i : nat) (ts ts' : TaskState.t) :
  find_task p l = Some (i, ts) ->
  p ts' = true ->
  find_task p (<[i := IsTaskState ts']> l) = Some (i, ts').
Proof.
  revert i. induction l as [|item l IH]; intros i Hfind Hp'; [discriminate|].
  destruct item as [t0|raw]; simpl in Hfind.
  - destruct (p t0) eqn:Hp.
    + inversion Hfind; subst. simpl. now rewrite Hp'.
    + destruct (find_task p l) as [[j tj]|] eqn:Hrest; [|discriminate].
      inversion Hfind; subst. simpl. rewrite Hp.
      now rewrite (IH j eq_refl Hp').
  - destruct (find_task p l) as [[j tj]|] eqn:Hrest; [|discriminate].
    inversion Hfind; subst. simpl. now rewrite (IH j eq_refl Hp').
Qed.

(** C7: for every work plan state held by a StateManager (its tasks are
    TaskState objects), _save followed by a reload from the same store,
    by _load or by a fresh StateManager on the same path, yields the
    identical ordered task list: the same ids in the same order, with
    the same statuses and retry counts. *)
Theorem save_then_reload_same_tasks
    (now later : string) (self : t) (fs : FS) :
  only_task_states self ->
  exists reloaded,
    _load (fst (_save now self fs)) (snd (_save now self fs)) = Ok reloaded
    /\ __init__ (state_path self) later (snd (_save now self fs))
       = Ok (reloaded, snd (_save now self fs))
    /\ PRDState.tasks (state reloaded) = PRDState.tasks (state self)
    /\ task_summary <$> PRDState.tasks (state reloaded)
       = task_summary <$> PRDState.tasks (state self).
Proof.
  intros Hall. exists (fst (_save now self fs)).
  pose proof (load_after_save now self fs Hall) as Hload.
  split; [exact Hload|]. split.
  - unfold __init__, _load_or_create. cbn [state_path].
    destruct (decide (is_Some (snd (_save now self fs) !! state_path self)))
      as [_|Hnone].
    + rewrite (load_path_only _ (fst (_save now self fs))) by reflexivity.
      rewrite Hload. reflexivity.
    + exfalso. apply Hnone. unfold _save. cbn [snd].
      rewrite lookup_insert_eq. eauto.
  - split; reflexivity.
Qed.

Lemma save_then_reload_same_tasks_witness :
  exists reloaded,
    _load (fst (_save "t1" two_task_plan ∅)) (snd (_save "t1" two_task_plan ∅))
    = Ok reloaded
    /\ __init__ (state_path two_task_plan) "t2" (snd (_save "t1" two_task_plan ∅))
       = Ok (reloaded, snd (_save "t1" two_task_plan ∅))
    /\ PRDState.tasks (state reloaded) = PRDState.tasks (state two_task_plan)
    /\ task_summary <$> PRDState.tasks (state reloaded)
       = task_summary <$> PRDState.tasks (state two_task_plan).
Proof.
  apply (save_then_reload_same_tasks "t1" "t2" two_task_plan ∅).
  repeat constructor.
Defined.

Lemma find_task_exists (p : TaskState.t -> bool) (l : list TaskItem)
    (i : nat) (ts : TaskState.t) :
  l !! i = Some (IsTaskState ts) -> p ts = true ->
  is_Some (find_task p l).
Proof.
  revert i. induction l as [|item l IH]; intros i Hi Hp; [discriminate|].
  destruct i as [|i]; simpl in Hi.
  - inversion Hi; subst. simpl. rewrite Hp. eauto.
  - destruct (IH i Hi Hp) as [[j tj] Hj].
    destruct item as [t0|raw]; simpl.
    + destruct (p t0); [eauto|]. rewrite Hj. simpl. eauto.
    + rewrite Hj. simpl. eauto.
Qed.

Lemma forallb_false_at {A} (f : A -> bool) (l : list A) (i : nat) (x : A) :
  l !! i = Some x -> f x = false -> forallb f l = false.
Proof.
  revert i. induction l as [|y l IH]; intros i Hi Hf; [discriminate|].
  destruct i as [|i]; simpl in Hi.
  - inversion Hi; subst. simpl. now rewrite Hf.
  - simpl. rewrite (IH i Hi Hf). apply andb_false_r.
Qed.

(** C10: for every task whose status is already terminal (complete or
    failed), log_retry on its id still increments its retry count,
    records the failure reason and resets its status to pending, and
    persists that; nothing guards the terminal status, so the task is
    back in the pending pool (get_next_task finds a pending task and
    is_complete is false). *)
Theorem log_retry_revives_terminal_task
    (task_id reason now later : string) (self : t) (fs : FS)
    (i : nat) (task : TaskState.t) :
  get_task task_id self = Some (i, task) ->
  terminal (TaskState.status task) = true ->
  let self' := fst (log_retry task_id reason now self fs) in
  let fs' := snd (log_retry task_id reason now self fs) in
  exists task',
    get_task task_id self' = Some (i, task')
    /\ TaskState.retry_count task' = TaskState.retry_count task + 1
    /\ TaskState.last_failure task' = Some reason
    /\ TaskState.status task' = "pending"
    /\ PRDState.tasks (state self')
       = <[i := IsTaskState task']> (PRDState.tasks (state self))
    /\ fs' !! state_path self = Some (PRDState.to_dict (state self'))
    /\ is_Some (fst (get_next_task later self' fs'))
    /\ is_complete self' = false.
Proof.
  intros Hget Hterm self' fs'.
  set (task' :=
         TaskState.set_status "pending"
           (TaskState.set_last_failure (Some reason)
              (TaskState.set_retry_count (TaskState.retry_count task + 1) task))).
  assert (Hlog : log_retry task_id reason now self fs
                 = _save now (update_task i task' self) fs).
  { unfold log_retry. now rewrite Hget. }
  assert (Htasks : PRDState.tasks (state self')
                   = <[i := IsTaskState task']> (PRDState.tasks (state self))).
  { subst self'. rewrite Hlog. reflexivity. }
  destruct (find_task_Some _ _ _ _ Hget) as [Hi Hid].
  assert (Hi' : PRDState.tasks (state self') !! i = Some (IsTaskState task')).
  { rewrite Htasks. apply list_lookup_insert_eq. now apply lookup_lt_Some in Hi. }
  exists task'. split.
  { unfold get_task. rewrite Htasks.
    apply (find_task_insert _ _ _ task); [exact Hget | exact Hid]. }
  do 3 (split; [reflexivity|]). split; [exact Htasks|]. split.
  { subst self' fs'. rewrite Hlog. unfold _save. cbn [fst snd].
    cbn [update_task set_state state_path]. apply lookup_insert_eq. }
  split.
  - unfold get_next_task.
    destruct (find_task_exists
                (fun ts => String.eqb (TaskState.status ts) "pending")
                _ _ _ Hi' eq_refl) as [[j tj] Hj].
    rewrite Hj. cbn [fst]. eauto.
  - unfold is_complete. now apply (forallb_false_at _ _ _ _ Hi').
Qed.

Lemma log_retry_revives_terminal_task_witness :
  exists task',
    get_task "task-001"
      (fst (log_retry "task-001" "Execution exception" "t1" two_task_plan ∅))
    = Some (0%nat, task')
    /\ TaskState.retry_count task' = TaskState.retry_count task_001 + 1
    /\ TaskState.last_failure task' = Some "Execution exception"
    /\ TaskState.status task' = "pending"
    /\ PRDState.tasks
         (state (fst (log_retry "task-001" "Execution exception" "t1"
                        two_task_plan ∅)))
       = <[0%nat := IsTaskState task']> (PRDState.tasks (state two_task_plan))
    /\ snd (log_retry "task-001" "Execution exception" "t1" two_task_plan ∅)
         !! state_path two_task_plan
       = Some (PRDState.to_dict
                 (state (fst (log_retry "task-001" "Execution exception" "t1"
                                two_task_plan ∅))))
    /\ is_Some (fst (get_next_task "t2"
                       (fst (log_retry "task-001" "Execution exception" "t1"
                               two_task_plan ∅))
                       (snd (log_retry "task-001" "Execution exception" "t1"
                               two_task_plan ∅))))
    /\ is_complete (fst (log_retry "task-001" "Execution exception" "t1"
                           two_task_plan ∅)) = false.
Proof.
  apply (log_retry_revives_terminal_task "task-001" "Execution exception"
           "t1" "t2" two_task_plan ∅ 0%nat task_001); reflexivity.
Defined.

End StateManagerFacts.

Module OracleGatekeeperFacts.

Import OracleGatekeeper.

Section Facts.

Context `{FloatFormat}.

(* ----------------------------------------------------------------- *)
(* one block of verify_all                                            *)
(* ----------------------------------------------------------------- *)

Lemma all_passed_block (b : bool) key count gate l :
  all_passed (if b then record_gate key count gate l else l)
  = all_passed l && implb b (Gate.passed gate).
Proof.
  destruct b; simpl; [|now rewrite andb_true_r].
  destruct (Gate.passed gate); [now rewrite andb_true_r | now rewrite andb_false_r].
Qed.

Lemma all_passed_block_skip (b : bool) key count gate l :
  all_passed (if b then record_gate key count gate l else skip_gate key l)
  = all_passed l && implb b (Gate.passed gate).
Proof.
  destruct b; simpl; [|now rewrite andb_true_r].
  destruct (Gate.passed gate); [now rewrite andb_true_r | now rewrite andb_false_r].
Qed.

Lemma total_tokens_block (b : bool) key count gate l :
  total_tokens (if b then record_gate key count gate l else l)
  = total_tokens l
    + (if count && b then default 0 (Gate.tokens gate) else 0).
Proof. destruct b, count; simpl; lia. Qed.

Lemma total_tokens_block_skip (b : bool) key count gate l :
  total_tokens (if b then record_gate key count gate l else skip_gate key l)
  = total_tokens l
    + (if count && b then default 0 (Gate.tokens gate) else 0).
Proof. destruct b, count; simpl; lia. Qed.

Lemma failure_reason_block (b : bool) key count gate l :
  failure_reason (if b then record_gate key count gate l else l)
  = if b && negb (Gate.passed gate)
    then py_or (failure_reason l) (Gate.reason gate)
    else failure_reason l.
Proof. destruct b; simpl; [|done]. now destruct (Gate.passed gate). Qed.

Lemma failure_reason_block_skip (b : bool) key count gate l :
  failure_reason (if b then record_gate key count gate l else skip_gate key l)
  = if b && negb (Gate.passed gate)
    then py_or (failure_reason l) (Gate.reason gate)
    else failure_reason l.
Proof. destruct b; simpl; [|done]. now destruct (Gate.passed gate). Qed.

Variable self : t.
Variable w : world.
Variable task : TaskState.t.

(* the token total of the token-reporting gates *)
Local Abbreviation T := (cumulative_tokens self w task).

(* ----------------------------------------------------------------- *)
(* the token total                                                    *)
(* ----------------------------------------------------------------- *)

(* the token total handed to the Effort gate *)
Ltac name_locals_before_effort l6 :=
  match goal with
  | |- context [_gate_effort self task (total_tokens ?l)] => set (l6 := l)
  end.

Lemma tokens_before_effort (l6 : locals) :
  l6 = (let l := start in
        let l := if is_enabled self technical
                 then record_gate "technical" false (_gate_technical self w task) l
                 else l in
        let l := if is_enabled self virtue
                 then record_gate "virtue" true (_gate_virtue self w task) l
                 else l in
        let l := if is_enabled self ethics
                 then record_gate "ethics" false (_gate_ethics self w task) l
                 else l in
        let l := if is_enabled self judge
                 then record_gate "judge" true (_gate_judge self task) l
                 else l in
        let l := if is_enabled self strategy
                 then record_gate "strategy" false (_gate_strategy self task) l
                 else l in
        if is_enabled self perception
        then record_gate "perception" true (_gate_perception self task) l
        else skip_gate "perception" l) ->
  total_tokens l6 = T.
Proof.
  intros ->. unfold cumulative_tokens. cbv zeta.
  rewrite total_tokens_block_skip, !total_tokens_block.
  cbn -[Z.add _gate_virtue].
  destruct (is_enabled self virtue), (is_enabled self judge),
    (is_enabled self perception); cbn -[Z.add _gate_virtue]; lia.
Qed.

Lemma verify_all_tokens_used :
  GateResult.tokens_used (verify_all self w task) = T.
Proof.
  unfold verify_all. cbv zeta. cbn [GateResult.tokens_used].
  name_locals_before_effort l6.
  rewrite total_tokens_block. cbn [andb]. rewrite Z.add_0_r.
  now apply tokens_before_effort.
Qed.

(* ----------------------------------------------------------------- *)
(* the verdict                                                        *)
(* ----------------------------------------------------------------- *)

Lemma verify_all_passed :
  GateResult.passed (verify_all self w task)
  = forallb (fun g => implb (is_enabled self g)
                            (Gate.passed (run_gate self w task T g)))
            gate_order.
Proof.
  unfold verify_all. cbv zeta. cbn [GateResult.passed].
  name_locals_before_effort l6.
  rewrite (tokens_before_effort l6 eq_refl).
  rewrite all_passed_block. subst l6.
  rewrite all_passed_block_skip, !all_passed_block.
  cbn [forallb gate_order run_gate start all_passed].
  btauto.
Qed.

(* ----------------------------------------------------------------- *)
(* the headline failure reason                                        *)
(* ----------------------------------------------------------------- *)

Lemma verify_all_failure_reason :
  GateResult.failure_reason (verify_all self w task)
  = foldl (fun acc g =>
             if gate_fails self w task g
             then py_or acc (Gate.reason (run_gate self w task T g))
             else acc)
          None gate_order.
Proof.
  unfold verify_all. cbv zeta. cbn [GateResult.failure_reason].
  name_locals_before_effort l6.
  rewrite (tokens_before_effort l6 eq_refl).
  rewrite failure_reason_block. subst l6.
  rewrite failure_reason_block_skip, !failure_reason_block.
  reflexivity.
Qed.

(* a gate that fails gives a reason, and the reason is not empty *)
Lemma failing_gate_reason (tokens : Z) (g : GateName) :
  Gate.passed (run_gate self w task tokens g) = false ->
  truthy (Gate.reason (run_gate self w task tokens g)) = true.
Proof.
  destruct g; cbn [run_gate]; try discriminate.
  - unfold _gate_technical.
    destruct (pytest w); destruct (ruff w); cbn [Gate.passed Gate.reason];
      intros ->; reflexivity.
  - unfold _gate_virtue. destruct (validate_artifact w); [|discriminate].
    cbn [Gate.passed Gate.reason]. intros ->. reflexivity.
  - unfold _gate_ethics. destruct (check_charter_safe w); [|discriminate].
    cbn [Gate.passed Gate.reason]. intros ->. reflexivity.
  - unfold _gate_effort. cbn [Gate.passed Gate.reason]. intros ->. reflexivity.
Qed.

Lemma first_failure_wins (fails : GateName -> bool)
    (rsn : GateName -> option string) (l : list GateName)
    (acc : option string) :
  (forall g, fails g = true -> truthy (rsn g) = true) ->
  foldl (fun a g => if fails g then py_or a (rsn g) else a) acc l
  = if truthy acc then acc
    else match List.filter fails l with
         | [] => acc
         | g :: _ => rsn g
         end.
Proof.
  intros Hrsn. revert acc.
  induction l as [|g l IH]; intros acc; cbn [foldl List.filter].
  - now destruct (truthy acc).
  - rewrite IH. destruct (fails g) eqn:Hg.
    + unfold py_or. destruct (truthy acc) eqn:Hacc.
      * now rewrite Hacc.
      * now rewrite (Hrsn g Hg).
    + reflexivity.
Qed.

Lemma filter_head {A} (p : A -> bool) (l : list A) (x : A) (rest : list A) :
  List.filter p l = x :: rest ->
  exists before after,
    l = before ++ x :: after
    /\ Forall (fun y => p y = false) before
    /\ p x = true.
Proof.
  induction l as [|y l IH]; cbn [List.filter]; [discriminate|].
  destruct (p y) eqn:Hy; intros Heq.
  - inversion Heq; subst. exists [], l. repeat split; [constructor | exact Hy].
  - destruct (IH Heq) as (before & after & -> & Hall & Hx).
    exists (y :: before), after. repeat split; [now constructor | exact Hx].
Qed.

(* ----------------------------------------------------------------- *)
(* the per-gate records                                               *)
(* ----------------------------------------------------------------- *)

Lemma verify_all_details (g : GateName) :
  dict_get (gate_key g) (GateResult.details (verify_all self w task))
  = if is_enabled self g then Some (run_gate self w task T g) else None.
Proof.
  unfold verify_all. cbv zeta. cbn [GateResult.details].
  name_locals_before_effort l6.
  rewrite (tokens_before_effort l6 eq_refl). subst l6.
  destruct g; cbn [run_gate gate_key];
    generalize (_gate_technical self w task) (_gate_virtue self w task)
      (_gate_ethics self w task) (_gate_effort self task T);
    intros g1 g2 g3 g7;
    destruct (is_enabled self technical), (is_enabled self virtue),
      (is_enabled self ethics), (is_enabled self judge),
      (is_enabled self strategy), (is_enabled self perception),
      (is_enabled self effort);
    reflexivity.
Qed.

Lemma verify_all_gate_status (g : GateName) :
  dict_get (gate_key g) (GateResult.gate_status (verify_all self w task))
  = if is_enabled self g
    then Some (Gate.passed (run_gate self w task T g))
    else match g with
         | perception => Some true
         | _ => None
         end.
Proof.
  unfold verify_all. cbv zeta. cbn [GateResult.gate_status].
  name_locals_before_effort l6.
  rewrite (tokens_before_effort l6 eq_refl). subst l6.
  destruct g; cbn [run_gate gate_key];
    generalize (_gate_technical self w task) (_gate_virtue self w task)
      (_gate_ethics self w task) (_gate_effort self task T);
    intros g1 g2 g3 g7;
    destruct (is_enabled self technical), (is_enabled self virtue),
      (is_enabled self ethics), (is_enabled self judge),
      (is_enabled self strategy), (is_enabled self perception),
      (is_enabled self effort);
    reflexivity.
Qed.

(* ----------------------------------------------------------------- *)
(* C1                                                                 *)
(* ----------------------------------------------------------------- *)

Lemma verify_all_seven_true :
  (forall g, is_enabled self g = true) ->
  (forall g, Gate.passed (run_gate self w task T g) = true) ->
  GateResult.gate_status (verify_all self w task)
  = [("technical", true); ("virtue", true); ("ethics", true);
     ("judge", true); ("strategy", true); ("perception", true);
     ("effort", true)].
Proof.
  intros Hen Hpass.
  pose proof (Hpass technical) as P1. pose proof (Hpass virtue) as P2.
  pose proof (Hpass ethics) as P3. pose proof (Hpass effort) as P7.
  cbn [run_gate] in P1, P2, P3, P7.
  unfold verify_all. cbv zeta. cbn [GateResult.gate_status].
  name_locals_before_effort l6.
  rewrite (tokens_before_effort l6 eq_refl). subst l6.
  rewrite !Hen.
  revert P1 P2 P3 P7.
  generalize (_gate_technical self w task) (_gate_virtue self w task)
    (_gate_ethics self w task) (_gate_effort self task T).
  intros g1 g2 g3 g7 P1 P2 P3 P7.
  cbn. rewrite P1, P2, P3, P7. reflexivity.
Qed.

(** C1: for every task and every gate configuration, the `passed`
    field of verify_all's result is true iff every enabled gate
    passed; gate_status records the verdict of each enabled gate and
    records a disabled Perception gate as passed; with all seven gates
    enabled and every gate passing, the result has passed = True and
    gate_status has exactly 7 entries, all true. *)
Theorem verify_all_passed_iff_enabled_gates_pass :
  let r := verify_all self w task in
  (GateResult.passed r = true <->
   forall g, is_enabled self g = true ->
             Gate.passed (run_gate self w task T g) = true)
  /\ (forall g,
        dict_get (gate_key g) (GateResult.gate_status r)
        = if is_enabled self g
          then Some (Gate.passed (run_gate self w task T g))
          else match g with
               | perception => Some true
               | _ => None
               end)
  /\ ((forall g, is_enabled self g = true) ->
      (forall g, Gate.passed (run_gate self w task T g) = true) ->
      GateResult.passed r = true
      /\ GateResult.gate_status r
         = [("technical", true); ("virtue", true); ("ethics", true);
            ("judge", true); ("strategy", true); ("perception", true);
            ("effort", true)]
      /\ length (GateResult.gate_status r) = 7%nat
      /\ Forall (fun kv => snd kv = true) (GateResult.gate_status r)).
Proof.
  intros r.
  assert (Hiff : GateResult.passed r = true <->
                 forall g, is_enabled self g = true ->
                           Gate.passed (run_gate self w task T g) = true).
  { subst r. rewrite verify_all_passed, forallb_forall. split.
    - intros Hall g Hg. specialize (Hall g). rewrite Hg in Hall.
      apply Hall. destruct g; cbn; tauto.
    - intros Hall g _. destruct (is_enabled self g) eqn:Hg; [|reflexivity].
      cbn [implb]. now apply Hall. }
  split; [exact Hiff|]. split; [apply verify_all_gate_status|].
  intros Hen Hpass. split; [apply Hiff; auto|].
  subst r. rewrite (verify_all_seven_true Hen Hpass).
  split; [reflexivity|]. split; [reflexivity|]. repeat constructor.
Qed.

(* ----------------------------------------------------------------- *)
(* C5                                                                 *)
(* ----------------------------------------------------------------- *)

Lemma headline_is_first_failure (first : GateName) (rest : list GateName) :
  failing_gates self w task = first :: rest ->
  GateResult.failure_reason (verify_all self w task)
  = Gate.reason (run_gate self w task T first)
  /\ truthy (Gate.reason (run_gate self w task T first)) = true.
Proof.
  intros Hfail. unfold failing_gates in Hfail.
  assert (Hrsn : forall g, gate_fails self w task g = true ->
            truthy (Gate.reason (run_gate self w task T g)) = true).
  { intros g Hg. apply failing_gate_reason.
    unfold gate_fails in Hg. apply andb_true_iff in Hg as [_ Hg].
    now apply negb_true_iff in Hg. }
  split.
  - rewrite verify_all_failure_reason.
    rewrite (first_failure_wins (gate_fails self w task)
               (fun g => Gate.reason (run_gate self w task T g))
               gate_order None Hrsn).
    cbn [truthy]. now rewrite Hfail.
  - apply Hrsn. destruct (filter_head _ _ _ _ Hfail) as (_ & _ & _ & _ & Hx).
    exact Hx.
Qed.

Lemma truthy_Some (x : option string) :
  truthy x = true -> exists s, x = Some s /\ s <> "".
Proof.
  destruct x as [s|]; [|discriminate]. cbn [truthy]. intros Hs.
  exists s. split; [reflexivity|]. intros ->. discriminate.
Qed.

(** C5: when two or more gates fail during verify_all (as well as
    when one does), failure_reason is the reason reported by the
    first failing gate in the fixed order Technical, Virtue, Ethics,
    Judge, Strategy, Perception, Effort; later failing gates do not
    overwrite it, and every failing gate's own record, with its own
    reason, is in the per-gate details. *)
Theorem first_failing_gate_reason_is_headline :
  (2 <= length (failing_gates self w task))%nat ->
  let r := verify_all self w task in
  exists first rest reason,
    failing_gates self w task = first :: rest
    /\ (exists before after,
          gate_order = before ++ first :: after
          /\ Forall (fun g => gate_fails self w task g = false) before)
    /\ Gate.reason (run_gate self w task T first) = Some reason
    /\ reason <> ""
    /\ GateResult.failure_reason r = Some reason
    /\ Forall (fun g =>
                 dict_get (gate_key g) (GateResult.details r)
                 = Some (run_gate self w task T g)
                 /\ is_Some (Gate.reason (run_gate self w task T g)))
              (first :: rest).
Proof.
  intros Hlen r.
  destruct (failing_gates self w task) as [|first rest] eqn:Hfail;
    [cbn in Hlen; lia|].
  destruct (headline_is_first_failure first rest Hfail) as [Hhead Htruthy].
  destruct (truthy_Some _ Htruthy) as (reason & Hreason & Hne).
  exists first, rest, reason. split; [reflexivity|]. split.
  { destruct (filter_head _ _ _ _ Hfail) as (before & after & Hord & Hall & _).
    now exists before, after. }
  split; [exact Hreason|]. split; [exact Hne|].
  split; [subst r; now rewrite Hhead|].
  rewrite <- Hfail. apply Forall_forall. intros g Hg.
  unfold failing_gates in Hg. apply list_elem_of_In, filter_In in Hg as [_ Hg].
  pose proof Hg as Hg'. unfold gate_fails in Hg'.
  apply andb_true_iff in Hg' as [Hen Hnp]. apply negb_true_iff in Hnp.
  split.
  - subst r. rewrite verify_all_details. now rewrite Hen.
  - destruct (truthy_Some _ (failing_gate_reason _ _ Hnp)) as (s & Hs & _).
    rewrite Hs. eauto.
Qed.

(* ----------------------------------------------------------------- *)
(* C6                                                                 *)
(* ----------------------------------------------------------------- *)

Lemma effort_passes_iff (gk : t) (tokens : Z) :
  Gate.passed (_gate_effort gk task tokens) = true <-> tokens <= 50000.
Proof. unfold _gate_effort. cbn [Gate.passed]. apply bool_decide_eq_true. Qed.

Lemma effort_reason_mentions_budget (gk : t) (tokens : Z) :
  50000 < tokens ->
  exists reason,
    Gate.reason (_gate_effort gk task tokens) = Some reason
    /\ mentions "budget exceeded" reason.
Proof.
  intros Hover. unfold _gate_effort. cbn [Gate.reason].
  rewrite bool_decide_eq_false_2 by lia.
  eexists. split; [reflexivity|].
  exists "Token ", (": " +:+ pretty tokens +:+ "/" +:+ pretty 50000).
  reflexivity.
Qed.

Lemma never_failing_gates (g : GateName) :
  g = judge \/ g = strategy \/ g = perception ->
  gate_fails self w task g = false.
Proof.
  intros [->|[->| ->]]; unfold gate_fails; cbn [run_gate];
    cbn; apply andb_false_r.
Qed.

(** C6 (amended): the Effort gate passes iff the cumulative token
    cost accumulated from the token-reporting gates (Virtue, Judge,
    Perception) does not exceed the fixed per-task ceiling of 50,000,
    which no gate configuration changes; when the Effort gate is
    enabled and that cost exceeds 50,000, verify_all returns
    passed = False, the Effort gate's own reason mentions budget
    exceeded, and that reason is the failure_reason when no earlier
    gate failed. *)
Theorem effort_gate_fixed_ceiling :
  let r := verify_all self w task in
  (forall gk tokens,
     Gate.passed (_gate_effort gk task tokens) = true <-> tokens <= 50000)
  /\ (forall gk tokens, _gate_effort gk task tokens = _gate_effort self task tokens)
  /\ GateResult.tokens_used r = T
  /\ dict_get "effort" (GateResult.gate_status r)
     = (if is_enabled self effort then Some (bool_decide (T <= 50000)) else None)
  /\ (is_enabled self effort = true -> 50000 < T ->
      GateResult.passed r = false
      /\ exists gate reason,
           dict_get "effort" (GateResult.details r) = Some gate
           /\ Gate.reason gate = Some reason
           /\ mentions "budget exceeded" reason
           /\ (gate_fails self w task technical = false ->
               gate_fails self w task virtue = false ->
               gate_fails self w task ethics = false ->
               GateResult.failure_reason r = Some reason)).
Proof.
  intros r. split; [apply effort_passes_iff|].
  split; [reflexivity|]. split; [apply verify_all_tokens_used|].
  split.
  { pose proof (verify_all_gate_status effort) as Hs.
    cbn [gate_key run_gate] in Hs. subst r. rewrite Hs.
    destruct (is_enabled self effort); reflexivity. }
  intros Hen Hover.
  assert (Hfail : Gate.passed (_gate_effort self task T) = false).
  { destruct (Gate.passed (_gate_effort self task T)) eqn:Hp; [|reflexivity].
    apply effort_passes_iff in Hp. lia. }
  split.
  { subst r. rewrite verify_all_passed. apply not_true_is_false.
    rewrite forallb_forall. intros Hall.
    specialize (Hall effort). rewrite Hen in Hall. cbn [implb run_gate] in Hall.
    rewrite Hfail in Hall. discriminate Hall. now right; right; right; right; right; right; left. }
  destruct (effort_reason_mentions_budget self T Hover) as (reason & Hreason & Hm).
  exists (_gate_effort self task T), reason.
  split.
  { pose proof (verify_all_details effort) as Hd.
    cbn [gate_key run_gate] in Hd. subst r. rewrite Hd. now rewrite Hen. }
  split; [exact Hreason|]. split; [exact Hm|].
  intros H1 H2 H3.
  assert (Hfg : failing_gates self w task = [effort]).
  { unfold failing_gates, gate_order. cbn [List.filter].
    rewrite H1, H2, H3.
    rewrite !never_failing_gates by tauto.
    unfold gate_fails. rewrite Hen. cbn [run_gate andb].
    now rewrite Hfail. }
  destruct (headline_is_first_failure effort [] Hfg) as [Hhead _].
  subst r. rewrite Hhead. exact Hreason.
Qed.

End Facts.


Import Samples.

Lemma verify_all_passed_iff_enabled_gates_pass_witness :
  let r := @verify_all plain_format all_enabled passing_world task_002 in
  GateResult.passed r = true
  /\ GateResult.gate_status r
     = [("technical", true); ("virtue", true); ("ethics", true);
        ("judge", true); ("strategy", true); ("perception", true);
        ("effort", true)]
  /\ length (GateResult.gate_status r) = 7%nat
  /\ Forall (fun kv => snd kv = true) (GateResult.gate_status r).
Proof.
  apply (proj2 (proj2 (@verify_all_passed_iff_enabled_gates_pass
                         plain_format all_enabled passing_world task_002))).
  - intros g. destruct g; reflexivity.
  - intros g. destruct g; vm_compute; reflexivity.
Defined.

Lemma first_failing_gate_reason_is_headline_witness :
  let r := @verify_all plain_format all_enabled failing_world task_002 in
  let T := @cumulative_tokens plain_format all_enabled failing_world task_002 in
  @failing_gates plain_format all_enabled failing_world task_002
  = [technical; ethics]
  /\ GateResult.failure_reason r = Some "Technical checks failed (coverage: #%)"
  /\ exists first rest reason,
      @failing_gates plain_format all_enabled failing_world task_002
      = first :: rest
      /\ (exists before after,
            gate_order = before ++ first :: after
            /\ Forall (fun g => @gate_fails plain_format all_enabled
                                  failing_world task_002 g = false) before)
      /\ Gate.reason (@run_gate plain_format all_enabled failing_world
                        task_002 T first) = Some reason
      /\ reason <> ""
      /\ GateResult.failure_reason r = Some reason
      /\ Forall (fun g =>
                   dict_get (gate_key g) (GateResult.details r)
                   = Some (@run_gate plain_format all_enabled failing_world
                             task_002 T g)
                   /\ is_Some (Gate.reason
                                 (@run_gate plain_format all_enabled
                                    failing_world task_002 T g)))
                (first :: rest).
Proof.
  split; [vm_compute; reflexivity|]. split; [vm_compute; reflexivity|].
  apply (@first_failing_gate_reason_is_headline
           plain_format all_enabled failing_world task_002).
  vm_compute. lia.
Defined.

(** C6, as the specification states it, fails: the gate configuration
    has no token ceiling to set.  With every numeric setting of the
    Effort gate at 0 and the Virtue gate reporting 1 token, verify_all
    still returns passed = True and no failure reason. *)
Lemma effort_ceiling_cannot_be_set_to_zero :
  let r := @verify_all plain_format effort_settings_zero (scoring_world 1)
             task_002 in
  GateConfig.threshold (gates effort_settings_zero effort) = 0%Qc
  /\ GateConfig.max_attempts (gates effort_settings_zero effort) = 0
  /\ GateResult.tokens_used r = 1
  /\ GateResult.passed r = true
  /\ GateResult.failure_reason r = None.
Proof. vm_compute. repeat split; reflexivity. Qed.

Lemma effort_gate_fixed_ceiling_witness :
  let r := @verify_all plain_format all_enabled (scoring_world 60000)
             task_002 in
  GateResult.passed r = false
  /\ exists gate reason,
       dict_get "effort" (GateResult.details r) = Some gate
       /\ Gate.reason gate = Some reason
       /\ mentions "budget exceeded" reason
       /\ (@gate_fails plain_format all_enabled (scoring_world 60000)
             task_002 technical = false ->
           @gate_fails plain_format all_enabled (scoring_world 60000)
             task_002 virtue = false ->
           @gate_fails plain_format all_enabled (scoring_world 60000)
             task_002 ethics = false ->
           GateResult.failure_reason r = Some reason).
Proof.
  apply (proj2 (proj2 (proj2 (proj2
           (@effort_gate_fixed_ceiling plain_format all_enabled
              (scoring_world 60000) task_002))))).
  - reflexivity.
  - vm_compute. reflexivity.
Defined.

End OracleGatekeeperFacts.

Module HITLFacts.

Import HITL.

(* ------------------------------------------------------------------- *)
(* the polling loop always returns                                      *)
(* ------------------------------------------------------------------- *)

Lemma poll_returns (fuel : nat) (elapsed timeout_seconds : Z) (r : nat)
    (id : string) (schedule : list (list resolve_call)) (self : t) :
  timeout_seconds - elapsed <= Z.of_nat fuel ->
  is_Some (poll fuel elapsed timeout_seconds r id schedule self).
Proof.
  revert elapsed schedule self.
  induction fuel as [|fuel IH]; intros elapsed schedule self Hfuel;
    cbn [poll]; destruct (decide (elapsed < timeout_seconds)); eauto; [lia|].
  destruct (pending_checkpoints self !! id) as [current|]; [|eauto].
  destruct (decide (status_of current self ≠ PENDING)); [eauto|].
  apply IH. lia.
Qed.

Lemma wait_for_resolution_returns (r : nat) (timeout_minutes : Z)
    (now : string) (schedule : list (list resolve_call)) (self : t) :
  is_Some (_wait_for_resolution r timeout_minutes now schedule self).
Proof.
  unfold _wait_for_resolution.
  destruct (poll_returns (Z.to_nat (timeout_minutes * 60)) 0
              (timeout_minutes * 60) r
              (from_option checkpoint_id "" (deref r self)) schedule self)
    as [[[st|] self'] ->]; [lia| |]; eauto.
Qed.

Lemma checkpoint_returns (env : settings) task_id reason description context
    blocking io (self : t) :
  is_Some (checkpoint env task_id reason description context blocking io self).
Proof.
  unfold checkpoint.
  destruct (bool_decide (reason = SCHEDULED) && HITL_AUTO_APPROVE_LOW_RISK env);
    [eauto|].
  destruct blocking; cbn [negb]; [apply wait_for_resolution_returns | eauto].
Qed.

(* ------------------------------------------------------------------- *)
(* resolve                                                              *)
(* ------------------------------------------------------------------- *)

(* An explicit resolve makes the checkpoint terminal and removes it
   from the active-pending set. *)
Lemma resolve_removes (id : string) approved notes resolved_by now
    (self : t) (r : nat) (c : HITLCheckpoint) :
  pending_checkpoints self !! id = Some r ->
  heap self !! r = Some c ->
  let self' := snd (resolve id approved notes resolved_by now self) in
  fst (resolve id approved notes resolved_by now self)
  = Some (mark_resolved (if approved then APPROVED else REJECTED)
                        now resolved_by notes c)
  /\ is_terminal (status_of r self') = true
  /\ in_pending id self' = false.
Proof.
  intros Hp Hr. unfold resolve. rewrite Hp. cbn [fst snd].
  unfold deref, status_of, deref, in_pending, modify, set_pending, set_heap.
  cbn [heap pending_checkpoints].
  rewrite list_lookup_alter_eq, Hr. cbn [fmap option_fmap option_map from_option].
  split; [reflexivity|]. split; [now destruct approved|].
  rewrite lookup_delete_eq. apply bool_decide_eq_false_2. now intros [? ?].
Qed.

(* ------------------------------------------------------------------- *)
(* the wait when nobody answers                                         *)
(* ------------------------------------------------------------------- *)

Lemma poll_unanswered (fuel : nat) (elapsed timeout_seconds : Z) (r current : nat)
    (id : string) (self : t) :
  timeout_seconds - elapsed <= Z.of_nat fuel ->
  pending_checkpoints self !! id = Some current ->
  status_of current self = PENDING ->
  poll fuel elapsed timeout_seconds r id [] self = Some (None, self).
Proof.
  intros Hfuel Hp Hst. revert elapsed Hfuel.
  induction fuel as [|fuel IH]; intros elapsed Hfuel;
    cbn [poll]; destruct (decide (elapsed < timeout_seconds)); try reflexivity;
    [lia|].
  rewrite Hp. destruct (decide (status_of current self ≠ PENDING)) as [Hne|_];
    [now rewrite Hst in Hne|].
  cbn [hd tl foldl]. apply IH. lia.
Qed.

(* A blocking checkpoint that nobody answers returns TIMEOUT, and the
   checkpoint, now terminal, is still in the active-pending set. *)
Lemma timeout_keeps_checkpoint_pending (env : settings) task_id reason
    description context (io : surroundings) (self : t) :
  bool_decide (reason = SCHEDULED) && HITL_AUTO_APPROVE_LOW_RISK env = false ->
  schedule io = [] ->
  exists self',
    checkpoint env task_id reason description context true io self
    = Some (TIMEOUT, self')
    /\ pending_checkpoints self' !! ("HITL-" +:+ uuid8 io)
       = Some (length (heap self))
    /\ status_of (length (heap self)) self' = TIMEOUT.
Proof.
  intros Hauto Hsched. unfold checkpoint. rewrite Hauto, Hsched. cbn [negb].
  set (cp := mk_checkpoint ("HITL-" +:+ uuid8 io) task_id reason description
               (default (JDict []) context) PENDING (now_created io)
               None None None).
  set (r := length (heap self)).
  set (self2 := _notify r _).
  assert (Hheap : heap self2 = heap self ++ [cp]).
  { subst self2. unfold _notify. now destruct (negb (stationary _)). }
  assert (Hpend : pending_checkpoints self2
                  = <["HITL-" +:+ uuid8 io := r]> (pending_checkpoints self)).
  { subst self2. unfold _notify. now destruct (negb (stationary _)). }
  assert (Hderef : deref r self2 = Some cp).
  { unfold deref. rewrite Hheap. subst r. apply list_lookup_middle. reflexivity. }
  unfold _wait_for_resolution. rewrite Hderef. cbn [from_option checkpoint_id cp].
  rewrite (poll_unanswered _ 0 _ r r _ self2).
  - eexists. split; [reflexivity|]. split.
    + unfold modify, set_heap. cbn [pending_checkpoints]. rewrite Hpend.
      apply lookup_insert_eq.
    + unfold status_of, deref, modify, set_heap. cbn [heap].
      rewrite list_lookup_alter_eq. unfold deref in Hderef. now rewrite Hderef.
  - lia.
  - rewrite Hpend. apply lookup_insert_eq.
  - unfold status_of. now rewrite Hderef.
Qed.

(* ------------------------------------------------------------------- *)
(* C8                                                                   *)
(* ------------------------------------------------------------------- *)

(** C8: while the auto-approve-low-risk flag is enabled, every
    checkpoint call with reason SCHEDULED returns AUTO_APPROVED at once
    (blocking or not, whatever happens around it), leaves the
    active-pending set as it was, with no entry for the new checkpoint
    added, and calls neither the email notifier nor the webhook
    notifier. *)
Theorem scheduled_checkpoint_is_auto_approved (env : settings)
    (task_id description : string) (context : option json) (blocking : bool)
    (io : surroundings) (self : t) :
  HITL_AUTO_APPROVE_LOW_RISK env = true ->
  exists self',
    checkpoint env task_id SCHEDULED description context blocking io self
    = Some (AUTO_APPROVED, self')
    /\ pending_checkpoints self' = pending_checkpoints self
    /\ in_pending ("HITL-" +:+ uuid8 io) self'
       = in_pending ("HITL-" +:+ uuid8 io) self
    /\ calls self' = calls self
    /\ self' = self.
Proof.
  intros Hauto. exists self. unfold checkpoint. rewrite Hauto.
  rewrite bool_decide_eq_true_2 by reflexivity. cbn [andb].
  repeat split; reflexivity.
Qed.

Import Samples.

Lemma scheduled_checkpoint_is_auto_approved_witness :
  exists self',
    checkpoint default_settings "task-002" SCHEDULED
      "Scheduled check-in: 50% complete" None false unanswered fresh_controller
    = Some (AUTO_APPROVED, self')
    /\ pending_checkpoints self' = pending_checkpoints fresh_controller
    /\ in_pending ("HITL-" +:+ uuid8 unanswered) self'
       = in_pending ("HITL-" +:+ uuid8 unanswered) fresh_controller
    /\ calls self' = calls fresh_controller
    /\ self' = fresh_controller.
Proof.
  apply (scheduled_checkpoint_is_auto_approved default_settings "task-002"
           "Scheduled check-in: 50% complete" None false unanswered
           fresh_controller).
  reflexivity.
Defined.

(* ------------------------------------------------------------------- *)
(* C4                                                                   *)
(* ------------------------------------------------------------------- *)

(* the explicit resolve of C4, on the sample call: the checkpoint is
   REJECTED and gone from the active-pending set *)
Example rejected_checkpoint_leaves_pending :
  exists self',
    checkpoint default_settings "task-001" HIGH_RISK
      "High-risk task: deploy to production" None true rejected_by_human
      fresh_controller
    = Some (REJECTED, self')
    /\ status_of 0 self' = REJECTED
    /\ in_pending "HITL-1A2B3C4D" self' = false
    /\ terminal_in_pending self' = [].
Proof. eexists. split; [vm_compute; reflexivity|]. vm_compute. auto. Qed.

(** C4 fails on the timeout path: a blocking HIGH_RISK checkpoint that
    nobody answers returns TIMEOUT after the 30 minutes, its status is
    the terminal value TIMEOUT, and it is still in the active-pending
    set when the call returns (resolve deletes the entry, the timeout
    branch of _wait_for_resolution does not). *)
Theorem timed_out_checkpoint_stays_pending :
  exists self',
    checkpoint default_settings "task-001" HIGH_RISK
      "High-risk task: deploy to production" None true unanswered
      fresh_controller
    = Some (TIMEOUT, self')
    /\ status_of 0 self' = TIMEOUT
    /\ is_terminal (status_of 0 self') = true
    /\ pending_checkpoints self' !! "HITL-1A2B3C4D" = Some 0%nat
    /\ in_pending "HITL-1A2B3C4D" self' = true
    /\ terminal_in_pending self' = [("HITL-1A2B3C4D", 0%nat)].
Proof. eexists. split; [vm_compute; reflexivity|]. vm_compute. auto 10. Qed.

(* the two texts of the specification *)
Example detect_high_risk_drop_database :
  detect_high_risk "drop the production database" = true.
Proof. reflexivity. Qed.

Example detect_high_risk_haiku : detect_high_risk "write a haiku" = false.
Proof. reflexivity. Qed.

End HITLFacts.

Module ChickenHawkFacts.

Import ChickenHawk Samples.

(* StateManager has no attribute mark_skipped *)
Lemma no_mark_skipped (task_id now : string) (self : StateManager.t) (fs : FS) :
  StateManager.call_with_task_id "mark_skipped" task_id now self fs
  = Raise (AttributeError "StateManager" "mark_skipped").
Proof. reflexivity. Qed.

(* Whatever the rest of the loop body does: when the pre-execution
   checkpoint of a high-risk task resolves to REJECTED, the body ends
   in an AttributeError, with the task state and the store as
   get_next_task left them. *)
Lemma body_rejected_raises (env : HITL.settings) (Aux : Type)
    (steps : TaskState.t -> t Aux -> FS -> result (t Aux * FS))
    (io : pass) (task : TaskState.t) (self : t Aux) (fs : FS) (h : HITL.t) :
  HITL.detect_high_risk (TaskState.title task) = true ->
  HITL.checkpoint env (TaskState.id task) HITL.HIGH_RISK
    ("High-risk task: " +:+ TaskState.title task)
    (Some (JDict [("task", TaskState.to_dict task)])) true (hitl_io io)
    (hitl Aux self)
  = Some (HITL.REJECTED, h) ->
  body env Aux steps io task self fs
  = Some (raised Aux (AttributeError "StateManager" "mark_skipped")
            (set_hitl Aux h self) fs).
Proof.
  intros Hrisk Hcp. unfold body. rewrite Hrisk, Hcp. reflexivity.
Qed.

(** C2 fails on the code: on a plan whose first pending task is
    high-risk and whose checkpoint a human rejects, the pass of the
    loop ends in AttributeError (StateManager has no mark_skipped), the
    exception leaves run(), no next task is tried, and the state file
    records the task as in_progress, neither skipped nor failed. *)
Theorem rejected_task_aborts_the_loop (Aux : Type) (aux : Aux)
    (steps : TaskState.t -> t Aux -> FS -> result (t Aux * FS))
    (more : list pass) :
  exists self' fs',
    one_pass default_settings Aux steps rejected_pass
      (engine_on_deploy_plan aux) ∅
    = Some (raised Aux (AttributeError "StateManager" "mark_skipped") self' fs')
    /\ loop default_settings Aux steps (rejected_pass :: more)
         (engine_on_deploy_plan aux) ∅
       = Some (Raise (AttributeError "StateManager" "mark_skipped"))
    /\ StateManager.persisted_status "task-001" (state Aux self') fs'
       = Some "in_progress"
    /\ StateManager.persisted_status "task-002" (state Aux self') fs'
       = Some "pending"
    /\ HITL.in_pending "HITL-1A2B3C4D" (hitl Aux self') = false.
Proof.
  eexists. eexists. split; [vm_compute; reflexivity|].
  split; [vm_compute; reflexivity|]. vm_compute. auto.
Qed.

End ChickenHawkFacts.

(* ===================================================================== *)
(*  Further properties of the code                                        *)
(* ===================================================================== *)

Module TokenCounterMore.

Import TokenCounter.

Lemma string_app_cons (c : ascii) (a b : string) :
  String c a +:+ b = String c (a +:+ b).
Proof. reflexivity. Qed.

Lemma string_length_app (a b : string) :
  String.length (a +:+ b) = (String.length a + String.length b)%nat.
Proof.
  induction a as [|c a IH]; [reflexivity|].
  rewrite string_app_cons. cbn [String.length]. now rewrite IH.
Qed.

Lemma string_app_nil_r (a : string) : a +:+ "" = a.
Proof.
  induction a as [|c a IH]; [reflexivity|].
  rewrite string_app_cons. now rewrite IH.
Qed.

Lemma string_app_assoc (a b c : string) : (a +:+ b) +:+ c = a +:+ (b +:+ c).
Proof.
  induction a as [|x a IH]; [reflexivity|].
  rewrite !string_app_cons. now rewrite IH.
Qed.

Lemma estimate_tokens_nonneg (text : string) : 0 <= _estimate_tokens text.
Proof. unfold _estimate_tokens. apply Z.div_pos; lia. Qed.

Lemma step_keeps_count_within_buffer (self : t) (o : op) :
  0 <= current_tokens self ->
  4 * current_tokens self <= Z.of_nat (String.length (context_buffer self)) ->
  0 <= current_tokens (step self o)
  /\ 4 * current_tokens (step self o)
     <= Z.of_nat (String.length (context_buffer (step self o)))
  /\ max_tokens (step self o) = max_tokens self.
Proof.
  intros Hnn Hle.
  destruct o as [text| |summary]; cbn [step add reset reset_with_summary snd
    current_tokens context_buffer max_tokens].
  - rewrite string_length_app.
    pose proof (estimate_tokens_nonneg text).
    pose proof (TokenCounterFacts.estimate_tokens_floor text). lia.
  - cbn. lia.
  - pose proof (estimate_tokens_nonneg summary).
    pose proof (TokenCounterFacts.estimate_tokens_floor summary).
    change ("" +:+ summary) with summary. lia.
Qed.

(** X1: whatever sequence of add, reset and reset_with_summary calls a
    counter has seen since its construction, its token count is never
    negative and never exceeds a quarter of the length of its context
    buffer, and max_tokens is the value it was constructed with. *)
Theorem count_within_buffer (max : Z) (ops : list op) :
  let tc := run ops (init max) in
  0 <= current_tokens tc
  /\ 4 * current_tokens tc <= Z.of_nat (String.length (context_buffer tc))
  /\ max_tokens tc = max.
Proof.
  cbv zeta. unfold run.
  assert (Hgen : forall self,
             0 <= current_tokens self ->
             4 * current_tokens self
             <= Z.of_nat (String.length (context_buffer self)) ->
             0 <= current_tokens (foldl step self ops)
             /\ 4 * current_tokens (foldl step self ops)
                <= Z.of_nat (String.length (context_buffer (foldl step self ops)))
             /\ max_tokens (foldl step self ops) = max_tokens self).
  { induction ops as [|o ops IH]; intros self Hnn Hle; cbn [foldl].
    - auto.
    - destruct (step_keeps_count_within_buffer self o Hnn Hle) as (H1 & H2 & H3).
      destruct (IH (step self o) H1 H2) as (H4 & H5 & H6).
      rewrite H6, H3. auto. }
  apply Hgen; cbn; lia.
Qed.

(** X2: text added in pieces shorter than four characters is never
    counted: the buffer grows by every piece while the token count, and
    with it the usage ratio, stays where it was. *)
Theorem short_pieces_are_not_counted (pieces : list string) (self : t) :
  Forall (fun piece => (String.length piece < 4)%nat) pieces ->
  current_tokens (add_all pieces self) = current_tokens self
  /\ context_buffer (add_all pieces self)
     = context_buffer self +:+ foldr String.append "" pieces
  /\ get_usage_ratio (add_all pieces self) = get_usage_ratio self.
Proof.
  intros Hshort. revert self.
  induction Hshort as [|piece pieces Hpiece _ IH]; intros self.
  - unfold add_all. cbn [foldl foldr]. split; [reflexivity|]. split; [|reflexivity].
    now rewrite string_app_nil_r.
  - unfold add_all in *. cbn [foldl foldr].
    destruct (IH (snd (add piece self))) as (Hc & Hb & Hr).
    assert (Hzero : _estimate_tokens piece = 0).
    { unfold _estimate_tokens. apply Z.div_small. lia. }
    assert (Hcur : current_tokens (snd (add piece self)) = current_tokens self).
    { cbn [add snd current_tokens]. lia. }
    split; [now rewrite Hc|]. split.
    + rewrite Hb. cbn [add snd context_buffer]. apply string_app_assoc.
    + rewrite Hr. unfold get_usage_ratio. rewrite Hcur. reflexivity.
Qed.

Lemma short_pieces_are_not_counted_witness :
  current_tokens (add_all ["abc"; "de"; "fgh"] (init 8)) = current_tokens (init 8)
  /\ context_buffer (add_all ["abc"; "de"; "fgh"] (init 8))
     = context_buffer (init 8) +:+ foldr String.append "" ["abc"; "de"; "fgh"]
  /\ get_usage_ratio (add_all ["abc"; "de"; "fgh"] (init 8))
     = get_usage_ratio (init 8).
Proof.
  apply (short_pieces_are_not_counted ["abc"; "de"; "fgh"] (init 8)).
  repeat constructor.
Defined.

Lemma Qc_lt_div_iff (x c m : Qc) :
  (0 < m)%Qc -> (x < c / m)%Qc <-> (x * m < c)%Qc.
Proof.
  intros Hm.
  assert (Hne : m <> 0%Qc).
  { intros ->. now apply Qclt_not_eq in Hm. }
  rewrite (Qcmult_lt_mono_pos_r x (c / m) m Hm).
  rewrite (Qcmult_comm (c / m) m), Qcmult_div_r by exact Hne. reflexivity.
Qed.

(** X3: should_distill never raises.  With max_tokens > 0 it answers
    whether the current token count exceeds threshold * max_tokens,
    strictly; with max_tokens <= 0 the usage ratio is 0, so it answers
    whether the threshold is negative, whatever has been counted. *)
Theorem should_distill_threshold (threshold : Qc) (self : t) :
  (max_tokens self <= 0 ->
   should_distill threshold self = Ok (bool_decide (threshold < 0)%Qc))
  /\ (0 < max_tokens self ->
      should_distill threshold self
      = Ok (bool_decide (threshold * Qc_of_Z (max_tokens self)
                         < Qc_of_Z (current_tokens self))%Qc)).
Proof.
  unfold should_distill, get_usage_ratio, py_truediv. split; intros Hmax.
  - destruct (decide (max_tokens self > 0)); [lia | reflexivity].
  - destruct (decide (max_tokens self > 0)); [|lia].
    destruct (decide (max_tokens self = 0)); [lia|].
    cbn [rbind]. f_equal. apply bool_decide_ext.
    apply Qc_lt_div_iff. rewrite <- Z2Qc_inj_0.
    apply (proj1 (Z2Qc_inj_lt 0 (max_tokens self))). lia.
Qed.

Lemma should_distill_threshold_witness :
  should_distill (Q2Qc (7 # 10)) (add_all ["abcdefgh"] (init 0))
  = Ok (bool_decide (Q2Qc (7 # 10) < 0)%Qc)
  /\ should_distill (Q2Qc (7 # 10)) (add_all ["abcdefgh"; "ijklmnop"] (init 4))
     = Ok (bool_decide
             (Q2Qc (7 # 10)
              * Qc_of_Z (max_tokens (add_all ["abcdefgh"; "ijklmnop"] (init 4)))
              < Qc_of_Z (current_tokens
                           (add_all ["abcdefgh"; "ijklmnop"] (init 4))))%Qc).
Proof.
  split.
  - apply (proj1 (should_distill_threshold (Q2Qc (7 # 10))
                    (add_all ["abcdefgh"] (init 0)))).
    vm_compute. discriminate.
  - apply (proj2 (should_distill_threshold (Q2Qc (7 # 10))
                    (add_all ["abcdefgh"; "ijklmnop"] (init 4)))).
    vm_compute. reflexivity.
Defined.

End TokenCounterMore.

(* ===================================================================== *)
(*  state_manager.py: further properties                                 *)
(* ===================================================================== *)

Module StateManagerMore.

Import StateManager StateManagerFacts.

(* ------------------------------------------------------------------- *)
(* find_task finds the first entry that qualifies                       *)
(* ------------------------------------------------------------------- *)

Lemma find_task_None (p : TaskState.t -> bool) (l : list TaskItem) :
  find_task p l = None <->
  forall j ts, l !! j = Some (IsTaskState ts) -> p ts = false.
Proof.
  induction l as [|item l IH]; cbn [find_task].
  - split; [intros _ j ts Hj; discriminate | reflexivity].
  - destruct item as [t0|raw].
    + destruct (p t0) eqn:Hp.
      * split; [discriminate|]. intros Hall.
        specialize (Hall 0%nat t0 eq_refl). congruence.
      * destruct (find_task p l) as [r|] eqn:Hrest; cbn [fmap option_fmap option_map].
        -- split; [discriminate|]. intros Hall. exfalso.
           assert (Hn : Some r = None); [|discriminate].
           apply IH. intros j ts Hj. apply (Hall (S j) ts Hj).
        -- split; [|reflexivity]. intros _ [|j] ts Hj.
           ++ inversion Hj; subst. exact Hp.
           ++ apply (proj1 IH eq_refl j ts Hj).
    + destruct (find_task p l) as [r|] eqn:Hrest; cbn [fmap option_fmap option_map].
      * split; [discriminate|]. intros Hall. exfalso.
        assert (Hn : Some r = None); [|discriminate].
        apply IH. intros j ts Hj. apply (Hall (S j) ts Hj).
      * split; [|reflexivity]. intros _ [|j] ts Hj; [discriminate|].
        apply (proj1 IH eq_refl j ts Hj).
Qed.

Lemma find_task_first (p : TaskState.t -> bool) (l : list TaskItem)
    (i : nat) (ts : TaskState.t) :
  find_task p l = Some (i, ts) <->
  l !! i = Some (IsTaskState ts)
  /\ p ts = true
  /\ forall j tj, (j < i)%nat -> l !! j = Some (IsTaskState tj) -> p tj = false.
Proof.
  revert i. induction l as [|item l IH]; intros i; cbn [find_task].
  - split; [discriminate | intros [Hi _]; discriminate].
  - destruct item as [t0|raw].
    + destruct (p t0) eqn:Hp.
      * split.
        -- intros Heq. inversion Heq; subst. repeat split; [exact Hp|].
           intros j tj Hj. lia.
        -- intros (Hi & Hpt & Hbefore). destruct i as [|i].
           ++ inversion Hi; subst. reflexivity.
           ++ specialize (Hbefore 0%nat t0 ltac:(lia) eq_refl). congruence.
      * split.
        -- destruct (find_task p l) as [[j tj]|] eqn:Hrest; [|discriminate].
           cbn. intros Heq. inversion Heq; subst.
           destruct (proj1 (IH j) eq_refl) as (Hj & Hpt & Hbefore).
           repeat split; [exact Hj | exact Hpt |].
           intros [|k] tk Hk Hlook.
           ++ inversion Hlook; subst. exact Hp.
           ++ apply (Hbefore k tk); [lia | exact Hlook].
        -- intros (Hi & Hpt & Hbefore). destruct i as [|i].
           ++ inversion Hi; subst. congruence.
           ++ assert (Hfind : find_task p l = Some (i, ts)).
              { apply IH. repeat split; [exact Hi | exact Hpt |].
                intros j tj Hj Hlook. apply (Hbefore (S j) tj); [lia | exact Hlook]. }
              rewrite Hfind. reflexivity.
    + split.
      * destruct (find_task p l) as [[j tj]|] eqn:Hrest; [|discriminate].
        cbn. intros Heq. inversion Heq; subst.
        destruct (proj1 (IH j) eq_refl) as (Hj & Hpt & Hbefore).
        repeat split; [exact Hj | exact Hpt |].
        intros [|k] tk Hk Hlook; [discriminate|].
        apply (Hbefore k tk); [lia | exact Hlook].
      * intros (Hi & Hpt & Hbefore). destruct i as [|i]; [discriminate|].
        assert (Hfind : find_task p l = Some (i, ts)).
        { apply IH. repeat split; [exact Hi | exact Hpt |].
          intros j tj Hj Hlook. apply (Hbefore (S j) tj); [lia | exact Hlook]. }
        rewrite Hfind. reflexivity.
Qed.

(* ------------------------------------------------------------------- *)
(* counting by status                                                   *)
(* ------------------------------------------------------------------- *)

Lemma count_status_cons (s : string) (item : TaskItem) (l : list TaskItem) :
  count_status s (item :: l)
  = (match item with
     | IsTaskState ts => if String.eqb (TaskState.status ts) s then 1 else 0
     | Other _ => 0
     end) + count_status s l.
Proof.
  unfold count_status. cbn [List.filter].
  destruct item as [ts|raw]; [|lia].
  destruct (String.eqb (TaskState.status ts) s); cbn [length]; lia.
Qed.

Lemma count_status_insert (s : string) (l : list TaskItem) (i : nat)
    (old new : TaskState.t) :
  l !! i = Some (IsTaskState old) ->
  count_status s (<[i := IsTaskState new]> l)
  = count_status s l
    - (if String.eqb (TaskState.status old) s then 1 else 0)
    + (if String.eqb (TaskState.status new) s then 1 else 0).
Proof.
  revert i. induction l as [|item l IH]; intros i Hi; [discriminate|].
  destruct i as [|i]; cbn in Hi.
  - inversion Hi; subst.
    change (<[0%nat := IsTaskState new]> (IsTaskState old :: l))
      with (IsTaskState new :: l).
    rewrite !count_status_cons. lia.
  - change (<[S i := IsTaskState new]> (item :: l))
      with (item :: <[i := IsTaskState new]> l).
    rewrite !count_status_cons, (IH i Hi). lia.
Qed.

Lemma count_status_bounds (s : string) (l : list TaskItem) :
  0 <= count_status s l <= Z.of_nat (length l).
Proof.
  induction l as [|item l IH]; [unfold count_status; cbn [List.filter length]; lia|].
  rewrite count_status_cons. cbn [length].
  destruct item as [ts|raw]; [destruct (String.eqb _ _)|]; lia.
Qed.

(* ------------------------------------------------------------------- *)
(* get_next_task                                                        *)
(* ------------------------------------------------------------------- *)



(** X5: when no TaskState of the plan is pending, get_next_task returns
    None and changes neither the plan nor the state file, and the loop of
    run() is left at once with engine and store untouched, also when the
    plan is not complete (a task left in_progress or blocked). *)
Theorem no_pending_task_nothing_happens (now : string) (self : t) (fs : FS) :
  (forall j ts, PRDState.tasks (state self) !! j = Some (IsTaskState ts) ->
                TaskState.status ts <> "pending") ->
  get_next_task now self fs = (None, (self, fs))
  /\ forall (env : HITL.settings) (Aux : Type)
            (steps : TaskState.t -> ChickenHawk.t Aux -> FS
                     -> result (ChickenHawk.t Aux * FS))
            (io : ChickenHawk.pass) (passes : list ChickenHawk.pass)
            (engine : ChickenHawk.t Aux),
       ChickenHawk.state Aux engine = self ->
       ChickenHawk.loop env Aux steps (io :: passes) engine fs
       = Some (Ok (engine, fs)).
Proof.
  intros Hnone.
  assert (Hfind : find_task (fun ts => String.eqb (TaskState.status ts) "pending")
                    (PRDState.tasks (state self)) = None).
  { apply find_task_None. intros j ts Hj. apply String.eqb_neq.
    now apply (Hnone j ts). }
  assert (Hnext : get_next_task now self fs = (None, (self, fs))).
  { unfold get_next_task. now rewrite Hfind. }
  split; [exact Hnext|].
  intros env Aux steps io passes engine Hstate.
  cbn [ChickenHawk.loop]. destruct (is_complete _); [reflexivity|].
  unfold ChickenHawk.one_pass. rewrite Hstate.
  unfold get_next_task. rewrite Hfind. reflexivity.
Qed.

Lemma no_pending_task_nothing_happens_witness :
  is_complete MoreSamples.wedged_plan = false
  /\ get_next_task "t1" MoreSamples.wedged_plan ∅
     = (None, (MoreSamples.wedged_plan, ∅))
  /\ forall (env : HITL.settings) (Aux : Type)
            (steps : TaskState.t -> ChickenHawk.t Aux -> FS
                     -> result (ChickenHawk.t Aux * FS))
            (io : ChickenHawk.pass) (passes : list ChickenHawk.pass)
            (engine : ChickenHawk.t Aux),
       ChickenHawk.state Aux engine = MoreSamples.wedged_plan ->
       ChickenHawk.loop env Aux steps (io :: passes) engine ∅
       = Some (Ok (engine, ∅)).
Proof.
  split; [reflexivity|].
  apply (no_pending_task_nothing_happens "t1" MoreSamples.wedged_plan ∅).
  intros j ts Hj. destruct j as [|[|j]]; inversion Hj; subst; discriminate.
Defined.

(* ------------------------------------------------------------------- *)
(* mark_complete, mark_failed, log_retry                                *)
(* ------------------------------------------------------------------- *)

(** X6: for an id that no TaskState of the plan carries, mark_complete,
    mark_failed and log_retry change nothing: the plan, its updated_at
    stamp and the state file stay as they were. *)
Theorem unknown_id_changes_nothing (task_id reason now : string) (self : t)
    (fs : FS) :
  (forall j ts, PRDState.tasks (state self) !! j = Some (IsTaskState ts) ->
                TaskState.id ts <> task_id) ->
  mark_complete task_id now self fs = (self, fs)
  /\ mark_failed task_id now self fs = (self, fs)
  /\ log_retry task_id reason now self fs = (self, fs).
Proof.
  intros Hnone.
  assert (Hget : get_task task_id self = None).
  { unfold get_task. apply find_task_None. intros j ts Hj.
    apply String.eqb_neq. now apply (Hnone j ts). }
  unfold mark_complete, mark_failed, log_retry. rewrite Hget. auto.
Qed.

Lemma unknown_id_changes_nothing_witness :
  mark_complete "task-999" "t1" Samples.two_task_plan ∅
  = (Samples.two_task_plan, ∅)
  /\ mark_failed "task-999" "t1" Samples.two_task_plan ∅
     = (Samples.two_task_plan, ∅)
  /\ log_retry "task-999" "no such task" "t1" Samples.two_task_plan ∅
     = (Samples.two_task_plan, ∅).
Proof.
  apply (unknown_id_changes_nothing "task-999" "no such task" "t1"
           Samples.two_task_plan ∅).
  intros j ts Hj. destruct j as [|[|j]]; inversion Hj; subst; discriminate.
Defined.

(** X7: mark_complete and mark_failed act on the first TaskState that
    carries the id and on nothing else: that task gets status complete
    and completed_at set to the clock reading (mark_complete) or status
    failed with completed_at untouched (mark_failed), every other
    position of the plan, later tasks with the same id included, is
    unchanged, and the new plan is written to the state file. *)
Theorem mark_changes_first_match_only (task_id now : string) (self : t)
    (fs : FS) (i : nat) (task : TaskState.t) :
  PRDState.tasks (state self) !! i = Some (IsTaskState task) ->
  TaskState.id task = task_id ->
  (forall j tj, (j < i)%nat ->
     PRDState.tasks (state self) !! j = Some (IsTaskState tj) ->
     TaskState.id tj <> task_id) ->
  let completed :=
    TaskState.mk (TaskState.id task) (TaskState.title task) "complete"
      (TaskState.retry_count task) (TaskState.last_failure task)
      (TaskState.started_at task) (Some now) (TaskState.output_path task)
      (TaskState.spec_path task) (TaskState.tokens_used task) in
  let failed :=
    TaskState.mk (TaskState.id task) (TaskState.title task) "failed"
      (TaskState.retry_count task) (TaskState.last_failure task)
      (TaskState.started_at task) (TaskState.completed_at task)
      (TaskState.output_path task) (TaskState.spec_path task)
      (TaskState.tokens_used task) in
  let after_complete := mark_complete task_id now self fs in
  let after_failed := mark_failed task_id now self fs in
  PRDState.tasks (state (fst after_complete))
  = <[i := IsTaskState completed]> (PRDState.tasks (state self))
  /\ PRDState.tasks (state (fst after_failed))
     = <[i := IsTaskState failed]> (PRDState.tasks (state self))
  /\ (forall j, j <> i ->
        PRDState.tasks (state (fst after_complete)) !! j
        = PRDState.tasks (state self) !! j
        /\ PRDState.tasks (state (fst after_failed)) !! j
           = PRDState.tasks (state self) !! j)
  /\ snd after_complete
     = <[state_path self := PRDState.to_dict (state (fst after_complete))]> fs
  /\ snd after_failed
     = <[state_path self := PRDState.to_dict (state (fst after_failed))]> fs.
Proof.
  intros Hi Hid Hbefore completed failed after_complete after_failed.
  assert (Hget : get_task task_id self = Some (i, task)).
  { unfold get_task. apply find_task_first.
    repeat split; [exact Hi | now apply String.eqb_eq |].
    intros j tj Hj Hlook. apply String.eqb_neq. now apply (Hbefore j tj). }
  subst after_complete after_failed. unfold mark_complete, mark_failed.
  rewrite Hget.
  cbn [fst snd _save update_task set_state state state_path
       PRDState.set_tasks PRDState.set_updated_at PRDState.tasks].
  split; [reflexivity|]. split; [reflexivity|]. split.
  - intros j Hj. split; apply list_lookup_insert_ne; congruence.
  - split; reflexivity.
Qed.

Lemma mark_changes_first_match_only_witness :
  let self := MoreSamples.duplicate_id_plan in
  let task := Samples.task_001 in
  let completed :=
    TaskState.mk (TaskState.id task) (TaskState.title task) "complete"
      (TaskState.retry_count task) (TaskState.last_failure task)
      (TaskState.started_at task) (Some "t1") (TaskState.output_path task)
      (TaskState.spec_path task) (TaskState.tokens_used task) in
  let failed :=
    TaskState.mk (TaskState.id task) (TaskState.title task) "failed"
      (TaskState.retry_count task) (TaskState.last_failure task)
      (TaskState.started_at task) (TaskState.completed_at task)
      (TaskState.output_path task) (TaskState.spec_path task)
      (TaskState.tokens_used task) in
  let after_complete := mark_complete "task-001" "t1" self ∅ in
  let after_failed := mark_failed "task-001" "t1" self ∅ in
  PRDState.tasks (state (fst after_complete))
  = <[1%nat := IsTaskState completed]> (PRDState.tasks (state self))
  /\ PRDState.tasks (state (fst after_failed))
     = <[1%nat := IsTaskState failed]> (PRDState.tasks (state self))
  /\ (forall j, j <> 1%nat ->
        PRDState.tasks (state (fst after_complete)) !! j
        = PRDState.tasks (state self) !! j
        /\ PRDState.tasks (state (fst after_failed)) !! j
           = PRDState.tasks (state self) !! j)
  /\ snd after_complete
     = <[state_path self := PRDState.to_dict (state (fst after_complete))]> ∅
  /\ snd after_failed
     = <[state_path self := PRDState.to_dict (state (fst after_failed))]> ∅.
Proof.
  apply (mark_changes_first_match_only "task-001" "t1"
           MoreSamples.duplicate_id_plan ∅ 1%nat Samples.task_001).
  - reflexivity.
  - reflexivity.
  - intros j tj Hj Hlook. destruct j as [|j]; [|lia].
    inversion Hlook; subst. discriminate.
Defined.

(* ------------------------------------------------------------------- *)
(* get_progress_percentage                                              *)
(* ------------------------------------------------------------------- *)

Lemma Qc_div_mul_cancel (c m : Qc) : m <> 0%Qc -> (c / m * m)%Qc = c.
Proof. intros Hm. rewrite Qcmult_comm. now apply Qcmult_div_r. Qed.

Lemma Qc_of_nat_pos (n : nat) : (0 < n)%nat -> (0 < Qc_of_Z (Z.of_nat n))%Qc.
Proof.
  intros Hn. rewrite <- Z2Qc_inj_0.
  apply (proj1 (Z2Qc_inj_lt 0 (Z.of_nat n))). lia.
Qed.

Lemma Qc_hundred_pos : (0 < Qc_of_Z 100)%Qc.
Proof. rewrite <- Z2Qc_inj_0. apply (proj1 (Z2Qc_inj_lt 0 100)). lia. Qed.

(* completed / total * 100 against the bounds, for 0 <= completed and
   0 < total *)
Lemma percentage_le (c n k : Z) :
  0 < n ->
  (Qc_of_Z k * Qc_of_Z 100 <= Qc_of_Z c / Qc_of_Z n * Qc_of_Z 100)%Qc
  <-> k * n <= c.
Proof.
  intros Hn.
  assert (Hnq : (0 < Qc_of_Z n)%Qc).
  { rewrite <- Z2Qc_inj_0. now apply (proj1 (Z2Qc_inj_lt 0 n)). }
  assert (Hne : Qc_of_Z n <> 0%Qc).
  { intros Heq. rewrite Heq in Hnq. now apply Qclt_not_eq in Hnq. }
  rewrite <- (Qcmult_le_mono_pos_r _ _ _ Qc_hundred_pos).
  rewrite (Qcmult_le_mono_pos_r _ _ _ Hnq).
  rewrite Qc_div_mul_cancel by exact Hne.
  rewrite <- Z2Qc_inj_mul. symmetry. apply Z2Qc_inj_le.
Qed.

Lemma percentage_ge (c n k : Z) :
  0 < n ->
  (Qc_of_Z c / Qc_of_Z n * Qc_of_Z 100 <= Qc_of_Z k * Qc_of_Z 100)%Qc
  <-> c <= k * n.
Proof.
  intros Hn.
  assert (Hnq : (0 < Qc_of_Z n)%Qc).
  { rewrite <- Z2Qc_inj_0. now apply (proj1 (Z2Qc_inj_lt 0 n)). }
  assert (Hne : Qc_of_Z n <> 0%Qc).
  { intros Heq. rewrite Heq in Hnq. now apply Qclt_not_eq in Hnq. }
  rewrite <- (Qcmult_le_mono_pos_r _ _ _ Qc_hundred_pos).
  rewrite (Qcmult_le_mono_pos_r _ _ _ Hnq).
  rewrite Qc_div_mul_cancel by exact Hne.
  rewrite <- Z2Qc_inj_mul. symmetry. apply Z2Qc_inj_le.
Qed.

Lemma progress_as_count (self : t) :
  PRDState.tasks (state self) <> [] ->
  get_progress_percentage self
  = (Qc_of_Z (count_status "complete" (PRDState.tasks (state self)))
     / Qc_of_Z (Z.of_nat (length (PRDState.tasks (state self))))
     * Qc_of_Z 100)%Qc.
Proof.
  unfold get_progress_percentage.
  destruct (PRDState.tasks (state self)) as [|item l]; [congruence|].
  reflexivity.
Qed.

Lemma count_status_all (s : string) (l : list TaskItem) :
  count_status s l = Z.of_nat (length l) <->
  forall item, item ∈ l ->
    exists ts, item = IsTaskState ts /\ TaskState.status ts = s.
Proof.
  induction l as [|item l IH].
  - split; [intros _ item Hin; inversion Hin | reflexivity].
  - rewrite count_status_cons. cbn [length].
    pose proof (count_status_bounds s l) as Hb. split.
    + intros Hcount x Hx.
      destruct item as [ts|raw].
      * destruct (String.eqb (TaskState.status ts) s) eqn:Hs; [|lia].
        apply elem_of_cons in Hx as [->|Hx].
        -- exists ts. split; [reflexivity | now apply String.eqb_eq].
        -- apply IH; [lia | exact Hx].
      * lia.
    + intros Hall.
      destruct (Hall item ltac:(left)) as (ts & -> & Hs).
      apply String.eqb_eq in Hs. rewrite Hs.
      assert (Hrest : count_status s l = Z.of_nat (length l)).
      { apply IH. intros x Hx. apply Hall. now right. }
      lia.
Qed.

(** X8: get_progress_percentage lies between 0 and 100; it is exactly
    100 for the empty plan, and for a plan with tasks it is 100 exactly
    when every entry is a TaskState with status complete, and 0 exactly
    when none is. *)
Theorem progress_percentage_bounds (self : t) :
  let p := get_progress_percentage self in
  let tasks := PRDState.tasks (state self) in
  (0 <= p)%Qc /\ (p <= Qc_of_Z 100)%Qc
  /\ (tasks = [] -> p = Qc_of_Z 100)
  /\ (tasks <> [] ->
      (p = Qc_of_Z 100 <->
       forall item, item ∈ tasks ->
         exists ts, item = IsTaskState ts /\ TaskState.status ts = "complete")
      /\ (p = 0%Qc <-> count_status "complete" tasks = 0)).
Proof.
  intros p tasks. subst p tasks.
  destruct (PRDState.tasks (state self)) as [|item l] eqn:Htasks.
  - unfold get_progress_percentage. rewrite Htasks.
    split; [now apply Qclt_le_weak, Qc_hundred_pos|].
    split; [apply Qcle_refl|]. split; [reflexivity | congruence].
  - assert (Hne : PRDState.tasks (state self) <> []) by (rewrite Htasks; discriminate).
    rewrite (progress_as_count self Hne). rewrite Htasks.
    set (c := count_status "complete" (item :: l)).
    set (n := Z.of_nat (length (item :: l))).
    assert (Hn : 0 < n) by (subst n; cbn [length]; lia).
    pose proof (count_status_bounds "complete" (item :: l)) as Hb.
    fold c n in Hb.
    assert (H0 : (0 <= Qc_of_Z c / Qc_of_Z n * Qc_of_Z 100)%Qc).
    { replace 0%Qc with (Qc_of_Z 0 * Qc_of_Z 100)%Qc
        by (rewrite Z2Qc_inj_0; ring).
      apply percentage_le; [exact Hn | lia]. }
    assert (H100 : (Qc_of_Z c / Qc_of_Z n * Qc_of_Z 100 <= Qc_of_Z 100)%Qc).
    { replace (Qc_of_Z 100) with (Qc_of_Z 1 * Qc_of_Z 100)%Qc at 2
        by (rewrite Z2Qc_inj_1; ring).
      apply percentage_ge; [exact Hn | lia]. }
    split; [exact H0|]. split; [exact H100|]. split; [discriminate|].
    intros _. split.
    + rewrite <- (count_status_all "complete" (item :: l)). fold c n. split.
      * intros Heq.
        assert (Hge : (Qc_of_Z 1 * Qc_of_Z 100
                       <= Qc_of_Z c / Qc_of_Z n * Qc_of_Z 100)%Qc).
        { rewrite Heq, Z2Qc_inj_1, Qcmult_1_l. apply Qcle_refl. }
        apply (proj1 (percentage_le c n 1 Hn)) in Hge. lia.
      * intros ->. unfold Qcdiv. rewrite Qcmult_inv_r; [ring|].
        intros Heq. pose proof (Qc_of_nat_pos (length (item :: l))) as Hpos.
        fold n in Hpos. rewrite Heq in Hpos.
        apply Qclt_not_eq in Hpos; [congruence | cbn [length]; lia].
    + split.
      * intros Heq.
        assert (Hle : (Qc_of_Z c / Qc_of_Z n * Qc_of_Z 100
                       <= Qc_of_Z 0 * Qc_of_Z 100)%Qc).
        { rewrite Heq, Z2Qc_inj_0, Qcmult_0_l. apply Qcle_refl. }
        apply (proj1 (percentage_ge c n 0 Hn)) in Hle. lia.
      * intros ->. rewrite Z2Qc_inj_0. unfold Qcdiv. ring.
Qed.

Lemma progress_percentage_bounds_witness :
  get_progress_percentage MoreSamples.empty_plan = Qc_of_Z 100
  /\ ((get_progress_percentage Samples.two_task_plan = Qc_of_Z 100 <->
       forall item, item ∈ PRDState.tasks (state Samples.two_task_plan) ->
         exists ts, item = IsTaskState ts /\ TaskState.status ts = "complete")
      /\ (get_progress_percentage Samples.two_task_plan = 0%Qc <->
          count_status "complete" (PRDState.tasks (state Samples.two_task_plan))
          = 0)).
Proof.
  split.
  - apply (proj1 (proj2 (proj2 (progress_percentage_bounds MoreSamples.empty_plan)))).
    reflexivity.
  - apply (proj2 (proj2 (proj2 (progress_percentage_bounds Samples.two_task_plan)))).
    discriminate.
Defined.

(* ------------------------------------------------------------------- *)
(* get_summary and is_complete                                          *)
(* ------------------------------------------------------------------- *)

Lemma four_way (st : string) :
  let k := (if String.eqb st "complete" then 1 else 0)
           + (if String.eqb st "failed" then 1 else 0)
           + (if String.eqb st "pending" then 1 else 0)
           + (if String.eqb st "in_progress" then 1 else 0) in
  (k = 1 /\ st ∈ ["complete"; "failed"; "pending"; "in_progress"])
  \/ (k = 0 /\ st ∉ ["complete"; "failed"; "pending"; "in_progress"]).
Proof.
  cbv zeta.
  destruct (String.eqb st "complete") eqn:H1.
  { apply String.eqb_eq in H1. subst st. left. split; [reflexivity | set_solver]. }
  destruct (String.eqb st "failed") eqn:H2.
  { apply String.eqb_eq in H2. subst st. left. split; [reflexivity | set_solver]. }
  destruct (String.eqb st "pending") eqn:H3.
  { apply String.eqb_eq in H3. subst st. left. split; [reflexivity | set_solver]. }
  destruct (String.eqb st "in_progress") eqn:H4.
  { apply String.eqb_eq in H4. subst st. left. split; [reflexivity | set_solver]. }
  right. split; [reflexivity|].
  apply String.eqb_neq in H1, H2, H3, H4. intros Hin.
  repeat (apply elem_of_cons in Hin as [->|Hin]; [congruence|]).
  inversion Hin.
Qed.

Lemma four_statuses (l : list TaskItem) :
  count_status "complete" l + count_status "failed" l
  + count_status "pending" l + count_status "in_progress" l
  <= Z.of_nat (length l)
  /\ (count_status "complete" l + count_status "failed" l
      + count_status "pending" l + count_status "in_progress" l
      = Z.of_nat (length l)
      <-> forall item, item ∈ l ->
            exists ts, item = IsTaskState ts
                       /\ TaskState.status ts
                          ∈ ["complete"; "failed"; "pending"; "in_progress"]).
Proof.
  induction l as [|item l [IHle IHeq]].
  - split; [reflexivity|].
    split; [intros _ item Hin; inversion Hin | reflexivity].
  - rewrite !count_status_cons. cbn [length].
    destruct item as [ts|raw].
    + pose proof (four_way (TaskState.status ts)) as Hfour. cbv zeta in Hfour.
      destruct Hfour as [[Hk Hin]|[Hk Hnotin]].
      * split; [lia|]. split.
        -- intros Hsum x Hx. apply elem_of_cons in Hx as [->|Hx].
           ++ now exists ts.
           ++ apply IHeq; [lia | exact Hx].
        -- intros Hall.
           assert (count_status "complete" l + count_status "failed" l
                   + count_status "pending" l + count_status "in_progress" l
                   = Z.of_nat (length l))
             by (apply IHeq; intros x Hx; apply Hall; now right).
           lia.
      * split; [lia|]. split; [lia|].
        intros Hall.
        destruct (Hall (IsTaskState ts) ltac:(left)) as (ts' & Heq & Hin).
        inversion Heq; subst ts'. contradiction.
    + split; [lia|]. split; [lia|].
      intros Hall. destruct (Hall (Other raw) ltac:(left)) as (ts' & Heq & _).
      discriminate.
Qed.

Lemma is_complete_counts (l : list TaskItem) :
  Forall (fun item => is_task_state item = true) l ->
  forallb (fun item => match item with
                       | IsTaskState ts => terminal (TaskState.status ts)
                       | Other _ => true
                       end) l = true
  <-> count_status "complete" l + count_status "failed" l = Z.of_nat (length l).
Proof.
  induction 1 as [|item l Hitem Hall IH].
  - split; reflexivity.
  - destruct item as [ts|raw]; [|discriminate].
    cbn [forallb]. rewrite !count_status_cons. cbn [length].
    pose proof (four_statuses l) as [Hle _].
    pose proof (count_status_bounds "pending" l).
    pose proof (count_status_bounds "in_progress" l).
    unfold terminal.
    destruct (String.eqb (TaskState.status ts) "complete") eqn:H1.
    + apply String.eqb_eq in H1. rewrite H1. cbn [orb andb String.eqb Ascii.eqb Bool.eqb].
      rewrite IH. lia.
    + destruct (String.eqb (TaskState.status ts) "failed") eqn:H2.
      * cbn [orb andb]. rewrite IH. lia.
      * cbn [orb andb]. split; [discriminate | lia].
Qed.

(** X9: in the dict get_summary returns, total is the length of the task
    list, the four status counts add up to at most total, with equality
    exactly when every entry is a TaskState whose status is complete,
    failed, pending or in_progress (a blocked task is in none of the
    counts); and for a plan of TaskState objects is_complete holds
    exactly when completed + failed = total. *)
Theorem summary_counts (self : t) :
  let s := get_summary self in
  let tasks := PRDState.tasks (state self) in
  total s = Z.of_nat (length tasks)
  /\ 0 <= completed s /\ 0 <= failed s /\ 0 <= pending s /\ 0 <= in_progress s
  /\ completed s + failed s + pending s + in_progress s <= total s
  /\ (completed s + failed s + pending s + in_progress s = total s
      <-> forall item, item ∈ tasks ->
            exists ts, item = IsTaskState ts
                       /\ TaskState.status ts
                          ∈ ["complete"; "failed"; "pending"; "in_progress"])
  /\ progress_pct s = get_progress_percentage self
  /\ (only_task_states self ->
      (is_complete self = true <-> completed s + failed s = total s)).
Proof.
  cbv zeta. unfold get_summary.
  cbn [total completed failed pending in_progress progress_pct].
  pose proof (four_statuses (PRDState.tasks (state self))) as [Hle Heq].
  split; [reflexivity|].
  repeat (split; [apply count_status_bounds|]).
  split; [exact Hle|]. split; [exact Heq|]. split; [reflexivity|].
  intros Hall. apply (is_complete_counts _ Hall).
Qed.

Lemma summary_counts_witness :
  is_complete MoreSamples.wedged_plan = true
  <-> completed (get_summary MoreSamples.wedged_plan)
      + failed (get_summary MoreSamples.wedged_plan)
      = total (get_summary MoreSamples.wedged_plan).
Proof.
  apply (proj2 (proj2 (proj2 (proj2 (proj2 (proj2 (proj2 (proj2
           (summary_counts MoreSamples.wedged_plan))))))))).
  repeat constructor.
Defined.

(* ------------------------------------------------------------------- *)
(* TaskState.from_dict                                                  *)
(* ------------------------------------------------------------------- *)

Lemma unknown_keys_filtered (extra : list (string * json)) :
  Forall (fun kv => fst kv ∉ TaskState.__dataclass_fields__) extra ->
  filter (fun kv => fst kv ∈ TaskState.__dataclass_fields__) extra = [].
Proof.
  induction 1 as [|kv extra Hkv _ IH]; [reflexivity|].
  rewrite filter_cons_False by exact Hkv. exact IH.
Qed.

(** X10: TaskState.from_dict ignores every key that is not a field of
    the dataclass, wherever it stands in the dict, and a dict that gives
    only id and title yields the dataclass defaults for the rest: status
    pending, retry_count 0, tokens_used 0 and None for the optional
    fields. *)
Theorem from_dict_ignores_unknown_keys
    (items extra : list (string * json)) (id title : string) :
  Forall (fun kv => fst kv ∉ TaskState.__dataclass_fields__) extra ->
  TaskState.from_dict (JDict (items ++ extra)) = TaskState.from_dict (JDict items)
  /\ TaskState.from_dict (JDict (extra ++ items)) = TaskState.from_dict (JDict items)
  /\ TaskState.from_dict
       (JDict (extra ++ [("title", JStr title); ("id", JStr id)]))
     = Ok (TaskState.mk id title "pending" 0 None None None None None 0).
Proof.
  intros Hextra. pose proof (unknown_keys_filtered extra Hextra) as Hnil.
  unfold TaskState.from_dict. rewrite !filter_app, Hnil, app_nil_r.
  cbn [app]. split; [reflexivity|]. split; reflexivity.
Qed.

Lemma from_dict_ignores_unknown_keys_witness :
  TaskState.from_dict
    (JDict ([("id", JStr "task-007")] ++ [("description", JStr "x"); ("owner", JNull)]))
  = TaskState.from_dict (JDict [("id", JStr "task-007")])
  /\ TaskState.from_dict
       (JDict ([("description", JStr "x"); ("owner", JNull)] ++ [("id", JStr "task-007")]))
     = TaskState.from_dict (JDict [("id", JStr "task-007")])
  /\ TaskState.from_dict
       (JDict ([("description", JStr "x"); ("owner", JNull)]
               ++ [("title", JStr "Seven"); ("id", JStr "task-007")]))
     = Ok (TaskState.mk "task-007" "Seven" "pending" 0 None None None None None 0).
Proof.
  apply (from_dict_ignores_unknown_keys [("id", JStr "task-007")]
           [("description", JStr "x"); ("owner", JNull)] "task-007" "Seven").
  repeat (constructor;
          [cbn [fst]; intros Hin;
           repeat (apply elem_of_cons in Hin as [Hin|Hin]; [discriminate Hin|]);
           inversion Hin|]).
  constructor.
Defined.

(* ------------------------------------------------------------------- *)
(* loading                                                              *)
(* ------------------------------------------------------------------- *)








End StateManagerMore.

(* ===================================================================== *)
(*  oracle_gates.py: further properties                                  *)
(* ===================================================================== *)

Module OracleGatekeeperMore.

Import OracleGatekeeper OracleGatekeeperFacts.

Section More.

Context `{FloatFormat}.

Variable self : t.
Variable w : world.
Variable task : TaskState.t.

Lemma no_failing_gate_iff_passed :
  GateResult.passed (verify_all self w task) = true
  <-> failing_gates self w task = [].
Proof.
  rewrite verify_all_passed. unfold failing_gates.
  induction gate_order as [|g l IH]; cbn [forallb List.filter].
  - split; reflexivity.
  - unfold gate_fails at 1.
    destruct (is_enabled self g); cbn [implb andb].
    + destruct (Gate.passed _); cbn [negb andb].
      * exact IH.
      * split; discriminate.
    + exact IH.
Qed.

(** X13: verify_all gives a headline failure_reason exactly when it does
    not pass: passed is True iff failure_reason is None, and a failing
    result always carries a non-empty reason. *)
Theorem failure_reason_iff_not_passed :
  let r := verify_all self w task in
  (GateResult.passed r = true <-> GateResult.failure_reason r = None)
  /\ (GateResult.passed r = false ->
      exists reason, GateResult.failure_reason r = Some reason /\ reason <> "").
Proof.
  cbv zeta.
  destruct (failing_gates self w task) as [|first rest] eqn:Hfail.
  - assert (Hpass : GateResult.passed (verify_all self w task) = true)
      by now apply no_failing_gate_iff_passed.
    assert (Hnone : GateResult.failure_reason (verify_all self w task) = None).
    { rewrite verify_all_failure_reason.
      rewrite (first_failure_wins (gate_fails self w task)
                 (fun g => Gate.reason
                             (run_gate self w task (cumulative_tokens self w task) g))).
      - cbn [truthy]. unfold failing_gates in Hfail. now rewrite Hfail.
      - intros g Hg. apply failing_gate_reason.
        unfold gate_fails in Hg. apply andb_true_iff in Hg as [_ Hg].
        now apply negb_true_iff in Hg. }
    split; [tauto|]. rewrite Hpass. discriminate.
  - destruct (headline_is_first_failure self w task first rest Hfail)
      as [Hhead Htruthy].
    destruct (truthy_Some _ Htruthy) as (reason & Hreason & Hne).
    assert (Hnot : GateResult.passed (verify_all self w task) = false).
    { apply not_true_is_false. intros Hpass.
      apply no_failing_gate_iff_passed in Hpass. congruence. }
    split.
    + rewrite Hnot, Hhead, Hreason. split; discriminate.
    + intros _. exists reason. split; [now rewrite Hhead | exact Hne].
Qed.

(** X14: the details of a verify_all result hold exactly the enabled
    gates, in the fixed order; gate_status holds the same gates plus the
    Perception gate when it is disabled, so it never has more than seven
    entries and has an entry for Perception in every configuration. *)
Theorem result_keys_are_enabled_gates :
  let r := verify_all self w task in
  fst <$> GateResult.details r
  = gate_key <$> List.filter (is_enabled self) gate_order
  /\ fst <$> GateResult.gate_status r
     = gate_key <$> List.filter
                      (fun g => is_enabled self g
                                || bool_decide (g = perception)) gate_order
  /\ (length (GateResult.gate_status r) <= 7)%nat
  /\ is_Some (dict_get "perception" (GateResult.gate_status r)).
Proof.
  cbv zeta.
  pose proof (verify_all_gate_status self w task perception) as Hperc.
  cbn [gate_key] in Hperc.
  assert (Hkeys : fst <$> GateResult.details (verify_all self w task)
                  = gate_key <$> List.filter (is_enabled self) gate_order
                  /\ fst <$> GateResult.gate_status (verify_all self w task)
                     = gate_key <$> List.filter
                                      (fun g => is_enabled self g
                                                || bool_decide (g = perception))
                                      gate_order).
  { unfold verify_all. cbv zeta. cbn [GateResult.details GateResult.gate_status].
    generalize (_gate_technical self w task) (_gate_virtue self w task)
      (_gate_ethics self w task).
    intros g1 g2 g3.
    unfold gate_order. cbn [List.filter].
    destruct (is_enabled self technical), (is_enabled self virtue),
      (is_enabled self ethics), (is_enabled self judge),
      (is_enabled self strategy), (is_enabled self perception),
      (is_enabled self effort); split; reflexivity. }
  destruct Hkeys as [Hd Hs]. split; [exact Hd|]. split; [exact Hs|]. split.
  - rewrite <- (length_fmap fst), Hs, length_fmap.
    pose proof (filter_length
                  (fun g => is_enabled self g || bool_decide (g = perception))
                  gate_order) as Hlen.
    change (length gate_order) with 7%nat in Hlen.
    rewrite <- Hlen. apply Nat.le_add_r.
  - rewrite Hperc. destruct (is_enabled self perception); eauto.
Qed.

(** X15: the Technical gate passes exactly when pytest ran and exited
    with code 0, ruff did not exit with a non-zero code (a ruff that
    timed out or is not installed counts as clean), and the coverage read
    from the pytest output reaches the configured threshold; a pytest
    that timed out or is missing fails the gate whatever the threshold. *)
Theorem technical_gate_passes_iff :
  Gate.passed (_gate_technical self w task) = true
  <-> pytest w = Exited 0
      /\ (forall rc, ruff w = Exited rc -> rc = 0)
      /\ (GateConfig.threshold (gates self technical) <= pytest_coverage w)%Qc.
Proof.
  unfold _gate_technical.
  destruct (pytest w) as [rc| |]; destruct (ruff w) as [rl| |];
    cbn [Gate.passed]; rewrite ?andb_true_iff, ?bool_decide_eq_true;
    split; try (intros [[? ?] ?]); try (intros (? & ? & ?));
    repeat split; try congruence; try discriminate; try tauto; eauto.
  all: try (intros ? [= <-]; assumption).
  all: try match goal with Heq : Exited _ = Exited _ |- _ => now inversion Heq end.
Qed.

Lemma cumulative_tokens_virtue_only :
  cumulative_tokens self w task
  = if is_enabled self virtue
    then default 0 (Gate.tokens (_gate_virtue self w task))
    else 0.
Proof.
  unfold cumulative_tokens, gate_order. cbn [foldl reports_tokens andb run_gate].
  cbn [_gate_judge _gate_perception Gate.tokens from_option id].
  destruct (is_enabled self virtue), (is_enabled self judge),
    (is_enabled self perception); lia.
Qed.

(** X16: only the Virtue gate can contribute tokens: tokens_used is what
    the alignment validator reports when the Virtue gate is enabled and
    the validator can be imported, and 0 otherwise.  So the Effort gate
    fails exactly when it is enabled, the Virtue gate is enabled, and the
    validator reports more than 50000 tokens. *)
Theorem effort_depends_on_virtue_tokens :
  let reported :=
    match validate_artifact w with
    | Some validate =>
        default 0 (vibe_tokens_used (validate (TaskState.output_path task)))
    | None => 0
    end in
  GateResult.tokens_used (verify_all self w task)
  = (if is_enabled self virtue then reported else 0)
  /\ (gate_fails self w task effort = true
      <-> is_enabled self effort = true
          /\ is_enabled self virtue = true
          /\ 50000 < reported).
Proof.
  cbv zeta.
  assert (Htok : cumulative_tokens self w task
                 = if is_enabled self virtue
                   then match validate_artifact w with
                        | Some validate =>
                            default 0 (vibe_tokens_used
                                         (validate (TaskState.output_path task)))
                        | None => 0
                        end
                   else 0).
  { rewrite cumulative_tokens_virtue_only. unfold _gate_virtue.
    destruct (is_enabled self virtue); [|reflexivity].
    now destruct (validate_artifact w). }
  split; [now rewrite verify_all_tokens_used|].
  unfold gate_fails. cbn [run_gate]. unfold _gate_effort. cbn [Gate.passed].
  rewrite Htok, andb_true_iff, negb_true_iff, bool_decide_eq_false.
  destruct (is_enabled self virtue); split.
  - intros [He Hover]. repeat split; [exact He | lia].
  - intros (He & _ & Hover). split; [exact He | lia].
  - intros [He Hover]. lia.
  - intros (_ & Hv & _). discriminate.
Qed.

(** X17: when neither checker can be imported the Virtue and Ethics
    gates pass (fail-open) and no tokens are counted, so the verdict of
    verify_all is the verdict of the Technical gate alone: it passes
    exactly when the Technical gate is disabled or passes, under every
    gate configuration. *)
Theorem fail_open_without_checkers :
  validate_artifact w = None ->
  check_charter_safe w = None ->
  let r := verify_all self w task in
  Gate.passed (_gate_virtue self w task) = true
  /\ Gate.passed (_gate_ethics self w task) = true
  /\ GateResult.tokens_used r = 0
  /\ (GateResult.passed r = true
      <-> (is_enabled self technical = true ->
           Gate.passed (_gate_technical self w task) = true)).
Proof.
  intros Hv He. cbv zeta.
  assert (Hvirtue : Gate.passed (_gate_virtue self w task) = true)
    by (unfold _gate_virtue; now rewrite Hv).
  assert (Hethics : Gate.passed (_gate_ethics self w task) = true)
    by (unfold _gate_ethics; now rewrite He).
  assert (Htok : cumulative_tokens self w task = 0).
  { rewrite cumulative_tokens_virtue_only. unfold _gate_virtue. rewrite Hv.
    now destruct (is_enabled self virtue). }
  split; [exact Hvirtue|]. split; [exact Hethics|].
  split; [now rewrite verify_all_tokens_used|].
  rewrite verify_all_passed, Htok. unfold gate_order.
  cbn [forallb run_gate]. rewrite Hvirtue, Hethics.
  cbn [_gate_judge _gate_strategy _gate_perception _gate_effort Gate.passed].
  rewrite !implb_true_r. cbn [andb]. rewrite !andb_true_r.
  destruct (is_enabled self technical); cbn [implb].
  - split; [intros Hp _; exact Hp | intros Hp; now apply Hp].
  - split; [discriminate | reflexivity].
Qed.

End More.

Import Samples.

Lemma failure_reason_iff_not_passed_witness :
  exists reason,
    GateResult.failure_reason
      (@verify_all plain_format all_enabled failing_world task_002)
    = Some reason /\ reason <> "".
Proof.
  apply (proj2 (@failure_reason_iff_not_passed plain_format all_enabled
                  failing_world task_002)).
  vm_compute. reflexivity.
Defined.

Lemma fail_open_without_checkers_witness :
  let r := @verify_all plain_format OracleGatekeeper.__init__ passing_world
             task_002 in
  Gate.passed (@_gate_virtue plain_format OracleGatekeeper.__init__
                 passing_world task_002) = true
  /\ Gate.passed (_gate_ethics OracleGatekeeper.__init__
                    passing_world task_002) = true
  /\ GateResult.tokens_used r = 0
  /\ (GateResult.passed r = true
      <-> (is_enabled OracleGatekeeper.__init__ technical = true ->
           Gate.passed (@_gate_technical plain_format OracleGatekeeper.__init__
                          passing_world task_002) = true)).
Proof.
  apply (@fail_open_without_checkers plain_format OracleGatekeeper.__init__
           passing_world task_002); reflexivity.
Defined.

(* ------------------------------------------------------------------- *)
(* _load_config                                                         *)
(* ------------------------------------------------------------------- *)

Lemma gate_of_key_key (g : GateName) : gate_of_key (gate_key g) = Some g.
Proof. destruct g; reflexivity. Qed.

Lemma gate_of_key_Some (key : string) (g : GateName) :
  gate_of_key key = Some g -> key = gate_key g.
Proof.
  unfold gate_of_key. intros Hfind. apply find_some in Hfind as [_ Heq].
  apply String.eqb_eq in Heq. now symmetry.
Qed.

Lemma assign_threshold_Ok (key : string) (convert : Qc -> Qc)
    (settings : list (string * yaml)) (c c' : GateConfig.t) :
  assign_threshold key convert settings c = Ok c' ->
  GateConfig.enabled c' = GateConfig.enabled c
  /\ GateConfig.auto_fix c' = GateConfig.auto_fix c
  /\ GateConfig.max_attempts c' = GateConfig.max_attempts c
  /\ match dict_get key settings with
     | Some v => exists x, yaml_number key v = Ok x
                           /\ GateConfig.threshold c' = convert x
     | None => GateConfig.threshold c' = GateConfig.threshold c
     end.
Proof.
  unfold assign_threshold. destruct (dict_get key settings) as [v|].
  - destruct (yaml_number key v) as [x|]; [|discriminate]. cbn [rbind].
    intros [= <-]. cbn. repeat split; eauto.
  - intros [= <-]. auto.
Qed.

Lemma configure_gate_other (key : string) (v : yaml) (self self' : t)
    (g : GateName) :
  configure_gate key v self = Ok self' ->
  gate_key g <> key ->
  gates self' g = gates self g.
Proof.
  unfold configure_gate. intros Hcfg Hne.
  destruct (gate_of_key key) as [g0|] eqn:Hkey; [|now inversion Hcfg].
  apply gate_of_key_Some in Hkey.
  destruct v as [| | | | | |settings]; try (now inversion Hcfg).
  destruct (assign_threshold "threshold" _ _ _) as [c1|]; [|discriminate].
  cbn [rbind] in Hcfg.
  destruct (assign_threshold "coverage_threshold" _ _ _) as [c2|]; [|discriminate].
  cbn [rbind] in Hcfg.
  destruct (assign_threshold "alignment_threshold" _ _ _) as [c3|]; [|discriminate].
  cbn [rbind] in Hcfg. inversion Hcfg; subst self'. cbn [set_gate gates].
  rewrite bool_decide_eq_false_2; [reflexivity|]. intros ->. congruence.
Qed.

Lemma configure_gate_not_dict (key : string) (v : yaml) (self : t) :
  (forall settings, v <> YDict settings) -> configure_gate key v self = Ok self.
Proof.
  intros Hv. unfold configure_gate. destruct (gate_of_key key); [|reflexivity].
  destruct v; try reflexivity. now destruct (Hv kv).
Qed.

Lemma configure_gate_this (g : GateName) (settings : list (string * yaml))
    (self self' : t) :
  configure_gate (gate_key g) (YDict settings) self = Ok self' ->
  settings_applied settings (gates self g) (gates self' g).
Proof.
  unfold configure_gate. rewrite gate_of_key_key.
  destruct (assign_threshold "threshold" _ _ _) as [c1|] eqn:H1; [|discriminate].
  cbn [rbind].
  destruct (assign_threshold "coverage_threshold" _ _ _) as [c2|] eqn:H2;
    [|discriminate].
  cbn [rbind].
  destruct (assign_threshold "alignment_threshold" _ _ _) as [c3|] eqn:H3;
    [|discriminate].
  cbn [rbind]. intros [= <-]. cbn [set_gate gates].
  rewrite bool_decide_eq_true_2 by reflexivity.
  apply assign_threshold_Ok in H1 as (E1 & A1 & M1 & T1).
  apply assign_threshold_Ok in H2 as (E2 & A2 & M2 & T2).
  apply assign_threshold_Ok in H3 as (E3 & A3 & M3 & T3).
  cbn [GateConfig.enabled GateConfig.auto_fix GateConfig.max_attempts
       GateConfig.threshold] in *.
  unfold settings_applied.
  split; [congruence|]. split; [congruence|]. split; [congruence|].
  destruct (dict_get "alignment_threshold" settings) as [va|].
  { destruct T3 as (x & Hx & ->). exact Hx. }
  destruct (dict_get "coverage_threshold" settings) as [vc|].
  { destruct T2 as (x & Hx & Hc2). exists x. split; [exact Hx | congruence]. }
  destruct (dict_get "threshold" settings) as [vt|].
  { destruct T1 as (x & Hx & Hc1). rewrite Hx. f_equal. congruence. }
  congruence.
Qed.

Lemma dict_get_None_not_in {V} (key : string) (kv : list (string * V)) :
  key ∉ fst <$> kv -> dict_get key kv = None.
Proof.
  induction kv as [|[k v] kv IH]; [reflexivity|].
  cbn [fmap list_fmap fst dict_get]. intros Hnot.
  apply not_elem_of_cons in Hnot as [Hne Hnot].
  destruct (String.eqb k key) eqn:Heq.
  - apply String.eqb_eq in Heq. congruence.
  - now apply IH.
Qed.

Lemma configure_gates_per_gate (items : list (string * yaml)) (self self' : t) :
  NoDup (fst <$> items) ->
  configure_gates items self = Ok self' ->
  forall g,
    match dict_get (gate_key g) items with
    | Some (YDict settings) =>
        settings_applied settings (gates self g) (gates self' g)
    | _ => gates self' g = gates self g
    end.
Proof.
  revert self. induction items as [|[k v] items IH]; intros self Hnodup Hcfg g.
  - inversion Hcfg; subst. reflexivity.
  - cbn [fmap list_fmap fst] in Hnodup. apply NoDup_cons in Hnodup as [Hk Hnodup].
    cbn [configure_gates] in Hcfg.
    destruct (configure_gate k v self) as [self1|] eqn:H1; [|discriminate].
    cbn [rbind] in Hcfg. specialize (IH self1 Hnodup Hcfg g).
    cbn [dict_get]. destruct (String.eqb k (gate_key g)) eqn:Heq.
    + apply String.eqb_eq in Heq. subst k.
      rewrite (dict_get_None_not_in _ _ Hk) in IH. rewrite IH.
      destruct v as [| | | | | |settings];
        try (rewrite configure_gate_not_dict in H1 by discriminate;
             now inversion H1).
      now apply configure_gate_this.
    + apply String.eqb_neq in Heq.
      rewrite <- (configure_gate_other k v self self1 g H1) by congruence.
      exact IH.
Qed.

(** X18: _load_config configures each gate from its own entry of the
    oracle_gates section and from nothing else.  For a gate whose entry
    is a dict, enabled becomes the truth value of its "enabled" key and
    True when the key is absent (so an entry without "enabled" switches
    the Perception gate on), and the threshold is taken from
    alignment_threshold, else coverage_threshold / 100, else threshold;
    a gate without an entry, or whose entry is not a dict, keeps its
    configuration. *)
Theorem load_config_configures_each_gate (c items : list (string * yaml))
    (self self' : t) :
  dict_get "oracle_gates" c = Some (YDict items) ->
  NoDup (fst <$> items) ->
  _load_config (YDict c) self = Ok self' ->
  forall g,
    match dict_get (gate_key g) items with
    | Some (YDict settings) =>
        settings_applied settings (gates self g) (gates self' g)
    | _ => gates self' g = gates self g
    end.
Proof.
  intros Hsec Hnodup Hload. unfold _load_config in Hload.
  rewrite Hsec in Hload. cbn [from_option id] in Hload.
  now apply configure_gates_per_gate.
Qed.

Lemma load_config_configures_each_gate_witness :
  (forall g,
     match dict_get (gate_key g) MoreSamples.sample_gate_settings with
     | Some (YDict settings) =>
         settings_applied settings (gates OracleGatekeeper.__init__ g)
                          (gates MoreSamples.configured_gatekeeper g)
     | _ => gates MoreSamples.configured_gatekeeper g
            = gates OracleGatekeeper.__init__ g
     end)
  /\ is_enabled OracleGatekeeper.__init__ perception = false
  /\ is_enabled MoreSamples.configured_gatekeeper perception = true
  /\ GateConfig.threshold (gates MoreSamples.configured_gatekeeper technical)
     = (Qc_of_Z 90 / Qc_of_Z 100)%Qc.
Proof.
  split.
  - apply (load_config_configures_each_gate MoreSamples.sample_config
             MoreSamples.sample_gate_settings OracleGatekeeper.__init__
             MoreSamples.configured_gatekeeper).
    + reflexivity.
    + apply (bool_decide_unpack _). vm_compute. exact I.
    + reflexivity.
  - split; [reflexivity|]. split; [reflexivity|].
    apply Qc_is_canon. vm_compute. reflexivity.
Defined.

End OracleGatekeeperMore.

(* ===================================================================== *)
(*  hitl_controller.py: further properties                               *)
(* ===================================================================== *)

Module HITLMore.

Import HITL HITLFacts.

(* ------------------------------------------------------------------- *)
(* resolve                                                              *)
(* ------------------------------------------------------------------- *)

(** X19: resolve answers None and changes nothing for an id that is not
    pending, and a checkpoint can be resolved once only: after a
    resolve that found the checkpoint, a second resolve of the same id,
    whatever its verdict, answers None and leaves the first verdict in
    place.  The first resolve touches no other pending entry and no
    other checkpoint record. *)
Theorem resolve_once (id : string) (approved again : bool)
    (notes notes' : option string) (by_ by' now now' : string) (self : t) :
  (pending_checkpoints self !! id = None ->
   resolve id approved notes by_ now self = (None, self))
  /\ (let self1 := snd (resolve id approved notes by_ now self) in
      resolve id again notes' by' now' self1 = (None, self1))
  /\ (forall r, pending_checkpoints self !! id = Some r ->
      let self1 := snd (resolve id approved notes by_ now self) in
      (forall id', id' <> id ->
         pending_checkpoints self1 !! id' = pending_checkpoints self !! id')
      /\ (forall r', r' <> r -> heap self1 !! r' = heap self !! r')
      /\ calls self1 = calls self).
Proof.
  split; [|split].
  - intros Hnone. unfold resolve. now rewrite Hnone.
  - cbv zeta. unfold resolve at 2 3.
    destruct (pending_checkpoints self !! id) as [r|] eqn:Hp; cbn [snd].
    + unfold resolve. cbn [pending_checkpoints set_pending modify set_heap].
      now rewrite lookup_delete_eq.
    + unfold resolve. now rewrite Hp.
  - intros r Hp. cbv zeta. unfold resolve. rewrite Hp. cbn [snd].
    cbn [pending_checkpoints heap calls set_pending modify set_heap].
    split; [|split].
    + intros id' Hne. now apply lookup_delete_ne.
    + intros r' Hne. now apply list_lookup_alter_ne.
    + reflexivity.
Qed.

Lemma resolve_once_witness :
  let self1 :=
    snd (resolve "HITL-1A2B3C4D" true None "human" "t1"
           MoreSamples.controller_with_pending) in
  resolve "HITL-0000" true None "human" "t1" MoreSamples.controller_with_pending
  = (None, MoreSamples.controller_with_pending)
  /\ resolve "HITL-1A2B3C4D" false (Some "changed my mind") "human" "t2" self1
     = (None, self1)
  /\ status_of 0 self1 = APPROVED
  /\ (forall id', id' <> "HITL-1A2B3C4D" ->
        pending_checkpoints self1 !! id'
        = pending_checkpoints MoreSamples.controller_with_pending !! id')
  /\ (forall r', r' <> 0%nat ->
        heap self1 !! r' = heap MoreSamples.controller_with_pending !! r')
  /\ calls self1 = calls MoreSamples.controller_with_pending.
Proof.
  pose proof (resolve_once "HITL-0000" true false None None "human" "human"
                "t1" "t1" MoreSamples.controller_with_pending) as [Hunknown _].
  pose proof (resolve_once "HITL-1A2B3C4D" true false None
                (Some "changed my mind") "human" "human" "t1" "t2"
                MoreSamples.controller_with_pending) as (_ & Htwice & Hframe).
  split; [apply Hunknown; reflexivity|]. split; [exact Htwice|].
  split; [reflexivity|]. apply (Hframe 0%nat). reflexivity.
Defined.

(* ------------------------------------------------------------------- *)
(* should_checkpoint_scheduled                                          *)
(* ------------------------------------------------------------------- *)

(** X20: n successive calls of should_checkpoint_scheduled raise the
    task counter by n and change nothing else, and the j-th call answers
    True exactly when counter + j is a multiple of check_interval: with
    the counter at 0 and the interval at 5, exactly every fifth call.
    With check_interval 0 the call raises ZeroDivisionError. *)
Theorem scheduled_every_nth_call (n : nat) (self : t) :
  (check_interval self <> 0 ->
   scheduled_calls n self
   = Ok ((fun j => bool_decide
                     ((task_counter self + Z.of_nat j) `mod` check_interval self
                      = 0))
           <$> seq 1 n,
         with_counter (task_counter self + Z.of_nat n) self))
  /\ (check_interval self = 0 ->
      should_checkpoint_scheduled self = Raise ZeroDivisionError).
Proof.
  split.
  - intros Hn. revert self Hn. induction n as [|n IH]; intros self Hn.
    + cbn [scheduled_calls seq fmap list_fmap]. f_equal. f_equal.
      destruct self. unfold with_counter. cbn. f_equal. lia.
    + cbn [scheduled_calls]. unfold should_checkpoint_scheduled at 1.
      cbn [check_interval]. destruct (decide (check_interval self = 0)); [lia|].
      cbn [rbind fst snd].
      set (self1 := mk _ _ _ _ (task_counter self + 1) _ _).
      rewrite (IH self1) by exact Hn. cbn [rbind fst snd task_counter self1].
      f_equal. f_equal.
      * cbn [seq fmap list_fmap]. f_equal.
        rewrite <- (fmap_S_seq 1 n), <- list_fmap_compose.
        apply list_fmap_ext. intros _ j _. cbn.
        replace (task_counter self + 1 + Z.of_nat j)
          with (task_counter self + Z.of_nat (S j)) by lia.
        reflexivity.
      * unfold with_counter. cbn. f_equal. lia.
  - intros Hz. unfold should_checkpoint_scheduled. cbn [check_interval].
    now destruct (decide (check_interval self = 0)).
Qed.

Lemma scheduled_every_nth_call_witness :
  scheduled_calls 10 Samples.fresh_controller
  = Ok ([false; false; false; false; true; false; false; false; false; true],
        with_counter 10 Samples.fresh_controller).
Proof.
  destruct (scheduled_every_nth_call 10 Samples.fresh_controller) as [H _].
  rewrite H; [reflexivity|]. cbn. lia.
Defined.

(* ------------------------------------------------------------------- *)
(* checkpoint: registration and notification                            *)
(* ------------------------------------------------------------------- *)

(* the controller when _notify has returned *)
Lemma notify_frame (r : nat) (self : t) :
  heap (_notify r self) = heap self
  /\ pending_checkpoints (_notify r self) = pending_checkpoints self
  /\ calls (_notify r self)
     = calls self
       ++ (if stationary self then []
           else [send_hitl_notification r
                   (base_url self +:+ "/hitl/"
                    +:+ from_option checkpoint_id "" (deref r self)
                    +:+ "/approve")
                   (base_url self +:+ "/hitl/"
                    +:+ from_option checkpoint_id "" (deref r self)
                    +:+ "/reject")])
       ++ [send_notification r].
Proof.
  unfold _notify. destruct (stationary self); cbn; [auto|].
  rewrite <- app_assoc. auto.
Qed.

(** X21: a checkpoint that is not auto-approved and does not block
    returns PENDING; it registers the new checkpoint, with status
    PENDING, under its id in pending_checkpoints and leaves the other
    entries alone; the webhook notifier is always called, and the
    email notifier is called first, with the approve and reject links
    of this checkpoint, exactly when the human is not at the desk. *)
Theorem nonblocking_checkpoint_registers_and_notifies (env : settings)
    (task_id : string) (reason : HITLReason) (description : string)
    (context : option json) (io : surroundings) (self : t) :
  bool_decide (reason = SCHEDULED) && HITL_AUTO_APPROVE_LOW_RISK env = false ->
  let id := "HITL-" +:+ uuid8 io in
  let r := length (heap self) in
  exists self',
    checkpoint env task_id reason description context false io self
    = Some (PENDING, self')
    /\ pending_checkpoints self' = <[id := r]> (pending_checkpoints self)
    /\ deref r self'
       = Some (mk_checkpoint id task_id reason description
                 (default (JDict []) context) PENDING (now_created io)
                 None None None)
    /\ (forall r', (r' < r)%nat -> deref r' self' = deref r' self)
    /\ calls self'
       = calls self
         ++ (if stationary self then []
             else [send_hitl_notification r
                     (base_url self +:+ "/hitl/" +:+ id +:+ "/approve")
                     (base_url self +:+ "/hitl/" +:+ id +:+ "/reject")])
         ++ [send_notification r].
Proof.
  intros Hauto id r. unfold checkpoint. rewrite Hauto. cbn [negb].
  fold id. fold r.
  set (cp := mk_checkpoint id task_id reason description
               (default (JDict []) context) PENDING (now_created io)
               None None None).
  set (self1 := set_pending _ _).
  destruct (notify_frame r self1) as (Hheap & Hpend & Hcalls).
  assert (Hderef : deref r self1 = Some cp).
  { unfold deref. subst self1. cbn. apply list_lookup_middle. reflexivity. }
  eexists. split; [reflexivity|]. split; [exact Hpend|].
  split; [unfold deref; rewrite Hheap; exact Hderef|].
  split.
  - intros r' Hlt. unfold deref. rewrite Hheap. subst self1. cbn.
    apply lookup_app_l. exact Hlt.
  - rewrite Hcalls, Hderef. reflexivity.
Qed.

Lemma nonblocking_checkpoint_registers_and_notifies_witness :
  exists self',
    checkpoint Samples.default_settings "task-001" HIGH_RISK
      "High-risk task: deploy to production" None false Samples.unanswered
      (__init__ "http://localhost:8095" false)
    = Some (PENDING, self')
    /\ pending_checkpoints self' = <["HITL-1A2B3C4D" := 0%nat]> ∅
    /\ deref 0 self'
       = Some (mk_checkpoint "HITL-1A2B3C4D" "task-001" HIGH_RISK
                 "High-risk task: deploy to production"
                 (JDict []) PENDING (now_created Samples.unanswered)
                 None None None)
    /\ (forall r', (r' < 0)%nat ->
          deref r' self' = deref r' (__init__ "http://localhost:8095" false))
    /\ calls self'
       = [send_hitl_notification 0
            "http://localhost:8095/hitl/HITL-1A2B3C4D/approve"
            "http://localhost:8095/hitl/HITL-1A2B3C4D/reject";
          send_notification 0].
Proof.
  apply (nonblocking_checkpoint_registers_and_notifies
           Samples.default_settings "task-001" HIGH_RISK
           "High-risk task: deploy to production" None Samples.unanswered
           (__init__ "http://localhost:8095" false)).
  reflexivity.
Defined.

(* ------------------------------------------------------------------- *)
(* the wait when the human answers                                      *)
(* ------------------------------------------------------------------- *)

Lemma apply_call_pending (self : t) (call : resolve_call) (r : nat)
    (c : HITLCheckpoint) :
  pending_checkpoints self !! rc_checkpoint_id call = Some r ->
  heap self !! r = Some c ->
  pending_checkpoints (apply_call self call) !! rc_checkpoint_id call = None
  /\ heap (apply_call self call) !! r
     = Some (mark_resolved (verdict call) (rc_now call) (rc_resolved_by call)
               (rc_notes call) c)
  /\ calls (apply_call self call) = calls self.
Proof.
  intros Hp Hr. unfold apply_call, resolve. rewrite Hp. cbn [snd].
  unfold modify, set_pending, set_heap. cbn [heap pending_checkpoints calls].
  rewrite lookup_delete_eq, list_lookup_alter_eq, Hr. auto.
Qed.

(* a resolve that arrives k sleeps into the wait, with a check left
   before the time is up *)
Lemma poll_answered (k : nat) (T : Z) (r : nat) (c : HITLCheckpoint)
    (call : resolve_call) (rest : list (list resolve_call)) :
  forall (fuel : nat) (elapsed : Z) (self : t),
    T - elapsed <= Z.of_nat fuel ->
    pending_checkpoints self !! rc_checkpoint_id call = Some r ->
    heap self !! r = Some c ->
    status c = PENDING ->
    elapsed + 5 * (Z.of_nat k + 1) < T ->
    poll fuel elapsed T r (rc_checkpoint_id call)
         (replicate k [] ++ [call] :: rest) self
    = Some (Some (verdict call), apply_call self call).
Proof.
  induction k as [|k IH]; intros fuel elapsed self Hfuel Hp Hr Hst Hlt.
  - destruct fuel as [|[|fuel]]; [lia|lia|].
    cbn [poll replicate app hd tl foldl].
    destruct (decide (elapsed < T)); [|lia]. rewrite Hp.
    destruct (decide (status_of r self ≠ PENDING)) as [Hne|_].
    { exfalso. apply Hne. unfold status_of, deref. now rewrite Hr. }
    destruct (decide (elapsed + 5 < T)); [|lia].
    destruct (apply_call_pending self call r c Hp Hr) as (Hp' & Hr' & _).
    rewrite Hp'. unfold status_of, deref. rewrite Hr'. reflexivity.
  - destruct fuel as [|fuel]; [lia|].
    cbn [poll replicate app hd tl foldl].
    destruct (decide (elapsed < T)); [|lia]. rewrite Hp.
    destruct (decide (status_of r self ≠ PENDING)) as [Hne|_].
    { exfalso. apply Hne. unfold status_of, deref. now rewrite Hr. }
    apply IH; try assumption; lia.
Qed.

(* a resolve that arrives during the last sleep of the wait *)
Lemma poll_answered_late (k : nat) (T : Z) (r : nat) (c : HITLCheckpoint)
    (call : resolve_call) (rest : list (list resolve_call)) :
  forall (fuel : nat) (elapsed : Z) (self : t),
    T - elapsed <= Z.of_nat fuel ->
    pending_checkpoints self !! rc_checkpoint_id call = Some r ->
    heap self !! r = Some c ->
    status c = PENDING ->
    elapsed + 5 * Z.of_nat k < T <= elapsed + 5 * (Z.of_nat k + 1) ->
    poll fuel elapsed T r (rc_checkpoint_id call)
         (replicate k [] ++ [call] :: rest) self
    = Some (None, apply_call self call).
Proof.
  induction k as [|k IH]; intros fuel elapsed self Hfuel Hp Hr Hst Hlt.
  - destruct fuel as [|fuel]; [lia|].
    cbn [poll replicate app hd tl foldl].
    destruct (decide (elapsed < T)); [|lia]. rewrite Hp.
    destruct (decide (status_of r self ≠ PENDING)) as [Hne|_].
    { exfalso. apply Hne. unfold status_of, deref. now rewrite Hr. }
    destruct fuel; cbn [poll]; destruct (decide (elapsed + 5 < T));
      try lia; reflexivity.
  - destruct fuel as [|fuel]; [lia|].
    cbn [poll replicate app hd tl foldl].
    destruct (decide (elapsed < T)); [|lia]. rewrite Hp.
    destruct (decide (status_of r self ≠ PENDING)) as [Hne|_].
    { exfalso. apply Hne. unfold status_of, deref. now rewrite Hr. }
    apply IH; try assumption; lia.
Qed.

(* the controller on which a blocking checkpoint starts to wait *)
Lemma checkpoint_blocking_unfold (env : settings) task_id reason description
    context (io : surroundings) (self : t) :
  bool_decide (reason = SCHEDULED) && HITL_AUTO_APPROVE_LOW_RISK env = false ->
  exists self1,
    checkpoint env task_id reason description context true io self
    = _wait_for_resolution (length (heap self)) (HITL_TIMEOUT_MINUTES env)
        (now_resolved io) (schedule io) self1
    /\ pending_checkpoints self1 !! ("HITL-" +:+ uuid8 io)
       = Some (length (heap self))
    /\ heap self1 !! length (heap self)
       = Some (mk_checkpoint ("HITL-" +:+ uuid8 io) task_id reason description
                 (default (JDict []) context) PENDING (now_created io)
                 None None None).
Proof.
  intros Hauto. unfold checkpoint. rewrite Hauto. cbn [negb].
  eexists. split; [reflexivity|].
  set (self1 := set_pending _ _).
  destruct (notify_frame (length (heap self)) self1) as (Hheap & Hpend & _).
  rewrite Hheap, Hpend. subst self1. cbn. split.
  - apply lookup_insert_eq.
  - apply list_lookup_middle. reflexivity.
Qed.

(** X22: a blocking checkpoint (not auto-approved) whose resolve call
    arrives during the (k+1)-th five-second sleep, with another check
    left before the timeout (5(k+1) seconds is less than the timeout),
    returns the human's verdict, APPROVED or REJECTED; when it returns
    the checkpoint carries that verdict and who gave it, and is no
    longer in pending_checkpoints. *)
Theorem verdict_in_time_is_returned (env : settings) (task_id : string)
    (reason : HITLReason) (description : string) (context : option json)
    (io : surroundings) (self : t) (k : nat) (call : resolve_call)
    (rest : list (list resolve_call)) :
  bool_decide (reason = SCHEDULED) && HITL_AUTO_APPROVE_LOW_RISK env = false ->
  schedule io = replicate k [] ++ [call] :: rest ->
  rc_checkpoint_id call = "HITL-" +:+ uuid8 io ->
  5 * (Z.of_nat k + 1) < HITL_TIMEOUT_MINUTES env * 60 ->
  exists self' c,
    checkpoint env task_id reason description context true io self
    = Some (if rc_approved call then APPROVED else REJECTED, self')
    /\ deref (length (heap self)) self' = Some c
    /\ status c = (if rc_approved call then APPROVED else REJECTED)
    /\ resolved_by c = Some (rc_resolved_by call)
    /\ notes c = rc_notes call
    /\ in_pending ("HITL-" +:+ uuid8 io) self' = false.
Proof.
  intros Hauto Hsched Hid Hlt.
  destruct (checkpoint_blocking_unfold env task_id reason description context
              io self Hauto) as (self1 & -> & Hp & Hr).
  unfold _wait_for_resolution, deref. rewrite Hr, Hsched.
  cbn [from_option checkpoint_id]. rewrite <- Hid in Hp |- *.
  erewrite (poll_answered k (HITL_TIMEOUT_MINUTES env * 60) _ _ call rest
             (Z.to_nat (HITL_TIMEOUT_MINUTES env * 60)) 0 self1);
    [|lia|exact Hp|exact Hr|reflexivity|lia].
  destruct (apply_call_pending self1 call _ _ Hp Hr) as (Hp' & Hr' & _).
  eexists _, _. split; [reflexivity|]. split; [exact Hr'|].
  repeat split. unfold in_pending. rewrite Hp'.
  apply bool_decide_eq_false_2. now intros [? ?].
Qed.

Lemma verdict_in_time_is_returned_witness :
  exists self' c,
    checkpoint Samples.default_settings "task-001" HIGH_RISK
      "High-risk task: deploy to production" None true
      Samples.rejected_by_human Samples.fresh_controller
    = Some (REJECTED, self')
    /\ deref 0 self' = Some c
    /\ status c = REJECTED
    /\ resolved_by c = Some "human"
    /\ notes c = Some "not now"
    /\ in_pending "HITL-1A2B3C4D" self' = false.
Proof.
  apply (verdict_in_time_is_returned Samples.default_settings "task-001"
           HIGH_RISK "High-risk task: deploy to production" None
           Samples.rejected_by_human Samples.fresh_controller 1
           {| rc_checkpoint_id := "HITL-1A2B3C4D";
              rc_approved := false;
              rc_notes := Some "not now";
              rc_resolved_by := "human";
              rc_now := "2026-01-01T00:00:07+00:00" |} []).
  - reflexivity.
  - reflexivity.
  - reflexivity.
  - cbn. lia.
Defined.

(** X23: when the resolve call arrives during the last sleep of the
    wait (5k seconds is less than the timeout, 5(k+1) is not), the
    blocking checkpoint returns TIMEOUT although the human answered:
    the timeout branch overwrites the verdict on the checkpoint, which
    ends with status TIMEOUT and the timeout note, still names the
    human as resolved_by, and is gone from pending_checkpoints. *)
Theorem verdict_during_last_sleep_is_lost (env : settings) (task_id : string)
    (reason : HITLReason) (description : string) (context : option json)
    (io : surroundings) (self : t) (k : nat) (call : resolve_call)
    (rest : list (list resolve_call)) :
  bool_decide (reason = SCHEDULED) && HITL_AUTO_APPROVE_LOW_RISK env = false ->
  schedule io = replicate k [] ++ [call] :: rest ->
  rc_checkpoint_id call = "HITL-" +:+ uuid8 io ->
  5 * Z.of_nat k < HITL_TIMEOUT_MINUTES env * 60 <= 5 * (Z.of_nat k + 1) ->
  exists self' c,
    checkpoint env task_id reason description context true io self
    = Some (TIMEOUT, self')
    /\ deref (length (heap self)) self' = Some c
    /\ status c = TIMEOUT
    /\ resolved_by c = Some (rc_resolved_by call)
    /\ notes c = Some ("Timed out after " +:+ pretty (HITL_TIMEOUT_MINUTES env)
                       +:+ " minutes")
    /\ in_pending ("HITL-" +:+ uuid8 io) self' = false.
Proof.
  intros Hauto Hsched Hid Hlt.
  destruct (checkpoint_blocking_unfold env task_id reason description context
              io self Hauto) as (self1 & -> & Hp & Hr).
  unfold _wait_for_resolution, deref. rewrite Hr, Hsched.
  cbn [from_option checkpoint_id]. rewrite <- Hid in Hp |- *.
  erewrite (poll_answered_late k (HITL_TIMEOUT_MINUTES env * 60) _ _ call rest
             (Z.to_nat (HITL_TIMEOUT_MINUTES env * 60)) 0 self1);
    [|lia|exact Hp|exact Hr|reflexivity|lia].
  destruct (apply_call_pending self1 call _ _ Hp Hr) as (Hp' & Hr' & _).
  eexists _, _. split; [reflexivity|].
  unfold modify, set_heap. cbn [heap pending_checkpoints].
  rewrite list_lookup_alter_eq, Hr'. cbn [fmap option_fmap option_map].
  split; [reflexivity|]. repeat split.
  unfold in_pending. cbn [pending_checkpoints]. rewrite Hp'.
  apply bool_decide_eq_false_2. now intros [? ?].
Qed.

Lemma verdict_during_last_sleep_is_lost_witness :
  exists self' c,
    checkpoint Samples.default_settings "task-001" HIGH_RISK
      "High-risk task: deploy to production" None true
      MoreSamples.approved_too_late Samples.fresh_controller
    = Some (TIMEOUT, self')
    /\ deref 0 self' = Some c
    /\ status c = TIMEOUT
    /\ resolved_by c = Some "human"
    /\ notes c = Some "Timed out after 30 minutes"
    /\ in_pending "HITL-1A2B3C4D" self' = false.
Proof.
  apply (verdict_during_last_sleep_is_lost Samples.default_settings "task-001"
           HIGH_RISK "High-risk task: deploy to production" None
           MoreSamples.approved_too_late Samples.fresh_controller 359
           MoreSamples.late_approval []).
  - reflexivity.
  - reflexivity.
  - reflexivity.
  - cbn. lia.
Defined.

(* ------------------------------------------------------------------- *)
(* detect_high_risk, detect_major_change                                *)
(* ------------------------------------------------------------------- *)

Lemma prefix_iff (needle hay : string) :
  String.prefix needle hay = true <-> exists post, hay = needle +:+ post.
Proof.
  revert hay. induction needle as [|c needle IH]; intros hay.
  - split; [intros _; now exists hay | intros _; now destruct hay].
  - destruct hay as [|c' hay]; cbn [String.prefix].
    + split; [discriminate | intros [post Hpost]; discriminate Hpost].
    + destruct (Ascii.ascii_dec c c') as [->|Hne].
      * rewrite IH. split; intros [post Hpost]; exists post.
        -- now rewrite Hpost.
        -- now injection Hpost.
      * split; [discriminate|]. intros [post Hpost]. injection Hpost as Hc _.
        now destruct Hne.
Qed.

(* `needle in hay` holds exactly when needle is a substring of hay *)
Lemma contains_iff (needle hay : string) :
  contains needle hay = true
  <-> exists pre post, hay = pre +:+ needle +:+ post.
Proof.
  induction hay as [|c hay IH]; cbn [contains]; rewrite orb_true_iff, prefix_iff.
  - split.
    + intros [[post Hpost]|Hf]; [|discriminate]. now exists "", post.
    + intros (pre & post & Heq). left. destruct pre; [now exists post|].
      discriminate Heq.
  - rewrite IH. split.
    + intros [[post Hpost]|(pre & post & Heq)].
      * now exists "", post.
      * exists (String c pre), post. now rewrite Heq.
    + intros (pre & post & Heq). destruct pre as [|c' pre].
      * left. now exists post.
      * right. exists pre, post. now injection Heq.
Qed.

Lemma lower_app (a b : string) : lower (a +:+ b) = lower a +:+ lower b.
Proof.
  induction a as [|c a IH]; [reflexivity|].
  change (String c a +:+ b) with (String c (a +:+ b)). cbn [lower].
  rewrite IH. reflexivity.
Qed.

Lemma existsb_contains (kws : list string) (hay : string) :
  existsb (fun kw => contains kw hay) kws = true
  <-> exists kw pre post, kw ∈ kws /\ hay = pre +:+ kw +:+ post.
Proof.
  rewrite existsb_exists. split.
  - intros (kw & Hin & Hc). apply contains_iff in Hc as (pre & post & Heq).
    exists kw, pre, post. split; [now apply list_elem_of_In | exact Heq].
  - intros (kw & pre & post & Hin & Heq). exists kw.
    split; [now apply list_elem_of_In|]. apply contains_iff. eauto.
Qed.

(** X24: detect_high_risk and detect_major_change answer True exactly
    when the lower-cased description has one of their keywords as a
    substring, anywhere in the text and not only as a whole word; so a
    description that spells a keyword in any mix of upper and lower
    case, with any text before and after it, is detected. *)
Theorem keyword_detection_is_substring_match (d : string) :
  (detect_high_risk d = true
   <-> exists kw pre post,
         kw ∈ high_risk_keywords /\ lower d = pre +:+ kw +:+ post)
  /\ (detect_major_change d = true
      <-> exists kw pre post,
            kw ∈ major_keywords /\ lower d = pre +:+ kw +:+ post)
  /\ (forall pre word post,
        lower word ∈ high_risk_keywords ->
        d = pre +:+ word +:+ post -> detect_high_risk d = true)
  /\ (forall pre word post,
        lower word ∈ major_keywords ->
        d = pre +:+ word +:+ post -> detect_major_change d = true).
Proof.
  unfold detect_high_risk, detect_major_change.
  split; [apply existsb_contains|]. split; [apply existsb_contains|].
  split; intros pre word post Hin ->; apply existsb_contains;
    exists (lower word), (lower pre), (lower post);
    (split; [exact Hin | now rewrite !lower_app]).
Qed.

Lemma keyword_detection_is_substring_match_witness :
  detect_high_risk "Undeployed: clean up" = true
  /\ detect_major_change "Update the DataBase driver" = true.
Proof.
  split.
  - destruct (keyword_detection_is_substring_match "Undeployed: clean up")
      as (_ & _ & H & _).
    apply (H "Un" "deploy" "ed: clean up"); [|reflexivity].
    apply list_elem_of_In. cbn. tauto.
  - destruct (keyword_detection_is_substring_match "Update the DataBase driver")
      as (_ & _ & _ & H).
    apply (H "Update the " "DataBase" " driver"); [|reflexivity].
    apply list_elem_of_In. cbn. tauto.
Defined.

End HITLMore.

(* ===================================================================== *)
(*  chicken_hawk.py: configuration and status                            *)
(* ===================================================================== *)

Module ChickenHawkMore.

Import ChickenHawk.

(* ------------------------------------------------------------------- *)
(* dict reads after dict writes                                         *)
(* ------------------------------------------------------------------- *)

Lemma dict_get_set_eq {V} (key : string) (v : V) (kv : list (string * V)) :
  dict_get key (dict_set key v kv) = Some v.
Proof.
  induction kv as [|[k w] kv IH]; cbn [dict_set dict_get].
  - now rewrite String.eqb_refl.
  - destruct (String.eqb k key) eqn:E; cbn [dict_get]; rewrite E; auto.
Qed.

Lemma dict_get_set_ne {V} (key key' : string) (v : V)
    (kv : list (string * V)) :
  key <> key' -> dict_get key' (dict_set key v kv) = dict_get key' kv.
Proof.
  intros Hne. induction kv as [|[k w] kv IH]; cbn [dict_set dict_get].
  - destruct (String.eqb key key') eqn:E; [|reflexivity].
    now apply String.eqb_eq in E.
  - destruct (String.eqb k key) eqn:E; cbn [dict_get].
    + apply String.eqb_eq in E as ->.
      destruct (String.eqb key key') eqn:E'; [|reflexivity].
      now apply String.eqb_eq in E'.
    + now rewrite IH.
Qed.

Lemma dict_get_not_in {V} (key : string) (kv : list (string * V)) :
  key ∉ kv.*1 -> dict_get key kv = None.
Proof.
  induction kv as [|[k w] kv IH]; [reflexivity|]. cbn [dict_get fmap list_fmap fst].
  intros Hnot. apply not_elem_of_cons in Hnot as [Hne Hnot].
  destruct (String.eqb k key) eqn:E; [|auto].
  apply String.eqb_eq in E. congruence.
Qed.

(* ------------------------------------------------------------------- *)
(* _deep_merge                                                          *)
(* ------------------------------------------------------------------- *)

Lemma deep_merge_foldl (base override : list (string * yaml)) :
  _deep_merge base override = foldl merge_item base override.
Proof.
  unfold _deep_merge. cbn [merge_into]. revert base.
  induction override as [|[key value] rest IH]; intros base; [reflexivity|].
  cbn [foldl]. rewrite <- IH. unfold merge_item. cbn [fst snd].
  destruct (dict_get key base) as [[]|], value; reflexivity.
Qed.

Lemma merge_item_lookup_eq (result : list (string * yaml)) (key : string)
    (value : yaml) :
  dict_get key (merge_item result (key, value))
  = match dict_get key result, value with
    | Some (YDict sub), YDict o => Some (YDict (_deep_merge sub o))
    | _, _ => Some value
    end.
Proof.
  unfold merge_item. cbn [fst snd].
  destruct (dict_get key result) as [[]|], value; apply dict_get_set_eq.
Qed.

Lemma merge_item_lookup_ne (result : list (string * yaml)) (key key' : string)
    (value : yaml) :
  key <> key' ->
  dict_get key' (merge_item result (key, value)) = dict_get key' result.
Proof.
  intros Hne. unfold merge_item. cbn [fst snd].
  destruct (dict_get key result) as [[]|], value;
    now apply dict_get_set_ne.
Qed.

(** X25: reading a key of _deep_merge(base, override), for an override
    with distinct keys: a key the override does not have keeps its base
    value; a key whose values are dicts on both sides holds the deep
    merge of the two; any other key of the override holds the
    override's value. *)
Theorem deep_merge_lookup (base override : list (string * yaml))
    (key : string) :
  NoDup override.*1 ->
  dict_get key (_deep_merge base override)
  = match dict_get key override with
    | None => dict_get key base
    | Some value =>
        match dict_get key base, value with
        | Some (YDict sub), YDict o => Some (YDict (_deep_merge sub o))
        | _, _ => Some value
        end
    end.
Proof.
  rewrite deep_merge_foldl. revert base.
  induction override as [|[k v] rest IH]; intros base Hnd; [reflexivity|].
  cbn [fmap list_fmap fst] in Hnd. apply NoDup_cons in Hnd as [Hk Hnd].
  cbn [foldl dict_get]. rewrite (IH _ Hnd).
  destruct (String.eqb k key) eqn:E.
  - apply String.eqb_eq in E as <-.
    rewrite (dict_get_not_in k rest Hk). apply merge_item_lookup_eq.
  - assert (Hne : k <> key) by (intros ->; now rewrite String.eqb_refl in E).
    rewrite (merge_item_lookup_ne base k key v Hne). reflexivity.
Qed.

Lemma deep_merge_lookup_witness :
  let file := [("context", YDict [("distill_threshold", YFloat (Q2Qc (1 # 2)))]);
               ("harness", YDict [("mode", YStr "supervised")])] in
  dict_get "execution" (_deep_merge DEFAULT_CONFIG file)
  = dict_get "execution" DEFAULT_CONFIG
  /\ dict_get "context" (_deep_merge DEFAULT_CONFIG file)
     = Some (YDict [("distill_threshold", YFloat (Q2Qc (1 # 2)));
                    ("max_window_tokens", YInt 128000)])
  /\ dict_get "harness" (_deep_merge DEFAULT_CONFIG file)
     = Some (YDict [("mode", YStr "supervised")]).
Proof.
  intros file.
  assert (Hnd : NoDup file.*1).
  { apply (bool_decide_unpack _). vm_compute. exact I. }
  split; [|split].
  - rewrite (deep_merge_lookup DEFAULT_CONFIG file "execution" Hnd). reflexivity.
  - rewrite (deep_merge_lookup DEFAULT_CONFIG file "context" Hnd). reflexivity.
  - rewrite (deep_merge_lookup DEFAULT_CONFIG file "harness" Hnd). reflexivity.
Defined.

(* ------------------------------------------------------------------- *)
(* show_status                                                          *)
(* ------------------------------------------------------------------- *)

Lemma count_status_json_to_dict (s : string) (l : list TaskItem) :
  Forall (fun item => StateManager.is_task_state item = true) l ->
  count_status_json s
    ((fun t => match t with
               | IsTaskState ts => TaskState.to_dict ts
               | Other raw => raw
               end) <$> l)
  = Ok (StateManager.count_status s l).
Proof.
  induction 1 as [|item l Hitem _ IH]; [reflexivity|].
  destruct item as [ts|raw]; [|discriminate Hitem].
  cbn [fmap list_fmap]. unfold TaskState.to_dict at 1.
  cbn [count_status_json]. fold (@fmap list _ TaskItem json).
  rewrite IH. cbn [rbind dict_get String.eqb Ascii.eqb Bool.eqb].
  f_equal. unfold StateManager.count_status. cbn [List.filter].
  destruct (String.eqb (TaskState.status ts) s); cbn [length]; lia.
Qed.

(** X26: after a save to specs/task-state.json of a plan that holds
    TaskState objects, show_status reports the same total, completed
    and failed counts as get_summary; its pending figure is
    total - completed - failed, which also counts the in_progress tasks
    (and any blocked ones); its progress figure is that of get_summary
    when there are tasks, and 0 for an empty plan, for which
    get_summary says 100. *)
Theorem show_status_after_save (now : string) (self : StateManager.t)
    (fs : FS) :
  StateManager.state_path self = "specs/task-state.json" ->
  StateManager.only_task_states self ->
  let summary := StateManager.get_summary self in
  exists report,
    show_status (snd (StateManager._save now self fs)) = Ok (Some report)
    /\ report_total report = StateManager.total summary
    /\ report_completed report = StateManager.completed summary
    /\ report_failed report = StateManager.failed summary
    /\ report_pending report
       = StateManager.total summary - StateManager.completed summary
         - StateManager.failed summary
    /\ StateManager.pending summary + StateManager.in_progress summary
       <= report_pending report
    /\ report_progress report
       = (if decide (StateManager.total summary = 0) then 0%Qc
          else StateManager.progress_pct summary)
    /\ (StateManager.total summary = 0 ->
        StateManager.progress_pct summary = Qc_of_Z 100).
Proof.
  intros Hpath Hts summary.
  unfold StateManager._save, show_status. cbn [snd]. rewrite Hpath.
  rewrite lookup_insert_eq.
  unfold PRDState.to_dict. cbn [dict_get String.eqb Ascii.eqb Bool.eqb default
    from_option id py_len py_iter rbind StateManager.state
    StateManager.set_state PRDState.tasks PRDState.set_updated_at].
  rewrite !(count_status_json_to_dict _ _ Hts). cbn [rbind].
  rewrite length_fmap.
  eexists. split; [reflexivity|]. cbn [report_total report_completed
    report_failed report_pending report_progress].
  subst summary. unfold StateManager.get_summary.
  cbn [StateManager.total StateManager.completed StateManager.failed
       StateManager.pending StateManager.in_progress StateManager.progress_pct].
  set (tasks := PRDState.tasks (StateManager.state self)).
  repeat (split; [reflexivity|]).
  split.
  - pose proof (StateManagerMore.four_statuses tasks) as H4.
    pose proof (StateManagerMore.count_status_bounds "blocked" tasks).
    lia.
  - split.
    + unfold StateManager.get_progress_percentage. fold tasks.
      destruct tasks as [|item rest] eqn:Etasks.
      * reflexivity.
      * destruct (decide (Z.of_nat (length (item :: rest)) > 0)) as [_|Hn];
          [|cbn [length] in Hn; lia].
        destruct (decide (Z.of_nat (length (item :: rest)) = 0)) as [Hz|_];
          [cbn [length] in Hz; lia|].
        reflexivity.
    + intros Hz. unfold StateManager.get_progress_percentage. fold tasks.
      destruct tasks; [reflexivity|cbn [length] in Hz; lia].
Qed.

Lemma show_status_after_save_witness :
  exists report,
    show_status
      (snd (StateManager._save "2026-01-02T00:00:00+00:00"
              MoreSamples.wedged_plan ∅))
    = Ok (Some report)
    /\ report_total report = 2
    /\ report_pending report = 2
    /\ StateManager.pending (StateManager.get_summary MoreSamples.wedged_plan)
       = 0.
Proof.
  destruct (show_status_after_save "2026-01-02T00:00:00+00:00"
              MoreSamples.wedged_plan ∅) as (report & Hshow & Ht & _ & _ & Hp & _).
  - reflexivity.
  - repeat constructor.
  - exists report. split; [exact Hshow|]. split; [exact Ht|].
    split; [exact Hp|reflexivity].
Defined.

End ChickenHawkMore.

(* ===================================================================== *)
(*  chicken_hawk.py: the loop                                            *)
(* ===================================================================== *)

Module HarnessFacts.

Import ChickenHawk StateManagerFacts.

(* ------------------------------------------------------------------- *)
(* task lists                                                           *)
(* ------------------------------------------------------------------- *)

Lemma find_task_by_id (l : list TaskItem) (i : nat) (ts : TaskState.t) :
  NoDup (task_ids l) ->
  l !! i = Some (IsTaskState ts) ->
  StateManager.find_task
    (fun t => String.eqb (TaskState.id t) (TaskState.id ts)) l
  = Some (i, ts).
Proof.
  revert i. induction l as [|item l IH]; intros i Hnd Hi; [discriminate|].
  destruct i as [|i]; cbn in Hi.
  - inversion Hi; subst. cbn. now rewrite String.eqb_refl.
  - destruct item as [t0|raw]; cbn [StateManager.find_task].
    + cbn [task_ids omap list_omap] in Hnd.
      apply NoDup_cons in Hnd as [Hnot Hnd].
      destruct (String.eqb (TaskState.id t0) (TaskState.id ts)) eqn:E.
      * exfalso. apply String.eqb_eq in E. apply Hnot. rewrite E.
        apply list_elem_of_omap. exists (IsTaskState ts).
        split; [|reflexivity]. now apply list_elem_of_lookup_2 in Hi.
      * now rewrite (IH i Hnd Hi).
    + cbn [task_ids omap list_omap] in Hnd. now rewrite (IH i Hnd Hi).
Qed.

Lemma task_ids_insert (l : list TaskItem) (i : nat) (ts ts' : TaskState.t) :
  l !! i = Some (IsTaskState ts) ->
  TaskState.id ts' = TaskState.id ts ->
  task_ids (<[i := IsTaskState ts']> l) = task_ids l.
Proof.
  revert i. induction l as [|item l IH]; intros i Hi Hid; [discriminate|].
  destruct i as [|i]; cbn in Hi.
  - inversion Hi; subst. cbn. now rewrite Hid.
  - change (<[S i := IsTaskState ts']> (item :: l))
      with (item :: <[i := IsTaskState ts']> l).
    unfold task_ids in *. cbn [omap list_omap].
    now rewrite (IH i Hi Hid).
Qed.

Lemma passes_needed_insert (m : Z) (l : list TaskItem) (i : nat)
    (item item' : TaskItem) :
  l !! i = Some item ->
  (passes_needed m (<[i := item']> l) + passes_for m item
   = passes_needed m l + passes_for m item')%nat.
Proof.
  unfold passes_needed. revert i.
  induction l as [|x l IH]; intros i Hi; [discriminate|].
  destruct i as [|i]; cbn in Hi.
  - inversion Hi; subst. cbn. lia.
  - change (<[S i := item']> (x :: l)) with (x :: <[i := item']> l).
    cbn [sum_list_with]. specialize (IH i Hi). lia.
Qed.

Lemma no_pending_exhausted (m : Z) (l : list TaskItem) :
  StateManager.find_task is_pending l = None ->
  Forall2 (exhausted m) l l.
Proof.
  induction l as [|item l IH]; intros Hfind; [constructor|].
  destruct item as [ts|raw]; cbn [StateManager.find_task] in Hfind.
  - destruct (is_pending ts) eqn:Hp; [discriminate|].
    destruct (StateManager.find_task is_pending l); [discriminate|].
    constructor; [|now apply IH]. unfold exhausted. now rewrite Hp.
  - destruct (StateManager.find_task is_pending l); [discriminate|].
    constructor; [reflexivity|now apply IH].
Qed.

Lemma no_pending_count (l : list TaskItem) :
  StateManager.find_task is_pending l = None ->
  StateManager.count_status "pending" l = 0.
Proof.
  unfold StateManager.count_status.
  induction l as [|item l IH]; intros Hfind; [reflexivity|].
  destruct item as [ts|raw]; cbn [StateManager.find_task] in Hfind;
    cbn [List.filter].
  - fold (is_pending ts). destruct (is_pending ts); [discriminate|].
    destruct (StateManager.find_task is_pending l); [discriminate|].
    now apply IH.
  - destruct (StateManager.find_task is_pending l); [discriminate|].
    now apply IH.
Qed.

Lemma no_pending_passes (m : Z) (l : list TaskItem) :
  StateManager.find_task is_pending l = None -> passes_needed m l = 0%nat.
Proof.
  unfold passes_needed.
  induction l as [|item l IH]; intros Hfind; [reflexivity|].
  destruct item as [ts|raw]; cbn [StateManager.find_task] in Hfind;
    cbn [sum_list_with passes_for].
  - destruct (is_pending ts); [discriminate|].
    destruct (StateManager.find_task is_pending l); [discriminate|].
    now rewrite IH.
  - destruct (StateManager.find_task is_pending l); [discriminate|].
    now rewrite IH.
Qed.

Lemma is_complete_no_pending (l : list TaskItem) :
  forallb (fun item => match item with
                       | IsTaskState ts =>
                           StateManager.terminal (TaskState.status ts)
                       | Other _ => true
                       end) l = true ->
  StateManager.find_task is_pending l = None.
Proof.
  induction l as [|item l IH]; intros Hall; [reflexivity|].
  cbn [forallb] in Hall. apply andb_true_iff in Hall as [Hitem Hall].
  destruct item as [ts|raw]; cbn [StateManager.find_task];
    rewrite (IH Hall); [|reflexivity].
  unfold is_pending. destruct (String.eqb (TaskState.status ts) "pending") eqn:E;
    [|reflexivity].
  apply String.eqb_eq in E. rewrite E in Hitem. discriminate Hitem.
Qed.

(* ------------------------------------------------------------------- *)
(* one pass of the loop                                                 *)
(* ------------------------------------------------------------------- *)

Section Loop.

Context `{FloatFormat}.
Variable env : HITL.settings.
Variable fmt_fixed0 : Qc -> string.
Variable Client : Type.
Variable execute_task : string -> Client -> result ExecResult * Client.
Variable Distiller : Type.
Variable distill :
  string -> string -> option string -> Distiller -> string * Distiller.

Local Abbreviation E := (engine Client Distiller).

(* the FOSTER prompt reads task.description, which a TaskState does not
   have *)
Lemma apply_effort_fails (task : TaskState.t) (self : E) :
  _apply_effort execute_task task self = (false, self).
Proof. reflexivity. Qed.

Lemma checkpoint_nonblocking_frame task_id reason description context io
    (h : HITL.t) :
  exists st h',
    HITL.checkpoint env task_id reason description context false io h
    = Some (st, h')
    /\ HITL.check_interval h' = HITL.check_interval h.
Proof.
  unfold HITL.checkpoint.
  destruct (bool_decide (reason = HITL.SCHEDULED) && _); [eauto|].
  cbn [negb]. eexists _, _. split; [reflexivity|].
  unfold HITL._notify. now destruct (negb _).
Qed.

Lemma scheduled_checkin_frame (io : pass_io) (task : TaskState.t) (self : E) :
  HITL.check_interval (hitl _ self) <> 0 ->
  exists h',
    scheduled_checkin env fmt_fixed0 io task self = Ok (set_hitl _ h' self)
    /\ HITL.check_interval h' = HITL.check_interval (hitl _ self).
Proof.
  intros Hint. unfold scheduled_checkin, HITL.should_checkpoint_scheduled.
  cbn [HITL.check_interval].
  destruct (decide (HITL.check_interval (hitl _ self) = 0)); [contradiction|].
  cbn [rbind fst snd]. destruct (bool_decide _).
  - match goal with
    | |- context [HITL.checkpoint ?e ?a ?b ?c ?d false ?io ?h] =>
        destruct (checkpoint_nonblocking_frame a b c d io h)
          as (st & h' & -> & Hh')
    end.
    exists h'. split; [reflexivity|]. rewrite Hh'. reflexivity.
  - eexists. split; [reflexivity|]. reflexivity.
Qed.

Lemma update_visuals_core (self : E) :
  same_core (_update_visuals self) self
  /\ hitl _ (_update_visuals self) = hitl _ self.
Proof.
  unfold _update_visuals, same_core.
  destruct (decide _); [|destruct (decide _)]; cbn; auto 10.
Qed.

Lemma handle_execution_failure_hitl (io : pass_io) (i : nat)
    (task : TaskState.t) (self : E) (fs : FS) :
  hitl _ (_handle_execution_failure io i task self fs).1 = hitl _ self.
Proof. unfold _handle_execution_failure. now destruct (decide _). Qed.

(* steps 1 to 4 when the context is within its budget: the effort
   fails, and the pass goes through _handle_execution_failure *)
Lemma steps_execution_failure (io : pass_io) (i : nat) (task : TaskState.t)
    (self : E) (fs : FS) :
  _should_distill self = Ok false ->
  HITL.check_interval (hitl _ self) <> 0 ->
  exists self',
    steps env fmt_fixed0 execute_task distill io i task self fs
    = Ok (self', (_handle_execution_failure io i task self fs).2)
    /\ same_core self' (_handle_execution_failure io i task self fs).1
    /\ HITL.check_interval (hitl _ self')
       = HITL.check_interval (hitl _ self).
Proof.
  intros Hdist Hint. unfold steps. rewrite Hdist. cbn [rbind].
  rewrite apply_effort_fails. cbn [fst snd rbind].
  set (hf := _handle_execution_failure io i task self fs).
  destruct (scheduled_checkin_frame io task hf.1) as (h' & -> & Hh').
  { subst hf. now rewrite handle_execution_failure_hitl. }
  cbn [rbind]. eexists. split; [reflexivity|].
  destruct (update_visuals_core (set_hitl _ h' hf.1)) as [Hcore Hhitl].
  split.
  - unfold same_core in *. cbn in Hcore. exact Hcore.
  - rewrite Hhitl. cbn [hitl set_hitl]. rewrite Hh'. subst hf.
    now rewrite handle_execution_failure_hitl.
Qed.

Lemma handle_execution_failure_effect (io : pass_io) (i : nat)
    (task : TaskState.t) (self : E) (fs : FS) :
  let tasks := PRDState.tasks (StateManager.state (state _ self)) in
  let m := metrics (aux _ self) in
  let max := max_retries (config (aux _ self)) in
  let hf := _handle_execution_failure io i task self fs in
  tasks !! i = Some (IsTaskState task) ->
  NoDup (task_ids tasks) ->
  PRDState.tasks (StateManager.state (state _ hf.1))
  = <[i := IsTaskState (handled max task)]> tasks
  /\ StateManager.state_path (state _ hf.1)
     = StateManager.state_path (state _ self)
  /\ hf.2 !! StateManager.state_path (state _ hf.1)
     = Some (PRDState.to_dict (StateManager.state (state _ hf.1)))
  /\ metrics (aux _ hf.1)
     = (if decide (TaskState.retry_count task < max)
        then mk_metrics (tasks_completed m) (tasks_failed m) (total_tokens m)
                        (distillations m) (retries m + 1) (gates_passed m)
                        (gates_failed m)
        else mk_metrics (tasks_completed m) (tasks_failed m + 1)
                        (total_tokens m) (distillations m) (retries m)
                        (gates_passed m) (gates_failed m))
  /\ config (aux _ hf.1) = config (aux _ self)
  /\ ledger (aux _ hf.1) = ledger (aux _ self)
  /\ opencode (aux _ hf.1) = opencode (aux _ self)
  /\ tokens _ hf.1 = tokens _ self
  /\ gatekeeper _ hf.1 = gatekeeper _ self.
Proof.
  intros tasks m max hf Hi Hnd. subst hf.
  unfold _handle_execution_failure, task_at. fold tasks. rewrite Hi.
  fold max. unfold handled.
  pose proof (find_task_by_id tasks i task Hnd Hi) as Hget.
  destruct (decide (TaskState.retry_count task < max)).
  - unfold StateManager.log_retry, StateManager.get_task. fold tasks.
    rewrite Hget. cbn. rewrite lookup_insert_eq. auto 10.
  - unfold StateManager.mark_failed, StateManager.get_task. fold tasks.
    rewrite Hget. cbn. rewrite lookup_insert_eq. auto 10.
Qed.

(* The pass of the loop on the first pending task, when it is not
   high-risk and the context is within its budget. *)
Lemma pass_on_pending (io : pass_io) (self : E) (fs : FS) (i : nat)
    (ts : TaskState.t) :
  let tasks := PRDState.tasks (StateManager.state (state _ self)) in
  let m := metrics (aux _ self) in
  let max := max_retries (config (aux _ self)) in
  StateManager.find_task is_pending tasks = Some (i, ts) ->
  NoDup (task_ids tasks) ->
  HITL.detect_high_risk (TaskState.title ts) = false ->
  HITL.check_interval (hitl _ self) <> 0 ->
  _should_distill self = Ok false ->
  exists self' fs',
    one_pass env _ (steps env fmt_fixed0 execute_task distill io
                          (next_position self))
             (head io) self fs
    = Some (next_pass _ self' fs')
    /\ PRDState.tasks (StateManager.state (state _ self'))
       = <[i := IsTaskState (after_failed_pass max (now (head io)) ts)]> tasks
    /\ StateManager.state_path (state _ self')
       = StateManager.state_path (state _ self)
    /\ fs' !! StateManager.state_path (state _ self')
       = Some (PRDState.to_dict (StateManager.state (state _ self')))
    /\ metrics (aux _ self')
       = (if decide (TaskState.retry_count ts < max)
          then mk_metrics (tasks_completed m) (tasks_failed m) (total_tokens m)
                          (distillations m) (retries m + 1) (gates_passed m)
                          (gates_failed m)
          else mk_metrics (tasks_completed m) (tasks_failed m + 1)
                          (total_tokens m) (distillations m) (retries m)
                          (gates_passed m) (gates_failed m))
    /\ config (aux _ self') = config (aux _ self)
    /\ ledger (aux _ self') = ledger (aux _ self)
    /\ opencode (aux _ self') = opencode (aux _ self)
    /\ tokens _ self' = tokens _ self
    /\ gatekeeper _ self' = gatekeeper _ self
    /\ HITL.check_interval (hitl _ self') = HITL.check_interval (hitl _ self).
Proof.
  intros tasks m max Hfind Hnd Hrisk Hint Hdist.
  destruct (find_task_Some _ _ _ _ Hfind) as [Hi Hpend].
  unfold one_pass, StateManager.get_next_task, next_position.
  fold tasks. fold is_pending. rewrite Hfind. cbn [from_option fst].
  set (picked := TaskState.set_started_at _ _).
  set (saved := StateManager._save _ _ _).
  destruct saved as [st fs1] eqn:Esaved.
  assert (Hst : st = (StateManager._save (now (head io))
                        (StateManager.update_task i picked (state _ self)) fs).1)
    by (fold saved; now rewrite Esaved).
  assert (Hfs1 : fs1 = (StateManager._save (now (head io))
                          (StateManager.update_task i picked (state _ self)) fs).2)
    by (fold saved; now rewrite Esaved).
  unfold body. change (TaskState.title picked) with (TaskState.title ts).
  rewrite Hrisk.
  set (self1 := set_state _ st self).
  assert (Htasks1 : PRDState.tasks (StateManager.state (state _ self1))
                    = <[i := IsTaskState picked]> tasks)
    by (subst self1 st; reflexivity).
  assert (Hi1 : PRDState.tasks (StateManager.state (state _ self1)) !! i
                = Some (IsTaskState picked)).
  { rewrite Htasks1. apply list_lookup_insert_eq.
    now apply lookup_lt_Some in Hi. }
  assert (Hnd1 : NoDup (task_ids
                          (PRDState.tasks (StateManager.state (state _ self1))))).
  { rewrite Htasks1. rewrite (task_ids_insert tasks i ts picked Hi eq_refl).
    exact Hnd. }
  destruct (steps_execution_failure io i picked self1 fs1)
    as (self' & -> & Hcore & Hint').
  { subst self1. exact Hdist. }
  { subst self1. exact Hint. }
  destruct Hcore as (Hs & Hg & Ht & Hc & Hm & Hl & Ho & _).
  destruct (handle_execution_failure_effect io i picked self1 fs1 Hi1 Hnd1)
    as (Ehs & Ehp & Ehf & Ehm & Ehc & Ehl & Eho & Eht & Ehg).
  eexists _, _. split; [reflexivity|].
  rewrite Hs, Hm, Hc, Hl, Ho, Ht, Hg, Hint'.
  rewrite Ehs, Ehp, Ehm, Ehc, Ehl, Eho, Eht, Ehg.
  split.
  { rewrite Htasks1, list_insert_insert_eq. reflexivity. }
  split; [subst self1 st; reflexivity|].
  split.
  { rewrite <- Ehp. rewrite Ehf. reflexivity. }
  subst self1. cbn. auto 10.
Qed.

(* ------------------------------------------------------------------- *)
(* the loop                                                             *)
(* ------------------------------------------------------------------- *)

Lemma passes_for_after (max : Z) (now : string) (ts : TaskState.t) :
  is_pending ts = true ->
  passes_for max (IsTaskState ts)
  = S (passes_for max (IsTaskState (after_failed_pass max now ts))).
Proof.
  intros Hp. unfold passes_for, after_failed_pass, handled. rewrite Hp.
  cbn [TaskState.retry_count TaskState.set_started_at TaskState.set_status].
  destruct (decide (TaskState.retry_count ts < max)).
  - unfold is_pending. cbn. f_equal. lia.
  - unfold is_pending. cbn. f_equal. lia.
Qed.

Lemma exhausted_after (max : Z) (now : string) (ts : TaskState.t)
    (item' : TaskItem) :
  is_pending ts = true ->
  exhausted max (IsTaskState (after_failed_pass max now ts)) item' ->
  exhausted max (IsTaskState ts) item'.
Proof.
  intros Hp. unfold exhausted, after_failed_pass, handled. rewrite Hp.
  cbn [TaskState.retry_count TaskState.set_started_at TaskState.set_status].
  destruct (decide (TaskState.retry_count ts < max)).
  - unfold is_pending. cbn. intros (ts' & -> & Hid & Hti & Hst & Hrc).
    exists ts'. repeat split; try assumption. lia.
  - unfold is_pending. cbn. intros ->. eexists. split; [reflexivity|].
    cbn. repeat split. lia.
Qed.

Lemma exhausted_insert (max : Z) (now : string) (l l' : list TaskItem)
    (i : nat) (ts : TaskState.t) :
  l !! i = Some (IsTaskState ts) ->
  is_pending ts = true ->
  Forall2 (exhausted max)
          (<[i := IsTaskState (after_failed_pass max now ts)]> l) l' ->
  Forall2 (exhausted max) l l'.
Proof.
  intros Hi Hp Hall. apply Forall2_same_length_lookup.
  apply Forall2_same_length_lookup in Hall as [Hlen Hall].
  rewrite length_insert in Hlen. split; [exact Hlen|].
  intros j x y Hx Hy. destruct (decide (j = i)) as [->|Hne].
  - rewrite Hi in Hx. inversion Hx; subst x.
    apply (exhausted_after max now ts y Hp). apply (Hall i); [|exact Hy].
    apply list_lookup_insert_eq. now apply lookup_lt_Some in Hi.
  - apply (Hall j); [|exact Hy]. now rewrite list_lookup_insert_ne.
Qed.

Lemma count_pending_after (max : Z) (now : string) (l : list TaskItem)
    (i : nat) (ts : TaskState.t) :
  l !! i = Some (IsTaskState ts) ->
  is_pending ts = true ->
  StateManager.count_status "pending"
    (<[i := IsTaskState (after_failed_pass max now ts)]> l)
  = StateManager.count_status "pending" l
    - (if decide (TaskState.retry_count ts < max) then 0 else 1).
Proof.
  intros Hi Hp. rewrite (StateManagerMore.count_status_insert _ _ _ ts _ Hi).
  unfold is_pending in Hp. rewrite Hp. unfold after_failed_pass, handled.
  cbn [TaskState.retry_count TaskState.set_started_at TaskState.set_status].
  destruct (decide (TaskState.retry_count ts < max)); cbn; lia.
Qed.

Lemma no_high_risk_after (max : Z) (now : string) (l : list TaskItem)
    (i : nat) (ts : TaskState.t) :
  l !! i = Some (IsTaskState ts) ->
  is_pending ts = true ->
  no_high_risk_pending l ->
  no_high_risk_pending (<[i := IsTaskState (after_failed_pass max now ts)]> l).
Proof.
  intros Hi Hp Hall. apply Forall_insert; [exact Hall|].
  intros _. pose proof (Forall_lookup_1 _ _ _ _ Hall Hi) as Hrisk.
  cbn in Hrisk. specialize (Hrisk Hp). unfold after_failed_pass, handled.
  now destruct (decide _).
Qed.

(* When no pending task is high-risk, the loop ends after the passes
   counted by passes_needed, with every task that was pending failed. *)
Lemma run_loop_exhausts (n : nat) :
  forall (passes : list pass_io) (self : E) (fs : FS),
    let tasks := PRDState.tasks (StateManager.state (state _ self)) in
    let m := metrics (aux _ self) in
    let max := max_retries (config (aux _ self)) in
    passes_needed max tasks = n ->
    (n < length passes)%nat ->
    ready self ->
    exists self' fs',
      run_loop env fmt_fixed0 execute_task distill passes self fs
      = Some (Ok (self', fs'))
      /\ Forall2 (exhausted max) tasks
                 (PRDState.tasks (StateManager.state (state _ self')))
      /\ StateManager.find_task is_pending
           (PRDState.tasks (StateManager.state (state _ self'))) = None
      /\ metrics (aux _ self')
         = mk_metrics (tasks_completed m)
             (tasks_failed m + StateManager.count_status "pending" tasks)
             (total_tokens m) (distillations m)
             (retries m + Z.of_nat n - StateManager.count_status "pending" tasks)
             (gates_passed m) (gates_failed m)
      /\ ledger (aux _ self') = ledger (aux _ self)
      /\ tokens _ self' = tokens _ self.
Proof.
  induction n as [|n IH]; intros passes self fs tasks m max Hn Hlen
    (Hnd & Hrisk & Hint & Hdist).
  - (* no pending task is left *)
    assert (Hnone : StateManager.find_task is_pending tasks = None).
    { destruct (StateManager.find_task is_pending tasks) as [[i ts]|] eqn:Hfind;
        [|reflexivity].
      destruct (find_task_Some _ _ _ _ Hfind) as [Hi Hp].
      pose proof (passes_needed_insert max tasks i (IsTaskState ts)
                    (Other JNull) Hi) as Hsum.
      cbn [passes_for] in Hsum. rewrite Hp in Hsum. lia. }
    assert (Hend : run_loop env fmt_fixed0 execute_task distill passes self fs
                   = Some (Ok (self, fs))).
    { destruct passes as [|io passes]; [cbn in Hlen; lia|].
      cbn [run_loop]. destruct (StateManager.is_complete _); [reflexivity|].
      unfold one_pass, StateManager.get_next_task. fold tasks. fold is_pending.
      now rewrite Hnone. }
    exists self, fs. split; [exact Hend|].
    split; [now apply no_pending_exhausted|]. split; [exact Hnone|].
    fold tasks. rewrite (no_pending_count tasks Hnone).
    split; [|auto]. subst m. destruct (metrics (aux _ self)). cbn.
    f_equal; lia.
  - destruct (StateManager.find_task is_pending tasks) as [[i ts]|] eqn:Hfind.
    2:{ rewrite (no_pending_passes max tasks Hfind) in Hn. discriminate Hn. }
    destruct (find_task_Some _ _ _ _ Hfind) as [Hi Hp].
    destruct passes as [|io passes]; [cbn in Hlen; lia|].
    cbn [length] in Hlen.
    assert (Hts : HITL.detect_high_risk (TaskState.title ts) = false).
    { pose proof (Forall_lookup_1 _ _ _ _ Hrisk Hi) as Hr. now apply Hr. }
    destruct (pass_on_pending io self fs i ts Hfind Hnd Hts Hint Hdist)
      as (self1 & fs1 & Hpass & Htasks1 & _ & _ & Hm1 & Hc1 & Hl1 & _ & Ht1
          & _ & Hint1).
    fold tasks in Htasks1. fold max in Htasks1, Hm1. fold m in Hm1.
    assert (Hincomplete : StateManager.is_complete (state _ self) = false).
    { unfold StateManager.is_complete. fold tasks.
      apply (forallb_false_at _ _ i (IsTaskState ts) Hi).
      unfold is_pending in Hp. apply String.eqb_eq in Hp. now rewrite Hp. }
    cbn [run_loop]. rewrite Hincomplete, Hpass.
    destruct (IH passes self1 fs1) as (self' & fs' & Hrun & Hex & Hnone & Hm'
                                       & Hl' & Ht').
    + rewrite Hc1, Htasks1. fold max.
      pose proof (passes_needed_insert max tasks i (IsTaskState ts)
                    (IsTaskState (after_failed_pass max (now (head io)) ts))
                    Hi) as Hsum.
      rewrite (passes_for_after max (now (head io)) ts Hp) in Hsum.
      fold tasks in Hn. lia.
    + lia.
    + unfold ready. rewrite Htasks1. split.
      { rewrite (task_ids_insert tasks i ts _ Hi); [exact Hnd|].
        unfold after_failed_pass, handled. now destruct (decide _). }
      split; [now apply no_high_risk_after|].
      split; [now rewrite Hint1|].
      unfold _should_distill in *. now rewrite Ht1, Hc1.
    + exists self', fs'. split; [exact Hrun|].
      rewrite Hc1, Htasks1 in Hex. fold max in Hex.
      split; [exact (exhausted_insert max _ tasks _ i ts Hi Hp Hex)|].
      split; [exact Hnone|].
      split; [|split; [now rewrite Hl'|now rewrite Ht']].
      rewrite Hm', Htasks1, Hm1.
      rewrite (count_pending_after max _ tasks i ts Hi Hp).
      destruct (decide (TaskState.retry_count ts < max)); cbn; f_equal; lia.
Qed.

Lemma exhausted_count_complete (max : Z) (l l' : list TaskItem) :
  Forall2 (exhausted max) l l' ->
  StateManager.count_status "complete" l'
  = StateManager.count_status "complete" l.
Proof.
  induction 1 as [|item item' l l' Hitem _ IH]; [reflexivity|].
  rewrite !StateManagerMore.count_status_cons, IH. f_equal.
  destruct item as [ts|raw]; cbn in Hitem; [|now subst].
  destruct (is_pending ts) eqn:Hp; [|now subst].
  destruct Hitem as (ts' & -> & _ & _ & Hst & _). rewrite Hst.
  unfold is_pending in Hp. apply String.eqb_eq in Hp. now rewrite Hp.
Qed.

Lemma exhausted_count_failed (max : Z) (l l' : list TaskItem) :
  Forall2 (exhausted max) l l' ->
  StateManager.count_status "failed" l'
  = StateManager.count_status "failed" l
    + StateManager.count_status "pending" l.
Proof.
  induction 1 as [|item item' l l' Hitem _ IH]; [reflexivity|].
  rewrite !StateManagerMore.count_status_cons, IH.
  destruct item as [ts|raw]; cbn in Hitem; [|subst; lia].
  unfold is_pending in Hitem.
  destruct (String.eqb (TaskState.status ts) "pending") eqn:Hp.
  - destruct Hitem as (ts' & -> & _ & _ & Hst & _). rewrite Hst.
    apply String.eqb_eq in Hp. rewrite Hp. cbn. lia.
  - subst. lia.
Qed.

Lemma exhausted_is_complete (max : Z) (l l' : list TaskItem) :
  Forall2 (exhausted max) l l' ->
  forallb (fun item => match item with
                       | IsTaskState ts =>
                           StateManager.terminal (TaskState.status ts)
                       | Other _ => true
                       end) l'
  = forallb (fun item => match item with
                         | IsTaskState ts =>
                             is_pending ts
                             || StateManager.terminal (TaskState.status ts)
                         | Other _ => true
                         end) l.
Proof.
  induction 1 as [|item item' l l' Hitem _ IH]; [reflexivity|].
  cbn [forallb]. rewrite IH. f_equal.
  destruct item as [ts|raw]; cbn in Hitem; [|now subst].
  destruct (is_pending ts) eqn:Hp; [|now subst].
  destruct Hitem as (ts' & -> & _ & _ & Hst & _). now rewrite Hst.
Qed.

(* ------------------------------------------------------------------- *)
(* the theorems                                                         *)
(* ------------------------------------------------------------------- *)

(** X27: a pass of the loop never completes the task it picks.  For the
    first pending task of a plan with distinct ids, not high-risk by
    its title, and a context within its budget: whatever the OpenCode
    client, the distiller and the gates would answer, _apply_effort
    fails before the client is called (the FOSTER prompt reads
    task.description, which a TaskState does not have), and the pass
    ends in _handle_execution_failure: with retries left the task is
    pending again with retry_count one higher and last_failure
    Execution exception, otherwise it is failed; the plan is saved, the
    retries or tasks_failed counter goes up by one, and no ledger line
    is written. *)
Theorem pass_never_completes_its_task (io : pass_io) (self : E) (fs : FS)
    (i : nat) (ts : TaskState.t) :
  let tasks := PRDState.tasks (StateManager.state (state _ self)) in
  let m := metrics (aux _ self) in
  let max := max_retries (config (aux _ self)) in
  StateManager.find_task is_pending tasks = Some (i, ts) ->
  NoDup (task_ids tasks) ->
  HITL.detect_high_risk (TaskState.title ts) = false ->
  HITL.check_interval (hitl _ self) <> 0 ->
  _should_distill self = Ok false ->
  exists self' fs' ts',
    one_pass env _ (steps env fmt_fixed0 execute_task distill io
                          (next_position self))
             (head io) self fs
    = Some (next_pass _ self' fs')
    /\ PRDState.tasks (StateManager.state (state _ self'))
       = <[i := IsTaskState ts']> tasks
    /\ TaskState.id ts' = TaskState.id ts
    /\ TaskState.status ts'
       = (if decide (TaskState.retry_count ts < max)
          then "pending" else "failed")
    /\ TaskState.retry_count ts'
       = (if decide (TaskState.retry_count ts < max)
          then TaskState.retry_count ts + 1 else TaskState.retry_count ts)
    /\ TaskState.last_failure ts'
       = (if decide (TaskState.retry_count ts < max)
          then Some "Execution exception" else TaskState.last_failure ts)
    /\ TaskState.completed_at ts' = TaskState.completed_at ts
    /\ fs' !! StateManager.state_path (state _ self')
       = Some (PRDState.to_dict (StateManager.state (state _ self')))
    /\ tasks_completed (metrics (aux _ self')) = tasks_completed m
    /\ retries (metrics (aux _ self'))
       = (if decide (TaskState.retry_count ts < max)
          then retries m + 1 else retries m)
    /\ tasks_failed (metrics (aux _ self'))
       = (if decide (TaskState.retry_count ts < max)
          then tasks_failed m else tasks_failed m + 1)
    /\ total_tokens (metrics (aux _ self')) = total_tokens m
    /\ ledger (aux _ self') = ledger (aux _ self)
    /\ opencode (aux _ self') = opencode (aux _ self).
Proof.
  intros tasks m max Hfind Hnd Hrisk Hint Hdist.
  destruct (pass_on_pending io self fs i ts Hfind Hnd Hrisk Hint Hdist)
    as (self' & fs' & Hpass & Htasks & _ & Hfs & Hm & _ & Hl & Ho & _).
  fold tasks in Htasks. fold max in Htasks, Hm. fold m in Hm.
  exists self', fs', (after_failed_pass max (now (head io)) ts).
  split; [exact Hpass|]. split; [exact Htasks|].
  rewrite Hm. unfold after_failed_pass, handled.
  cbn [TaskState.retry_count TaskState.set_started_at TaskState.set_status].
  destruct (decide (TaskState.retry_count ts < max)); cbn; auto 15.
Qed.

(** X28: the loop of run fails every pending task.  For a plan with
    distinct ids none of whose pending tasks is high-risk, a check
    interval other than 0 and a context within its budget, the loop
    ends after passes_needed passes (one for each retry left of each
    pending task, and one more for each), whatever the client, the
    distiller and the gates would answer: every task that was pending
    is failed, with retry_count raised to max_retries if it was below,
    every other entry is as it was, no task has been completed, and the
    ledger has no new line. *)
Theorem loop_fails_every_pending_task (passes : list pass_io) (self : E)
    (fs : FS) :
  let tasks := PRDState.tasks (StateManager.state (state _ self)) in
  let m := metrics (aux _ self) in
  let max := max_retries (config (aux _ self)) in
  NoDup (task_ids tasks) ->
  no_high_risk_pending tasks ->
  HITL.check_interval (hitl _ self) <> 0 ->
  _should_distill self = Ok false ->
  (passes_needed max tasks < length passes)%nat ->
  exists self' fs',
    let tasks' := PRDState.tasks (StateManager.state (state _ self')) in
    let m' := metrics (aux _ self') in
    run_loop env fmt_fixed0 execute_task distill passes self fs
    = Some (Ok (self', fs'))
    /\ Forall2 (exhausted max) tasks tasks'
    /\ StateManager.count_status "pending" tasks' = 0
    /\ StateManager.count_status "complete" tasks'
       = StateManager.count_status "complete" tasks
    /\ tasks_completed m' = tasks_completed m
    /\ tasks_failed m'
       = tasks_failed m + StateManager.count_status "pending" tasks
    /\ retries m' + tasks_failed m'
       = retries m + tasks_failed m + Z.of_nat (passes_needed max tasks)
    /\ ledger (aux _ self') = ledger (aux _ self).
Proof.
  intros tasks m max Hnd Hrisk Hint Hdist Hlen.
  destruct (run_loop_exhausts (passes_needed max tasks) passes self fs
              eq_refl Hlen (conj Hnd (conj Hrisk (conj Hint Hdist))))
    as (self' & fs' & Hrun & Hex & Hnone & Hm & Hl & _).
  fold tasks in Hex, Hm. fold max in Hex, Hm. fold m in Hm.
  exists self', fs'. cbn zeta. split; [exact Hrun|]. split; [exact Hex|].
  split; [now apply no_pending_count|].
  split; [exact (exhausted_count_complete max _ _ Hex)|].
  rewrite Hm. cbn. repeat split; try assumption; lia.
Qed.

(** X29: run reports success without a single completed task.  For a
    plan with distinct ids whose entries are all pending, complete or
    failed, with no high-risk pending task, a check interval other than
    0 and a context within its budget, run returns True; the tasks
    counted as complete are those that were complete before, every
    task that was pending is counted as failed, the tasks_completed
    counter has not moved, and the last ledger line is the
    LOOP_COMPLETE line of _finalize, the only one written. *)
Theorem run_returns_true_when_every_task_failed (passes : list pass_io)
    (now_final : string) (self : E) (fs : FS) :
  let tasks := PRDState.tasks (StateManager.state (state _ self)) in
  let m := metrics (aux _ self) in
  let max := max_retries (config (aux _ self)) in
  NoDup (task_ids tasks) ->
  no_high_risk_pending tasks ->
  HITL.check_interval (hitl _ self) <> 0 ->
  _should_distill self = Ok false ->
  (passes_needed max tasks < length passes)%nat ->
  Forall (fun item => exists ts,
            item = IsTaskState ts
            /\ TaskState.status ts ∈ ["pending"; "complete"; "failed"]) tasks ->
  exists self' fs',
    let tasks' := PRDState.tasks (StateManager.state (state _ self')) in
    let m' := metrics (aux _ self') in
    run env fmt_fixed0 execute_task distill passes now_final self fs
    = Some (Ok (true, (self', fs')))
    /\ StateManager.count_status "complete" tasks'
       = StateManager.count_status "complete" tasks
    /\ StateManager.count_status "failed" tasks'
       = StateManager.count_status "failed" tasks
         + StateManager.count_status "pending" tasks
    /\ tasks_completed m' = tasks_completed m
    /\ ledger (aux _ self')
       = ledger (aux _ self)
         ++ [mk_line now_final "FINAL" "LOOP_COMPLETE" (total_tokens m)
               (pretty (gates_passed m) +:+ " total")
               ("Completed: " +:+ pretty (tasks_completed m) +:+ ", Failed: "
                +:+ pretty (tasks_failed m
                            + StateManager.count_status "pending" tasks))].
Proof.
  intros tasks m max Hnd Hrisk Hint Hdist Hlen Hstatus.
  unfold run.
  set (self0 := render_stage "hatchling" 0%Qc self).
  destruct (run_loop_exhausts (passes_needed max tasks) passes self0 fs
              eq_refl Hlen (conj Hnd (conj Hrisk (conj Hint Hdist))))
    as (self' & fs' & Hrun & Hex & Hnone & Hm & Hl & _).
  change (PRDState.tasks (StateManager.state (state _ self0))) with tasks
    in Hex, Hm.
  change (max_retries (config (aux _ self0))) with max in Hex, Hm.
  change (metrics (aux _ self0)) with m in Hm.
  change (ledger (aux _ self0)) with (ledger (aux _ self)) in Hl.
  assert (Hcomplete : StateManager.is_complete (state _ self') = true).
  { unfold StateManager.is_complete. rewrite (exhausted_is_complete max _ _ Hex).
    apply forallb_forall. intros item Hin. apply list_elem_of_In in Hin.
    rewrite Forall_forall in Hstatus.
    destruct (Hstatus item Hin) as (ts & -> & Hst). unfold is_pending.
    repeat (apply elem_of_cons in Hst as [->|Hst]; [reflexivity|]).
    inversion Hst. }
  assert (Hfin : StateManager.is_complete
                   (state _ (_finalize now_final self')) = true).
  { unfold _finalize. rewrite Hcomplete. exact Hcomplete. }
  exists (_finalize now_final self'), fs'. cbn zeta. rewrite Hrun. split.
  { now rewrite Hfin. }
  unfold _finalize. rewrite Hcomplete. cbn.
  split; [exact (exhausted_count_complete max _ _ Hex)|].
  split; [exact (exhausted_count_failed max _ _ Hex)|].
  rewrite Hm, Hl. cbn. split; reflexivity.
Qed.

(** X30: _handle_gate_failure, for the task object at position i of a
    plan with distinct ids.  With retries left, the task is pending
    again with retry_count one higher and the gates' failure_reason as
    last_failure, the retries counter goes up by one, and the ledger
    line written afterwards reads the retry_count that log_retry has
    just raised and adds one again: it says Retry #(retry_count + 2).
    Without retries left the task is failed, tasks_failed goes up by
    one, and no ledger line is written.  Either way gates_failed grows
    by the number of gates that did not pass. *)
Theorem gate_failure_retry_or_fail (io : pass_io) (i : nat)
    (task : TaskState.t) (gate_result : GateResult.t) (self : E) (fs : FS) :
  let tasks := PRDState.tasks (StateManager.state (state _ self)) in
  let m := metrics (aux _ self) in
  let max := max_retries (config (aux _ self)) in
  let failed_gates :=
    fst <$> List.filter (fun kv => negb (snd kv))
                        (GateResult.gate_status gate_result) in
  let self' := (_handle_gate_failure io i task gate_result self fs).1 in
  let tasks' := PRDState.tasks (StateManager.state (state _ self')) in
  let m' := metrics (aux _ self') in
  tasks !! i = Some (IsTaskState task) ->
  NoDup (task_ids tasks) ->
  gates_failed m' = gates_failed m + Z.of_nat (length failed_gates)
  /\ tasks_completed m' = tasks_completed m
  /\ (TaskState.retry_count task < max ->
      tasks'
      = <[i := IsTaskState
                 (TaskState.set_status "pending"
                    (TaskState.set_last_failure
                       (GateResult.failure_reason gate_result)
                       (TaskState.set_retry_count
                          (TaskState.retry_count task + 1) task)))]> tasks
      /\ retries m' = retries m + 1
      /\ tasks_failed m' = tasks_failed m
      /\ ledger (aux _ self')
         = ledger (aux _ self)
           ++ [mk_line (now (head io)) (TaskState.id task) "GATE_FAILURE"
                 (GateResult.tokens_used gate_result)
                 (pretty (7 - Z.of_nat (length failed_gates)) +:+ "/7")
                 ("Failed: " +:+ join ", " failed_gates +:+ ". Retry #"
                  +:+ pretty (TaskState.retry_count task + 2))])
  /\ (max <= TaskState.retry_count task ->
      tasks' = <[i := IsTaskState (TaskState.set_status "failed" task)]> tasks
      /\ retries m' = retries m
      /\ tasks_failed m' = tasks_failed m + 1
      /\ ledger (aux _ self') = ledger (aux _ self)).
Proof.
  intros tasks m max failed_gates self' tasks' m' Hi Hnd.
  subst self' tasks' m'. unfold _handle_gate_failure.
  fold failed_gates.
  set (self_m := set_metrics _ self).
  assert (Hat : task_at i task self_m = task).
  { unfold task_at. subst self_m. cbn. fold tasks. now rewrite Hi. }
  change (max_retries (config (aux _ self_m))) with max.
  pose proof (find_task_by_id tasks i task Hnd Hi) as Hget.
  destruct (decide (TaskState.retry_count (task_at i task self_m) < max))
    as [Hlt|Hge]; rewrite Hat in *.
  - unfold log_retry, StateManager.get_task.
    change (PRDState.tasks (StateManager.state (state _ self_m))) with tasks.
    rewrite Hget. unfold task_at. cbn. rewrite list_lookup_insert_eq
      by (now apply lookup_lt_Some in Hi).
    cbn. replace (TaskState.retry_count task + 1 + 1)
      with (TaskState.retry_count task + 2) by lia.
    split; [reflexivity|]. split; [reflexivity|].
    split; [auto|]. intros Hmax. lia.
  - unfold StateManager.mark_failed, StateManager.get_task.
    change (PRDState.tasks (StateManager.state (state _ self_m))) with tasks.
    rewrite Hget. cbn.
    split; [reflexivity|]. split; [reflexivity|].
    split; [intros Hlt; lia|]. auto.
Qed.

End Loop.

Import Samples MoreSamples.

Lemma pass_never_completes_its_task_witness :
  exists self' fs' ts',
    one_pass default_settings _
      (steps (H := plain_format) default_settings whole_number willing_client
             silent_distiller quiet_pass (next_position fresh_engine))
      (head quiet_pass) fresh_engine ∅
    = Some (next_pass _ self' fs')
    /\ PRDState.tasks (StateManager.state (state _ self'))
       = [IsTaskState task_001; IsTaskState ts']
    /\ TaskState.status ts' = "pending"
    /\ TaskState.retry_count ts' = 1
    /\ TaskState.last_failure ts' = Some "Execution exception"
    /\ ledger (aux _ self') = []
    /\ opencode (aux _ self') = tt.
Proof.
  destruct (pass_never_completes_its_task (H := plain_format) default_settings
              whole_number unit willing_client unit silent_distiller
              quiet_pass fresh_engine ∅ 1%nat task_002)
    as (self' & fs' & ts' & Hpass & Htasks & _ & Hst & Hrc & Hlf & _ & _ & _
        & _ & _ & _ & Hl & Ho).
  - reflexivity.
  - apply (bool_decide_unpack _). vm_compute. exact I.
  - reflexivity.
  - cbn. lia.
  - vm_compute. reflexivity.
  - exists self', fs', ts'. split; [exact Hpass|]. split; [exact Htasks|].
    split; [exact Hst|]. split; [exact Hrc|]. split; [exact Hlf|].
    split; [exact Hl|exact Ho].
Defined.

Lemma loop_fails_every_pending_task_witness :
  exists self' fs',
    run_loop (H := plain_format) default_settings whole_number willing_client
             silent_distiller (replicate 7 quiet_pass) fresh_engine ∅
    = Some (Ok (self', fs'))
    /\ StateManager.count_status "pending"
         (PRDState.tasks (StateManager.state (state _ self'))) = 0
    /\ StateManager.count_status "complete"
         (PRDState.tasks (StateManager.state (state _ self'))) = 1
    /\ tasks_completed (metrics (aux _ self')) = 0
    /\ tasks_failed (metrics (aux _ self')) = 1
    /\ ledger (aux _ self') = [].
Proof.
  destruct (loop_fails_every_pending_task (H := plain_format) default_settings
              whole_number unit willing_client unit silent_distiller
              (replicate 7 quiet_pass) fresh_engine ∅)
    as (self' & fs' & Hrun & _ & Hp & Hc & Htc & Htf & _ & Hl).
  - apply (bool_decide_unpack _). vm_compute. exact I.
  - constructor; [intros Hp; discriminate Hp|].
    constructor; [intros _; reflexivity|]. constructor.
  - cbn. lia.
  - vm_compute. reflexivity.
  - vm_compute. lia.
  - exists self', fs'. split; [exact Hrun|]. split; [exact Hp|].
    split; [exact Hc|]. split; [exact Htc|]. split; [exact Htf|exact Hl].
Defined.

Lemma run_returns_true_when_every_task_failed_witness :
  exists self' fs',
    run (H := plain_format) default_settings whole_number willing_client
        silent_distiller (replicate 7 quiet_pass) "2026-01-03T00:00:00+00:00"
        fresh_engine ∅
    = Some (Ok (true, (self', fs')))
    /\ StateManager.count_status "complete"
         (PRDState.tasks (StateManager.state (state _ self'))) = 1
    /\ StateManager.count_status "failed"
         (PRDState.tasks (StateManager.state (state _ self'))) = 1
    /\ tasks_completed (metrics (aux _ self')) = 0.
Proof.
  destruct (run_returns_true_when_every_task_failed (H := plain_format)
              default_settings whole_number unit willing_client unit
              silent_distiller (replicate 7 quiet_pass)
              "2026-01-03T00:00:00+00:00" fresh_engine ∅)
    as (self' & fs' & Hrun & Hc & Hf & Htc & _).
  - apply (bool_decide_unpack _). vm_compute. exact I.
  - constructor; [intros Hp; discriminate Hp|].
    constructor; [intros _; reflexivity|]. constructor.
  - cbn. lia.
  - vm_compute. reflexivity.
  - vm_compute. lia.
  - constructor.
    { exists task_001. split; [reflexivity|]. apply list_elem_of_In.
      cbn. tauto. }
    constructor; [|constructor].
    exists task_002. split; [reflexivity|]. apply list_elem_of_In.
    cbn. tauto.
  - exists self', fs'. split; [exact Hrun|]. split; [exact Hc|].
    split; [exact Hf|exact Htc].
Defined.

Lemma gate_failure_retry_or_fail_witness :
  let self' :=
    (_handle_gate_failure quiet_pass 1 task_002 two_gates_failed
                          fresh_engine ∅).1 in
  ledger (aux _ self')
  = [mk_line "2026-01-02T00:00:00+00:00" "task-002" "GATE_FAILURE" 120 "5/7"
       "Failed: technical, ethics. Retry #2"]
  /\ ((fun r => TaskState.retry_count r.2) <$>
        StateManager.get_task "task-002" (state _ self'))
     = Some 1.
Proof.
  intros self'.
  destruct (gate_failure_retry_or_fail unit unit quiet_pass 1 task_002
              two_gates_failed fresh_engine ∅)
    as (_ & _ & Hretry & _).
  - reflexivity.
  - apply (bool_decide_unpack _). vm_compute. exact I.
  - destruct Hretry as (Htasks & _ & _ & Hl); [cbn; lia|].
    split; [exact Hl|]. subst self'. unfold StateManager.get_task.
    rewrite Htasks. reflexivity.
Defined.

End HarnessFacts.
